(** * Teleport: connection resumption hook and Machine ID bot resources

    A shallow embedding of

    - package [resumption]: the SSH server wrapper that advertises
      connection resumption in the server version banner, sniffs the
      client prelude and keeps the attach count and detachment timer of
      every resumable connection;
    - package [machineidv1] (lib/auth/machineid/machineidv1/bot_service.go):
      the conversion of a bot into its backing user and role, and
      [UpsertBot].

    Go strings and byte slices are modelled as [string] (a list of 8-bit
    characters), machine integers as [Z] with their wrap-around written
    out, Go maps as [gmap], and side effects as explicit state passing
    over a world that records every action of the handler. *)

From Stdlib Require Import ZArith Ascii String List Lia.
From stdpp Require Import base gmap strings list fin_maps.

Local Open Scope string_scope.

(** ** Go runtime pieces used by both packages *)

Module Go.

(** Bytes that cannot be written inside a string literal. *)
Definition NUL : ascii := "000"%char.
Definition CR : ascii := "013"%char.
Definition LF : ascii := "010"%char.
Definition CRLF : string := String CR (String LF "").

(** [s[n:]] and [s[:n]] for a string [s]. *)
Fixpoint drop_str (n : nat) (s : string) : string :=
  match n, s with
  | O, _ => s
  | S k, String _ s' => drop_str k s'
  | S _, EmptyString => EmptyString
  end.

Fixpoint take_str (n : nat) (s : string) : string :=
  match n, s with
  | O, _ => EmptyString
  | S k, String c s' => String c (take_str k s')
  | S _, EmptyString => EmptyString
  end.

(** [strings.HasPrefix]. *)
Fixpoint HasPrefix (s p : string) : bool :=
  match p, s with
  | EmptyString, _ => true
  | String a p', String b s' => if Ascii.eqb a b then HasPrefix s' p' else false
  | String _ _, EmptyString => false
  end.

(** [strings.ReplaceAll s old new] for a non-empty [old]: the
    non-overlapping occurrences of [old] are replaced from left to
    right.  [skip] counts the bytes of a match that are still to be
    stepped over. *)
Fixpoint replace_from (old new : string) (skip : nat) (s : string) : string :=
  match s with
  | EmptyString => EmptyString
  | String c s' =>
      match skip with
      | S k => replace_from old new k s'
      | O =>
          if HasPrefix s old
          then new +:+ replace_from old new (String.length old - 1) s'
          else String c (replace_from old new 0 s')
      end
  end.

Definition ReplaceAll (s old new : string) : string :=
  replace_from old new 0 s.

(** [fmt.Sprintf] restricted to string operands and the verbs [%v],
    [%s] and [%%]; a missing operand prints as Go prints it. *)
Fixpoint Sprintf (format : string) (args : list string) : string :=
  match format with
  | EmptyString => EmptyString
  | String "%" (String "v" rest) =>
      match args with
      | a :: args' => a +:+ Sprintf rest args'
      | [] => "%!v(MISSING)" +:+ Sprintf rest []
      end
  | String "%" (String "s" rest) =>
      match args with
      | a :: args' => a +:+ Sprintf rest args'
      | [] => "%!s(MISSING)" +:+ Sprintf rest []
      end
  | String "%" (String "%" rest) => String "%" (Sprintf rest args)
  | String c rest => String c (Sprintf rest args)
  end.

(** *** encoding/base64 *)

Definition encodeStd : string :=
  "ABCDEFGHIJKLMNOPQRSTUVWXYZabcdefghijklmnopqrstuvwxyz0123456789+/".

(** [enc.encode[i]] *)
Definition encode_at (i : Z) : ascii :=
  match String.get (Z.to_nat i) encodeStd with
  | Some c => c
  | None => NUL
  end.

(** [uint(b)] *)
Definition uint (b : ascii) : Z := Z.of_N (N_of_ascii b).

(** [Encoding.Encode] with [padChar = NoPadding] ([RawStdEncoding]):
    whole groups of three bytes first, then the one or two bytes that
    remain. *)
Fixpoint Encode (src : string) : string :=
  match src with
  | String b0 (String b1 (String b2 rest)) =>
      let val := Z.lor (Z.lor (Z.shiftl (uint b0) 16) (Z.shiftl (uint b1) 8)) (uint b2) in
      String (encode_at (Z.land (Z.shiftr val 18) 63))
     (String (encode_at (Z.land (Z.shiftr val 12) 63))
     (String (encode_at (Z.land (Z.shiftr val 6) 63))
     (String (encode_at (Z.land val 63))
             (Encode rest))))
  | String b0 (String b1 EmptyString) =>
      let val := Z.lor (Z.shiftl (uint b0) 16) (Z.shiftl (uint b1) 8) in
      String (encode_at (Z.land (Z.shiftr val 18) 63))
     (String (encode_at (Z.land (Z.shiftr val 12) 63))
     (String (encode_at (Z.land (Z.shiftr val 6) 63))
             EmptyString))
  | String b0 EmptyString =>
      let val := Z.shiftl (uint b0) 16 in
      String (encode_at (Z.land (Z.shiftr val 18) 63))
     (String (encode_at (Z.land (Z.shiftr val 12) 63))
             EmptyString)
  | EmptyString => EmptyString
  end.

(** [base64.RawStdEncoding.EncodeToString] *)
Definition RawStdEncoding_EncodeToString (src : string) : string := Encode src.

(** [enc.EncodedLen(n)] without padding. *)
Definition EncodedLen (n : nat) : nat := n / 3 * 4 + (n mod 3 * 8 + 5) / 6.

(** Membership of a byte in a string, as a boolean. *)
Fixpoint mem_str (c : ascii) (s : string) : bool :=
  match s with
  | EmptyString => false
  | String d s' => Ascii.eqb c d || mem_str c s'
  end.

Fixpoint forall_str (p : ascii -> bool) (s : string) : bool :=
  match s with
  | EmptyString => true
  | String c s' => p c && forall_str p s'
  end.

(** A line of text as a banner has to be one: it ends with CRLF and
    has no CR and no LF before that. *)
Definition isLine (s : string) : bool :=
  let n := String.length s - 2 in
  String.eqb (drop_str n s) CRLF
  && negb (mem_str CR (take_str n s))
  && negb (mem_str LF (take_str n s)).

(** *** Base64 as the spec names it *)

(** "Base64 (unpadded standard alphabet)", written from the words of
    RFC 4648 §4 and not from the encoder above, to compare the encoder
    with: the bytes are a string of bits, the most significant bit of
    each byte first; the bits are cut into groups of six, the last
    group filled up with zero bits; each group, read as a number from 0
    to 63, selects a character of the alphabet [A-Z], [a-z], [0-9],
    [+], [/]; no padding character is added. *)
Definition bits_of_byte (b : ascii) : list bool :=
  let 'Ascii b0 b1 b2 b3 b4 b5 b6 b7 := b in [b7; b6; b5; b4; b3; b2; b1; b0].

Fixpoint bits (s : string) : list bool :=
  match s with
  | EmptyString => []
  | String c s' => (bits_of_byte c ++ bits s')%list
  end.

Fixpoint sextets (bs : list bool) : list (list bool) :=
  match bs with
  | [] => []
  | x0 :: x1 :: x2 :: x3 :: x4 :: x5 :: rest => [x0; x1; x2; x3; x4; x5] :: sextets rest
  | short => [firstn 6 (short ++ [false; false; false; false; false])%list]
  end.

Definition sextet_index (g : list bool) : nat :=
  fold_left (fun n (b : bool) => 2 * n + (if b then 1 else 0)) g 0.

Definition std_char (i : nat) : ascii :=
  if Nat.ltb i 26 then ascii_of_nat (nat_of_ascii "A" + i)
  else if Nat.ltb i 52 then ascii_of_nat (nat_of_ascii "a" + (i - 26))
  else if Nat.ltb i 62 then ascii_of_nat (nat_of_ascii "0" + (i - 52))
  else if Nat.eqb i 62 then "+"%char
  else "/"%char.

Definition base64_unpadded (s : string) : string :=
  string_of_list_ascii (map (fun g => std_char (sextet_index g)) (sextets (bits s))).

End Go.

(** ** github.com/gravitational/trace errors *)

Module Trace.

Inductive error : Type :=
| Foreign (msg : string)                 (* an error of another package: io, net, crypto *)
| NotFound (msg : string)
| BadParameter (msg : string)
| Wrap (err : error) (msg : string).     (* trace.Wrap(err, msg) keeps the kind of err *)

Fixpoint IsBadParameter (e : error) : bool :=
  match e with
  | BadParameter _ => true
  | Wrap e' _ => IsBadParameter e'
  | _ => false
  end.

(** A Go result [(T, error)]. *)
Inductive result (A : Type) : Type :=
| Ok (a : A)
| Err (e : error).
Arguments Ok {A} a.
Arguments Err {A} e.

End Trace.

(** ** State passing over a world *)

Module StateM.

Definition M (W A : Type) : Type := W -> A * W.

Definition ret {W A} (a : A) : M W A := fun w => (a, w).

Definition bind {W A B} (m : M W A) (k : A -> M W B) : M W B :=
  fun w => let '(a, w') := m w in k a w'.

Definition modify {W} (f : W -> W) : M W unit := fun w => (tt, f w).

Definition gets {W A} (f : W -> A) : M W A := fun w => (f w, w).

Definition when {W} (b : bool) (m : M W unit) : M W unit :=
  if b then m else ret tt.

End StateM.

Declare Scope go_scope.
Delimit Scope go_scope with go.
Notation "x <- m ;; k" := (StateM.bind m (fun x => k))
  (at level 100, m at next level, right associativity) : go_scope.
Notation "m ;;; k" := (StateM.bind m (fun _ => k))
  (at level 100, right associativity) : go_scope.

(** ** package resumption *)

Module Resumption.
Import Go Trace StateM.
Local Open Scope go_scope.

(** *** Constants *)

(** Modelled from the spec: [sshutils.SSHVersionPrefix] is declared in
    lib/sshutils, which is not among the sources; the banner of §6
    and the comment next to [serverProtocolStringV1] give its value. *)
Definition SSHVersionPrefix : string := "SSH-2.0-Teleport".

Definition serverProtocolStringV1 : string := SSHVersionPrefix +:+ " resume-v1".
Definition clientProtocolStringV1 : string := "teleport-resume-v1".

Definition sshPrefix : string := "SSH-2.0-".
Definition clientSuffixV1 : string := String NUL clientProtocolStringV1.
Definition clientPreludeV1 : string := sshPrefix +:+ clientSuffixV1.

(** [time.Duration] counts nanoseconds. *)
Definition Nanosecond : Z := 1.
Definition Second : Z := 1000000000 * Nanosecond.
Definition Minute : Z := 60 * Second.

Definition detachedTimeout : Z := Minute.

Definition Component : string := "resumable".

Definition ecdhP256UncompressedSize : nat := 65.

(** *** crypto/ecdh keys *)

(** An [*ecdh.PublicKey] is its encoding; on P-256 that is the
    uncompressed point, [0x04 || X || Y]. *)
Record PublicKey : Type := { Bytes : string }.

Record PrivateKey : Type := { privateKey : string; publicKey : PublicKey }.

Definition isP256Uncompressed (k : PublicKey) : bool :=
  Nat.eqb (String.length (Bytes k)) ecdhP256UncompressedSize
  && HasPrefix (Bytes k) (String "004"%char "").

Definition serverVersionCRLFV1 (pubKey : PublicKey) (hostID : string) : string :=
  Sprintf (serverProtocolStringV1 +:+ " %v %v" +:+ CRLF)
    [RawStdEncoding_EncodeToString (Bytes pubKey); hostID].

(** *** Connection entries *)

(** A [*time.Timer], as far as [Stop] and [Reset] can tell: either
    stopped, or set to fire after a duration. *)
Inductive Timer : Type :=
| TimerStopped
| TimerArmed (d : Z).

Definition Timer_Stop (t : Timer) : Timer := TimerStopped.
Definition Timer_Reset (t : Timer) (d : Z) : Timer := TimerArmed d.

Definition timerRuns (t : Timer) : bool :=
  match t with
  | TimerStopped => false
  | TimerArmed _ => true
  end.

(** [uint] arithmetic on a 64-bit platform. *)
Definition uintSize : Z := 2 ^ 64.
Definition wrap (x : Z) : Z := x mod uintSize.

Record connEntry : Type := {
  remoteIP : string;
  timeout : Timer;
  running : Z
}.

Definition increaseRunning (e : connEntry) : connEntry :=
  let t := Timer_Stop (timeout e) in
  {| remoteIP := remoteIP e; timeout := t; running := wrap (running e + 1) |}.

Definition decreaseRunning (e : connEntry) : connEntry :=
  let r := wrap (running e - 1) in
  {| remoteIP := remoteIP e;
     timeout := if Z.eqb r 0 then Timer_Reset (timeout e) detachedTimeout else timeout e;
     running := r |}.

(** Calls that are paired: every [decreaseRunning] follows an
    [increaseRunning] that it undoes, and the counter does not
    overflow. *)
Inductive paired_step : connEntry -> connEntry -> Prop :=
| paired_attach e :
    (0 <= running e < uintSize - 1)%Z -> paired_step e (increaseRunning e)
| paired_detach e :
    (0 < running e < uintSize)%Z -> paired_step e (decreaseRunning e).

(** The timer runs exactly when nothing is attached. *)
Definition timer_inv (e : connEntry) : Prop :=
  timerRuns (timeout e) = true <-> running e = 0%Z.

(** An entry as it is before the first attachment: the timer was
    created with [detachedTimeout] and nothing is attached. *)
Definition freshEntry (ip : string) : connEntry :=
  {| remoteIP := ip; timeout := TimerArmed detachedTimeout; running := 0 |}.

(** *** Attaching and detaching transports *)

(** Modelled from the spec: the attach and detach operations of §4.4
    are carried out by [handleResumptionExchangeV1] and by the
    resumable connection, which are not among the sources; they are the
    callers of [increaseRunning] and [decreaseRunning].  A resumable
    connection is its entry together with the attached transport of §3,
    "either absent (detached) or a reference to the currently bound
    socket"; the sockets that the operations close are listed in
    [closedSockets]. *)
Definition Transport : Type := nat.

Record Resumable : Type := {
  entry : connEntry;
  attached : option Transport;
  closedSockets : list Transport
}.

Definition isAttached (t : Transport) (c : Resumable) : bool :=
  match attached c with
  | Some t' => Nat.eqb t t'
  | None => false
  end.

(** Modelled from the spec: §4.4, detach, step 1: "if this task's
    transport is still the attached one, decrement attached-count.  If
    it reaches zero, start the detachment timer with the configured
    detached timeout", which is [decreaseRunning]; step 2: "close the
    transport socket". *)
Definition detach (t : Transport) (c : Resumable) : Resumable :=
  if isAttached t c then
    {| entry := decreaseRunning (entry c);
       attached := None;
       closedSockets := (closedSockets c ++ [t])%list |}
  else
    {| entry := entry c;
       attached := attached c;
       closedSockets := (closedSockets c ++ [t])%list |}.

(** Modelled from the spec: §4.4, attach, step 1: "if a transport is
    already attached, detach the incumbent first: close its socket, wait
    for its reader/writer tasks to exit", which detach on their way out;
    step 2: "stop the detachment timer; increment attached-count", which
    is [increaseRunning]. *)
Definition attach (t : Transport) (c : Resumable) : Resumable :=
  let c1 := match attached c with
            | Some incumbent => detach incumbent c
            | None => c
            end in
  {| entry := increaseRunning (entry c1);
     attached := Some t;
     closedSockets := closedSockets c1 |}.

(** The attach/detach step relation, as the operations that tasks
    carry out one after the other under the mutex of the connection. *)
Inductive Operation : Type :=
| DoAttach (t : Transport)
| DoDetach (t : Transport).

Definition operate (c : Resumable) (op : Operation) : Resumable :=
  match op with
  | DoAttach t => attach t c
  | DoDetach t => detach t c
  end.

Definition operateAll (ops : list Operation) (c : Resumable) : Resumable :=
  fold_left operate ops c.

(** Modelled from the spec: a connection as §4.2, step 3, creates it,
    before its first transport is attached. *)
Definition newResumable (ip : string) : Resumable :=
  {| entry := freshEntry ip; attached := None; closedSockets := [] |}.

(** *** The accepted socket and the handler's world *)

(** A connection value as the handler passes it around.  All of them
    are views of the one accepted socket of the world. *)
Inductive NetConn : Type :=
| TCPConn                                        (* the accepted net.Conn *)
| MuxConn (inner : NetConn)                      (* *multiplexer.Conn: inner plus a buffered reader *)
| sshVersionSkipConn (Conn : NetConn) (serverVersion alreadyWritten : string).

(** The socket: [inbound] holds the bytes that the client sends and
    that were not consumed yet, a read beyond them fails with
    [inboundErr]; [outbound] holds what was written to the client;
    [writeErr] is the error of a failing [Write], if it fails. *)
Record Socket : Type := {
  inbound : string;
  inboundErr : error;
  outbound : string;
  writeErr : option error;
  closed : bool
}.

Inductive Level : Type := DebugLevel | WarnLevel | ErrorLevel.

(** What the handler does, in order. *)
Inductive Event : Type :=
| EvLog (lvl : Level) (msg : string) (err : option error)
| EvWrite (c : NetConn) (data : string)
| EvDiscard (c : NetConn) (n : nat)
| EvClose (c : NetConn)
| EvSSHServer (c : NetConn)                               (* r.sshServer(c) *)
| EvResumptionExchangeV1 (c : NetConn) (dhKey : PrivateKey). (* r.handleResumptionExchangeV1(c, dhKey) *)

Record World : Type := {
  sock : Socket;
  keygen : result PrivateKey;   (* what ecdh.P256().GenerateKey(rand.Reader) returns *)
  trace : list Event
}.

Definition emit (ev : Event) : M World unit :=
  modify (fun w => {| sock := sock w; keygen := keygen w; trace := app (trace w) [ev] |}).

Definition setSock (s : Socket) : M World unit :=
  modify (fun w => {| sock := s; keygen := keygen w; trace := trace w |}).

Definition log (lvl : Level) (msg : string) (err : option error) : M World unit :=
  emit (EvLog lvl msg err).

Definition GenerateKey : M World (result PrivateKey) := gets keygen.

(** [nc.Write(data)]: all of [data] or an error. *)
Definition Write (nc : NetConn) (data : string) : M World (option error) :=
  s <- gets sock ;;
  match writeErr s with
  | Some err => ret (Some err)
  | None =>
      setSock {| inbound := inbound s; inboundErr := inboundErr s;
                 outbound := outbound s +:+ data;
                 writeErr := writeErr s; closed := closed s |} ;;;
      emit (EvWrite nc data) ;;;
      ret None
  end.

(** [conn.Close()] *)
Definition Close (conn : NetConn) : M World unit :=
  s <- gets sock ;;
  setSock {| inbound := inbound s; inboundErr := inboundErr s;
             outbound := outbound s;
             writeErr := writeErr s; closed := true |} ;;;
  emit (EvClose conn).

(** [conn.Peek(n)] of the buffered reader: the next [n] bytes without
    consuming them, or the error that ended the stream before. *)
Definition Peek (conn : NetConn) (n : nat) : M World (result string) :=
  s <- gets sock ;;
  if Nat.leb n (String.length (inbound s))
  then ret (Ok (take_str n (inbound s)))
  else ret (Err (inboundErr s)).

(** [conn.Discard(n)] of the buffered reader: skips the next [n] bytes,
    or as many as there are. *)
Definition Discard (conn : NetConn) (n : nat) : M World unit :=
  s <- gets sock ;;
  setSock {| inbound := drop_str n (inbound s); inboundErr := inboundErr s;
             outbound := outbound s;
             writeErr := writeErr s; closed := closed s |} ;;;
  emit (EvDiscard conn n).

(** Modelled from the spec: [peekPrelude] is not among the sources.
    §4.1 step 3: peek (not consume) the first N bytes of the client
    stream and compare them against the fixed prelude. *)
Definition peekPrelude (conn : NetConn) (prelude : string)
  : M World (bool * option error) :=
  buf <- Peek conn (String.length prelude) ;;
  match buf with
  | Err err => ret (false, Some (Wrap err ""))
  | Ok b => ret (String.eqb b prelude, None)
  end.

(** Modelled from the spec: [ensureMultiplexerConn] is not among the
    sources.  §2 F: the peek-ahead buffered socket adapter; a socket
    that already is one is used as it is. *)
Definition ensureMultiplexerConn (nc : NetConn) : NetConn :=
  match nc with
  | MuxConn _ => nc
  | _ => MuxConn nc
  end.

(** Modelled from the spec: [handleResumptionExchangeV1] (the
    handshake engine of §4.2) is not among the sources.  The call is
    recorded with the socket and the key it is given; what the exchange
    then does with the socket is outside this model. *)
Definition handleResumptionExchangeV1 (conn : NetConn) (dhKey : PrivateKey)
  : M World unit :=
  emit (EvResumptionExchangeV1 conn dhKey).

(** The inner SSH server is an external collaborator: the call is
    recorded with the connection it is handed. *)
Definition sshServer (nc : NetConn) : M World unit :=
  emit (EvSSHServer nc).

Definition PostDetectFunc : Type := NetConn -> M World (option NetConn).

(** Modelled from the spec: [PreDetectFixedSSHVersion] is not among
    the sources.  §4.1 steps 5 and 6: the plain banner, the version
    prefix and CRLF, is written, and the socket is returned wrapped so
    that the inner SSH server does not send the banner again. *)
Definition PreDetectFixedSSHVersion (versionPrefix : string) (nc : NetConn)
  : M World (option PostDetectFunc * option error) :=
  let serverVersionCRLF := versionPrefix +:+ CRLF in
  werr <- Write nc serverVersionCRLF ;;
  match werr with
  | Some err => ret (None, Some (Wrap err ""))
  | None =>
      ret (Some (fun conn : NetConn =>
                   ret (Some (sshVersionSkipConn conn versionPrefix serverVersionCRLF))),
           None)
  end.

Record SSHServerWrapper : Type := {
  hostID : string;
  conns : gmap string connEntry
}.

Section Handler.

(** [utils.IsOKNetworkError] lives in lib/utils; the handler only
    branches on its answer. *)
Variable IsOKNetworkError : error -> bool.

Definition postDetect (r : SSHServerWrapper) (dhKey : PrivateKey)
    (serverVersionCRLF : string) : PostDetectFunc :=
  fun conn =>
    peeked <- peekPrelude conn clientPreludeV1 ;;
    let '(isResumeV1, err) := peeked in
    match err with
    | Some err =>
        when (negb (IsOKNetworkError err))
          (log ErrorLevel "Error while peeking resumption prelude." (Some err)) ;;;
        Close conn ;;;
        ret None
    | None =>
        if negb isResumeV1 then
          log DebugLevel "Returning non-resumable connection to multiplexer." None ;;;
          ret (Some (sshVersionSkipConn conn
                       (take_str (String.length serverVersionCRLF - 2) serverVersionCRLF)
                       serverVersionCRLF))
        else
          Discard conn (String.length clientPreludeV1) ;;;
          log DebugLevel "Proceeding with connection resumption exchange." None ;;;
          handleResumptionExchangeV1 conn dhKey ;;;
          ret None
    end.

Definition PreDetect (r : SSHServerWrapper) (nc : NetConn)
  : M World (option PostDetectFunc * option error) :=
  k <- GenerateKey ;;
  match k with
  | Err err =>
      log ErrorLevel
        "Failed to generate ECDH key, proceeding without resumption (this is a bug)."
        (Some err) ;;;
      PreDetectFixedSSHVersion SSHVersionPrefix nc
  | Ok dhKey =>
      let serverVersionCRLF := serverVersionCRLFV1 (publicKey dhKey) (hostID r) in
      werr <- Write nc serverVersionCRLF ;;
      match werr with
      | Some err => ret (None, Some (Wrap err ""))
      | None => ret (Some (postDetect r dhKey serverVersionCRLF), None)
      end
  end.

Definition HandleConnection (r : SSHServerWrapper) (nc : NetConn) : M World unit :=
  k <- GenerateKey ;;
  match k with
  | Err err =>
      log ErrorLevel
        "Failed to generate ECDH key, proceeding without resumption (this is a bug)."
        (Some err) ;;;
      sshServer nc
  | Ok dhKey =>
      let serverVersionCRLF := serverVersionCRLFV1 (publicKey dhKey) (hostID r) in
      werr <- Write nc serverVersionCRLF ;;
      match werr with
      | Some err =>
          when (negb (IsOKNetworkError err))
            (log WarnLevel "Error while sending SSH identification string." (Some err)) ;;;
          Close nc
      | None =>
          let conn := ensureMultiplexerConn nc in
          peeked <- peekPrelude conn clientPreludeV1 ;;
          let '(isResumeV1, err) := peeked in
          match err with
          | Some err =>
              when (negb (IsOKNetworkError err))
                (log ErrorLevel "Error while peeking resumption prelude." (Some err)) ;;;
              Close conn
          | None =>
              if negb isResumeV1 then
                log DebugLevel "Returning non-resumable connection to multiplexer." None ;;;
                sshServer (sshVersionSkipConn conn
                             (take_str (String.length serverVersionCRLF - 2) serverVersionCRLF)
                             serverVersionCRLF)
              else
                Discard conn (String.length clientPreludeV1) ;;;
                log DebugLevel "Proceeding with connection resumption exchange." None ;;;
                handleResumptionExchangeV1 conn dhKey
          end
      end
  end.

End Handler.

End Resumption.

(** ** package machineidv1 *)

Module MachineID.
Import Go Trace StateM.
Local Open Scope go_scope.

(** *** Resources of api/types, as far as the bot service reads and
    writes them *)

Record Metadata : Type := {
  Name : string;
  Description : string;
  Labels : gmap string string
}.

Record Rule : Type := { Resources : list string; Verbs : list string }.

Record ImpersonateConditions : Type := { Roles : list string }.

Record RoleConditions : Type := {
  Rules : list Rule;
  Impersonate : option ImpersonateConditions
}.

Record RoleOptions : Type := { MaxSessionTTL : Z }.

Record RoleSpecV6 : Type := { Options : RoleOptions; Allow : RoleConditions }.

Record Role : Type := { roleMetadata : Metadata; roleSpec : RoleSpecV6 }.

Record CreatedBy : Type := { createdByUser : string; createdByTime : Z }.

Record User : Type := {
  userMetadata : Metadata;
  userRoles : list string;
  userTraits : gmap string (list string);
  userCreatedBy : CreatedBy
}.

(** The methods of [types.User] and [types.Role] that the service
    calls: accessors of the fields above. *)
Definition User_GetName (u : User) : string := Name (userMetadata u).
Definition User_GetMetadata (u : User) : Metadata := userMetadata u.
Definition User_GetLabel (u : User) (key : string) : option string :=
  Labels (userMetadata u) !! key.
Definition User_GetRoles (u : User) : list string := userRoles u.
Definition User_GetTraits (u : User) : gmap string (list string) := userTraits u.

Definition User_SetMetadata (u : User) (m : Metadata) : User :=
  {| userMetadata := m; userRoles := userRoles u;
     userTraits := userTraits u; userCreatedBy := userCreatedBy u |}.
Definition User_SetRoles (u : User) (roles : list string) : User :=
  {| userMetadata := userMetadata u; userRoles := roles;
     userTraits := userTraits u; userCreatedBy := userCreatedBy u |}.
Definition User_SetTraits (u : User) (traits : gmap string (list string)) : User :=
  {| userMetadata := userMetadata u; userRoles := userRoles u;
     userTraits := traits; userCreatedBy := userCreatedBy u |}.
Definition User_SetCreatedBy (u : User) (b : CreatedBy) : User :=
  {| userMetadata := userMetadata u; userRoles := userRoles u;
     userTraits := userTraits u; userCreatedBy := b |}.

Definition Role_GetName (r : Role) : string := Name (roleMetadata r).
Definition Role_GetMetadata (r : Role) : Metadata := roleMetadata r.
Definition Role_GetLabel (r : Role) (key : string) : option string :=
  Labels (roleMetadata r) !! key.
Definition Role_SetMetadata (r : Role) (m : Metadata) : Role :=
  {| roleMetadata := m; roleSpec := roleSpec r |}.
(** [role.GetImpersonateConditions(types.Allow)] *)
Definition Role_GetImpersonateConditions_Allow (r : Role) : ImpersonateConditions :=
  match Impersonate (Allow (roleSpec r)) with
  | Some cond => cond
  | None => {| Roles := [] |}
  end.

Definition NewRule (resource : string) (verbs : list string) : Rule :=
  {| Resources := [resource]; Verbs := verbs |}.

(** What the service takes from package [types] besides the resource
    types: label and kind constants, and the two constructors, which
    validate and may fail. *)
Record TypesPkg : Type := {
  BotLabel : string;
  BotGenerationLabel : string;
  KindBot : string;
  V1 : string;
  KindCertAuthority : string;
  VerbReadNoSecrets : string;
  NewRole : string -> RoleSpecV6 -> result Role;
  NewUser : string -> result User
}.

(** *** The bot resource (teleport.machineid.v1) *)

Record HeaderMetadata : Type := { metaName : string }.

(** The elements of [Spec.Traits] are pointers as well ([[]*Trait]).
    They are taken to be non-nil, as the decoding of a request gives
    them; the loops over the traits read [t.Values] and [t.Name] without
    a nil check, so nothing below says what happens on a nil element. *)
Record Trait : Type := { traitName : string; traitValues : list string }.
Record BotSpec : Type := { specRoles : list string; specTraits : list Trait }.
Record BotStatus : Type := { UserName : string; RoleName : string }.

(** Message fields are pointers: [None] is nil. *)
Record Bot : Type := {
  Kind : string;
  Version : string;
  Metadata_ : option HeaderMetadata;
  Spec : option BotSpec;
  Status : option BotStatus
}.

(** A call either returns or panics (on a nil dereference). *)
Inductive outcome (A : Type) : Type :=
| Returns (a : A)
| Panics.
Arguments Returns {A} a.
Arguments Panics {A}.

Definition Hour : Z := 3600 * 1000000000.

Definition BotResourceName (botName : string) : string :=
  "bot-" +:+ ReplaceAll botName " " "-".

(** The resource name in the words of its use: every space of the bot
    name becomes a hyphen, after the prefix. *)
Fixpoint hyphenate (s : string) : string :=
  match s with
  | EmptyString => EmptyString
  | String c s' => String (if Ascii.eqb c " " then "-"%char else c) (hyphenate s')
  end.

Definition validateBot (b : option Bot) : option error :=
  match b with
  | None => Some (BadParameter "must be non-nil")
  | Some b =>
      match Metadata_ b with
      | None => Some (BadParameter "metadata: must be non-nil")
      | Some md =>
          if String.eqb (metaName md) "" then
            Some (BadParameter "metadata.name: must be non-empty")
          else
            match Spec b with
            | None => Some (BadParameter "spec: must be non-nil")
            | Some _ => None
            end
      end
  end.

(** The loop over [bot.Spec.Traits]: traits without values are
    skipped, values of a repeated name are appended. *)
Definition collectTraits (ts : list Trait) : gmap string (list string) :=
  fold_left
    (fun (traits : gmap string (list string)) (t : Trait) =>
       if Nat.eqb (List.length (traitValues t)) 0 then traits
       else <[traitName t := app (default [] (traits !! traitName t)) (traitValues t)]> traits)
    ts ∅.

Section Service.

Variable types : TypesPkg.

Definition botToUserAndRole (bot : Bot) (now : Z) (createdBy : string)
  : outcome (result (User * Role)) :=
  match Metadata_ bot, Spec bot with
  | Some md, Some spec =>
      (* Setup role *)
      let resourceName := BotResourceName (metaName md) in
      match NewRole types resourceName
              {| Options := {| MaxSessionTTL := 12 * Hour |};
                 Allow := {| Rules := [NewRule (KindCertAuthority types)
                                         [VerbReadNoSecrets types]];
                             Impersonate := Some {| Roles := specRoles spec |} |} |}
      with
      | Err err => Returns (Err (Wrap err "new role"))
      | Ok role =>
          let roleMeta := Role_GetMetadata role in
          let roleMeta :=
            {| Name := Name roleMeta;
               Description :=
                 Sprintf "Automatically generated role for bot %s" [metaName md];
               Labels := {[ BotLabel types := metaName md ]} |} in
          let role := Role_SetMetadata role roleMeta in
          (* Setup user *)
          match NewUser types resourceName with
          | Err err => Returns (Err (Wrap err "new user"))
          | Ok user =>
              let user := User_SetRoles user [resourceName] in
              let userMeta := User_GetMetadata user in
              let userMeta :=
                {| Name := Name userMeta;
                   Description := Description userMeta;
                   Labels := <[ BotLabel types := metaName md ]>
                               (<[ BotGenerationLabel types := "0" ]> ∅) |} in
              let user := User_SetMetadata user userMeta in
              let traits := collectTraits (specTraits spec) in
              let user := User_SetTraits user traits in
              let user := User_SetCreatedBy user
                            {| createdByUser := createdBy; createdByTime := now |} in
              Returns (Ok (user, role))
          end
      end
  | _, _ => Panics
  end.

(** The traits of the user, in the order of iteration over the map
    (which Go leaves unspecified). *)
Definition botFromUserAndRole (user : User) (role : Role) : result Bot :=
  match User_GetLabel user (BotLabel types) with
  | None => Err (BadParameter "user missing bot label")
  | Some botName =>
      Ok {| Kind := KindBot types;
            Version := V1 types;
            Metadata_ := Some {| metaName := botName |};
            Status := Some {| UserName := User_GetName user;
                              RoleName := Role_GetName role |};
            Spec := Some
              {| specRoles := Roles (Role_GetImpersonateConditions_Allow role);
                 specTraits :=
                   omap (fun kv : string * list string =>
                           if Nat.eqb (List.length (snd kv)) 0 then None
                           else Some {| traitName := fst kv; traitValues := snd kv |})
                        (map_to_list (User_GetTraits user)) |} |}
  end.

(** *** The backend *)

(** The methods of [Backend] that [UpsertBot] calls, over the state
    [S] of an implementation. *)
Record Backend (S : Type) : Type := {
  GetUser : string -> bool -> S -> result User * S;
  UpsertUser : User -> S -> result User * S;
  UpsertRole : Role -> S -> result Role * S
}.
Arguments GetUser {S} _ _ _ _.
Arguments UpsertUser {S} _ _ _.
Arguments UpsertRole {S} _ _ _.

Inductive Call : Type :=
| CallGetUser (name : string) (withSecrets : bool)
| CallUpsertUser (user : User)
| CallUpsertRole (role : Role).

(** The state of the backend and the calls made to it, in order. *)
Record BackendWorld (S : Type) : Type := {
  store : S;
  calls : list Call
}.
Arguments store {S} _.
Arguments calls {S} _.

Definition invoke {S A} (c : Call) (op : S -> A * S) : M (BackendWorld S) A :=
  fun w =>
    let '(a, s') := op (store w) in
    (a, {| store := s'; calls := app (calls w) [c] |}).

Definition UpsertBot {S} (backend : Backend S) (bot : option Bot)
    (now : Z) (createdBy : string)
  : M (BackendWorld S) (outcome (result Bot)) :=
  match validateBot bot with
  | Some err => ret (Returns (Err (Wrap err "validating bot")))
  | None =>
      match bot with
      | None => ret Panics
      | Some b =>
          match botToUserAndRole b now createdBy with
          | Panics => ret Panics
          | Returns (Err err) => ret (Returns (Err (Wrap err "converting to resources")))
          | Returns (Ok (user, role)) =>
              match Metadata_ b with
              | None => ret Panics
              | Some md =>
                  (* Copy in generation from existing user if exists *)
                  let name := BotResourceName (metaName md) in
                  existing <- invoke (CallGetUser name false) (GetUser backend name false) ;;
                  let merged : result User :=
                    match existing with
                    | Ok existingUser =>
                        match User_GetLabel existingUser (BotGenerationLabel types) with
                        | Some existingGeneration =>
                            let meta := User_GetMetadata user in
                            let meta :=
                              {| Name := Name meta;
                                 Description := Description meta;
                                 Labels := <[ BotGenerationLabel types := existingGeneration ]>
                                             (Labels meta) |} in
                            Ok (User_SetMetadata user meta)
                        | None =>
                            Err (BadParameter
                              "unable to determine existing generation for bot due to missing label")
                        end
                    | Err _ => Ok user
                    end in
                  match merged with
                  | Err err => ret (Returns (Err err))
                  | Ok user =>
                      upserted <- invoke (CallUpsertUser user) (UpsertUser backend user) ;;
                      match upserted with
                      | Err err => ret (Returns (Err (Wrap err "upserting bot user")))
                      | Ok user =>
                          upserted <- invoke (CallUpsertRole role) (UpsertRole backend role) ;;
                          match upserted with
                          | Err err => ret (Returns (Err (Wrap err "upserting bot role")))
                          | Ok role =>
                              match botFromUserAndRole user role with
                              | Err err =>
                                  ret (Returns (Err (Wrap err "converting from resources")))
                              | Ok bot => ret (Returns (Ok bot))
                              end
                          end
                      end
                  end
              end
          end
      end
  end.

End Service.

Arguments GetUser {S} _ _ _ _.
Arguments UpsertUser {S} _ _ _.
Arguments UpsertRole {S} _ _ _.
Arguments store {S} _.
Arguments calls {S} _.

End MachineID.

(** * Properties *)

(** ** Strings, formatting and base64 *)

Module GoFacts.
Import Go.

(** [String.append] does not unfold under [simpl]; its two equations. *)
Lemma append_nil (t : string) : "" +:+ t = t.
Proof. reflexivity. Qed.

Lemma append_cons (c : ascii) (s t : string) : String c s +:+ t = String c (s +:+ t).
Proof. reflexivity. Qed.

Lemma length_append (s t : string) :
  String.length (s +:+ t) = String.length s + String.length t.
Proof.
  induction s as [|c s IH]; [reflexivity|].
  rewrite append_cons. simpl. now rewrite IH.
Qed.

Lemma append_assoc (s t u : string) : (s +:+ t) +:+ u = s +:+ (t +:+ u).
Proof.
  induction s as [|c s IH]; [reflexivity|].
  rewrite !append_cons. now rewrite IH.
Qed.

Lemma append_empty_r (s : string) : s +:+ "" = s.
Proof.
  induction s as [|c s IH]; [reflexivity|].
  rewrite append_cons. now rewrite IH.
Qed.

Lemma take_drop (n : nat) (s : string) : take_str n s +:+ drop_str n s = s.
Proof.
  revert s; induction n as [|n IH]; intros [|c s]; simpl; try reflexivity.
  rewrite append_cons. now rewrite IH.
Qed.

Lemma take_app_length (s t : string) : take_str (String.length s) (s +:+ t) = s.
Proof.
  induction s as [|c s IH]; [now destruct t|].
  rewrite append_cons. simpl. now rewrite IH.
Qed.

Lemma drop_app_length (s t : string) : drop_str (String.length s) (s +:+ t) = t.
Proof.
  induction s as [|c s IH]; [reflexivity|].
  rewrite append_cons. simpl. exact IH.
Qed.

Lemma length_take (n : nat) (s : string) :
  n <= String.length s -> String.length (take_str n s) = n.
Proof.
  revert s; induction n as [|n IH]; intros [|c s] Hn; simpl in *; try lia.
  rewrite IH; lia.
Qed.

(** Strings are consumed three bytes at a time by the encoder. *)
Lemma string_ind3 (P : string -> Prop) :
  P "" ->
  (forall a, P (String a "")) ->
  (forall a b, P (String a (String b ""))) ->
  (forall a b c s, P s -> P (String a (String b (String c s)))) ->
  forall s, P s.
Proof.
  intros H0 H1 H2 H3 s.
  enough (P s /\ (forall a, P (String a s)) /\ (forall a b, P (String a (String b s))))
    as [H _] by exact H.
  induction s as [|c s (IHa & IHb & IHc)].
  - repeat split; auto.
  - repeat split; auto.
Qed.

Lemma EncodedLen_step (n : nat) : EncodedLen (S (S (S n))) = 4 + EncodedLen n.
Proof.
  unfold EncodedLen.
  replace (S (S (S n))) with (n + 1 * 3) by lia.
  rewrite Nat.div_add by lia. rewrite Nat.Div0.mod_add. lia.
Qed.

(** The encoder writes exactly [EncodedLen] characters: no padding. *)
Lemma Encode_length (src : string) :
  String.length (Encode src) = EncodedLen (String.length src).
Proof.
  induction src as [| a | a b | a b c s IH] using string_ind3.
  - reflexivity.
  - reflexivity.
  - reflexivity.
  - change (String.length (String a (String b (String c s))))
      with (S (S (S (String.length s)))).
    rewrite EncodedLen_step. cbn [Encode String.length]. rewrite IH. reflexivity.
Qed.

Lemma land_63_range (x : Z) : (0 <= Z.land x 63 < 64)%Z.
Proof.
  change 63%Z with (Z.ones 6). rewrite Z.land_ones by lia.
  apply Z.mod_pos_bound. reflexivity.
Qed.

Lemma encode_at_alphabet (i : Z) :
  (0 <= i < 64)%Z -> mem_str (encode_at i) encodeStd = true.
Proof.
  intros Hi. unfold encode_at.
  assert (Hn : Z.to_nat i < 64) by lia.
  generalize dependent (Z.to_nat i). intros n Hn.
  do 64 (destruct n as [|n]; [reflexivity|]). lia.
Qed.

Lemma encode_at_land (x : Z) : mem_str (encode_at (Z.land x 63)) encodeStd = true.
Proof. apply encode_at_alphabet, land_63_range. Qed.

(** Every character of the encoding is one of the 64 of the standard
    alphabet; in particular none is the padding character or a space. *)
Lemma Encode_alphabet (src : string) :
  forall_str (fun c => mem_str c encodeStd) (Encode src) = true.
Proof.
  induction src as [| a | a b | a b c s IH] using string_ind3;
    cbn [Encode forall_str]; rewrite ?encode_at_land, ?IH; reflexivity.
Qed.

(** *** Membership under concatenation *)

Lemma mem_str_append (c : ascii) (s t : string) :
  mem_str c (s +:+ t) = mem_str c s || mem_str c t.
Proof.
  induction s as [|d s IH]; [reflexivity|].
  rewrite append_cons. simpl. rewrite IH. now rewrite orb_assoc.
Qed.

Lemma forall_str_mem (p : ascii -> bool) (c : ascii) (s : string) :
  forall_str p s = true -> p c = false -> mem_str c s = false.
Proof.
  intros Hall Hc. induction s as [|d s IH]; [reflexivity|].
  simpl in *. apply andb_prop in Hall as [Hd Hs].
  rewrite (IH Hs), orb_false_r.
  destruct (Ascii.eqb_spec c d) as [-> | _]; [congruence | reflexivity].
Qed.

(** No character of a base64 encoding is a line break, a space or NUL. *)
Lemma Encode_no_break (src : string) (c : ascii) :
  mem_str c encodeStd = false -> mem_str c (Encode src) = false.
Proof. intros Hc. exact (forall_str_mem _ c _ (Encode_alphabet src) Hc). Qed.

(** *** The encoder against RFC 4648

    Three bytes give four groups of six bits, two bytes give three and
    one byte gives two; the encoder computes the number of each group
    with shifts and masks on the 24-bit value of the three bytes. *)

Section Base64.

Local Open Scope list_scope.

Definition hi6 (b : ascii) := firstn 6 (bits_of_byte b).
Definition lo2 (b : ascii) := skipn 6 (bits_of_byte b).
Definition hi4 (b : ascii) := firstn 4 (bits_of_byte b).
Definition lo4 (b : ascii) := skipn 4 (bits_of_byte b).
Definition hi2 (b : ascii) := firstn 2 (bits_of_byte b).
Definition lo6 (b : ascii) := skipn 2 (bits_of_byte b).

Lemma sextets_3 (a b c : ascii) (s : string) :
  sextets (bits (String a (String b (String c s)))) =
    hi6 a :: (lo2 a ++ hi4 b) :: (lo4 b ++ hi2 c) :: lo6 c :: sextets (bits s).
Proof. destruct a, b, c. reflexivity. Qed.

Lemma sextets_2 (a b : ascii) :
  sextets (bits (String a (String b ""))) =
    [hi6 a; lo2 a ++ hi4 b; lo4 b ++ [false; false]].
Proof. destruct a, b. reflexivity. Qed.

Lemma sextets_1 (a : ascii) :
  sextets (bits (String a "")) = [hi6 a; lo2 a ++ [false; false; false; false]].
Proof. destruct a. reflexivity. Qed.

Lemma sextet_index_app (l1 l2 : list bool) :
  sextet_index (l1 ++ l2) = sextet_index l1 * 2 ^ length l2 + sextet_index l2.
Proof.
  unfold sextet_index.
  set (f := fun n (b : bool) => 2 * n + (if b then 1 else 0)).
  assert (H : forall l n, fold_left f l n = n * 2 ^ length l + fold_left f l 0).
  { induction l as [|x l IH]; intros n; simpl.
    - lia.
    - rewrite (IH (f n x)), (IH (f 0 x)). unfold f. simpl. nia. }
  rewrite fold_left_app. apply H.
Qed.

Lemma length_hi4 (b : ascii) : length (hi4 b) = 4.
Proof. destruct b. reflexivity. Qed.

Lemma length_hi2 (b : ascii) : length (hi2 b) = 2.
Proof. destruct b. reflexivity. Qed.

Local Open Scope Z_scope.

Lemma byte_parts (b : ascii) :
  Z.of_nat (sextet_index (hi6 b)) = uint b / 4
  /\ Z.of_nat (sextet_index (lo2 b)) = uint b mod 4
  /\ Z.of_nat (sextet_index (hi4 b)) = uint b / 16
  /\ Z.of_nat (sextet_index (lo4 b)) = uint b mod 16
  /\ Z.of_nat (sextet_index (hi2 b)) = uint b / 64
  /\ Z.of_nat (sextet_index (lo6 b)) = uint b mod 64.
Proof. destruct b as [[] [] [] [] [] [] [] []]; vm_compute; repeat split. Qed.

Lemma uint_range (b : ascii) : 0 <= uint b < 256.
Proof. unfold uint. pose proof (N_ascii_bounded b). lia. Qed.

Lemma lor_shiftl_add (a b n : Z) :
  0 <= n -> 0 <= b < 2 ^ n -> Z.lor (Z.shiftl a n) b = a * 2 ^ n + b.
Proof.
  intros Hn Hb.
  rewrite <- Z.shiftl_mul_pow2 by lia.
  assert (H0 : Z.land (Z.shiftl a n) b = 0).
  { apply Z.bits_inj'. intros m Hm. rewrite Z.land_spec, Z.bits_0.
    destruct (Z.ltb_spec m n).
    - rewrite Z.shiftl_spec_low by lia. reflexivity.
    - rewrite <- (Z.mod_small b (2 ^ n)) by lia.
      rewrite Z.mod_pow2_bits_high by lia. apply andb_false_r. }
  rewrite <- Z.lxor_lor by assumption. symmetry. apply Z.add_nocarry_lxor. assumption.
Qed.

Lemma val_3 (x y z : Z) :
  0 <= x < 256 -> 0 <= y < 256 -> 0 <= z < 256 ->
  Z.lor (Z.lor (Z.shiftl x 16) (Z.shiftl y 8)) z = x * 65536 + y * 256 + z.
Proof.
  intros Hx Hy Hz.
  rewrite (Z.shiftl_mul_pow2 y 8) by lia.
  rewrite lor_shiftl_add by lia.
  replace (x * 2 ^ 16 + y * 2 ^ 8) with (Z.shiftl (x * 256 + y) 8)
    by (rewrite Z.shiftl_mul_pow2 by lia; lia).
  rewrite lor_shiftl_add by lia. lia.
Qed.

Lemma val_2 (x y : Z) :
  0 <= x < 256 -> 0 <= y < 256 ->
  Z.lor (Z.shiftl x 16) (Z.shiftl y 8) = x * 65536 + y * 256.
Proof.
  intros Hx Hy.
  rewrite (Z.shiftl_mul_pow2 y 8) by lia.
  rewrite lor_shiftl_add by lia. lia.
Qed.

Lemma sextet_of (v k : Z) : 0 <= k -> Z.land (Z.shiftr v k) 63 = (v / 2 ^ k) mod 64.
Proof.
  intros Hk. change 63 with (Z.ones 6). rewrite Z.land_ones by lia.
  rewrite Z.shiftr_div_pow2 by lia. reflexivity.
Qed.

Lemma encode_at_std (n : nat) : (n < 64)%nat -> encode_at (Z.of_nat n) = std_char n.
Proof.
  intros Hn. unfold encode_at. rewrite Nat2Z.id.
  do 64 (destruct n as [|n]; [reflexivity|]). lia.
Qed.

Lemma encode_at_index (g : list bool) (i : Z) :
  Z.of_nat (sextet_index g) = i -> 0 <= i < 64 ->
  encode_at i = std_char (sextet_index g).
Proof. intros <- Hi. apply encode_at_std. lia. Qed.

Ltac byte_facts b :=
  pose proof (uint_range b);
  destruct (byte_parts b) as (? & ? & ? & ? & ? & ?).

Ltac pow2 :=
  change (2 ^ 18) with 262144 in *; change (2 ^ 16) with 65536 in *;
  change (2 ^ 12) with 4096 in *; change (2 ^ 6) with 64 in *;
  change (2 ^ 0) with 1 in *.

Lemma sextet_low (v : Z) : Z.land v 63 = v mod 64.
Proof. change 63 with (Z.ones 6). rewrite Z.land_ones by lia. reflexivity. Qed.

Ltac sextet :=
  apply encode_at_index;
  [ rewrite ?sextet_index_app, ?length_hi4, ?length_hi2, ?Nat2Z.inj_add, ?Nat2Z.inj_mul;
    simpl (Z.of_nat (2 ^ _));
    repeat match goal with
      | |- context [sextet_index (?x :: ?l)] =>
          let v := eval vm_compute in (sextet_index (x :: l)) in
          change (sextet_index (x :: l)) with v
      end;
    first [rewrite sextet_of by lia | rewrite sextet_low];
    rewrite ?Z.shiftl_mul_pow2 by lia; pow2;
    Z.to_euclidean_division_equations; lia
  | rewrite sextet_low; apply Z.mod_pos_bound; lia ].

Lemma Encode_base64 (src : string) : Encode src = base64_unpadded src.
Proof.
  unfold base64_unpadded.
  induction src as [| a | a b | a b c s IH] using string_ind3.
  - reflexivity.
  - rewrite sextets_1. cbn [Encode map string_of_list_ascii].
    byte_facts a.
    f_equal; [sextet|]. f_equal. sextet.
  - rewrite sextets_2. cbn [Encode map string_of_list_ascii].
    byte_facts a. byte_facts b. rewrite val_2 by assumption.
    f_equal; [sextet|]. f_equal; [sextet|]. f_equal. sextet.
  - rewrite sextets_3. cbn [Encode map string_of_list_ascii]. rewrite IH.
    byte_facts a. byte_facts b. byte_facts c. rewrite val_3 by assumption.
    f_equal; [sextet|]. f_equal; [sextet|]. f_equal; [sextet|]. f_equal. sextet.
Qed.

(** The test vectors of RFC 4648 §10, without the padding. *)
Example base64_unpadded_vectors :
  base64_unpadded "" = ""
  /\ base64_unpadded "f" = "Zg"
  /\ base64_unpadded "fo" = "Zm8"
  /\ base64_unpadded "foo" = "Zm9v"
  /\ base64_unpadded "foob" = "Zm9vYg"
  /\ base64_unpadded "fooba" = "Zm9vYmE"
  /\ base64_unpadded "foobar" = "Zm9vYmFy".
Proof. repeat split. Qed.

End Base64.

End GoFacts.

(** ** The version banner and the client prelude *)

Module ResumptionFacts.
Import Go Trace StateM Resumption GoFacts.
Local Open Scope list_scope.

(** The byte values of a string. *)
Definition codes (s : string) : list nat :=
  List.map nat_of_ascii (list_ascii_of_string s).

(** C1, as stated, fails: the prelude that is compared against the
    client's first bytes is not 29 bytes long. *)
Lemma clientPreludeV1_not_29_bytes : String.length clientPreludeV1 <> 29.
Proof. vm_compute. discriminate. Qed.

(** C1, amended: the client prelude is the byte sequence
    ["SSH-2.0-\x00teleport-resume-v1"], the SSH prefix, a NUL byte and
    the protocol string, and it is 27 bytes long (8 + 1 + 18). *)
Theorem clientPreludeV1_bytes :
  clientPreludeV1 = "SSH-2.0-" +:+ String NUL "teleport-resume-v1"
  /\ codes clientPreludeV1 =
       [83; 83; 72; 45; 50; 46; 48; 45; 0;
        116; 101; 108; 101; 112; 111; 114; 116; 45;
        114; 101; 115; 117; 109; 101; 45; 118; 49]
  /\ String.length clientPreludeV1 = 27.
Proof. repeat split. Qed.

Lemma serverVersionCRLFV1_eq (pubKey : PublicKey) (hostID : string) :
  serverVersionCRLFV1 pubKey hostID =
    "SSH-2.0-Teleport resume-v1 "
      +:+ RawStdEncoding_EncodeToString (Bytes pubKey)
      +:+ " " +:+ hostID +:+ CRLF.
Proof.
  unfold serverVersionCRLFV1.
  generalize (RawStdEncoding_EncodeToString (Bytes pubKey)). intros b64.
  change (serverProtocolStringV1 +:+ " %v %v" +:+ CRLF)
    with ("SSH-2.0-Teleport resume-v1 " +:+ ("%v" +:+ (" " +:+ ("%v" +:+ CRLF)))).
  unfold CRLF.
  rewrite ?append_cons, ?append_nil.
  cbn [Sprintf].
  reflexivity.
Qed.

(** A key as [GenerateKey] returns it, for the examples below: the
    uncompressed encoding is the byte 4 and 64 more bytes. *)
Definition sampleKey : PrivateKey :=
  {| privateKey := "k";
     publicKey :=
       {| Bytes := String "004"%char
            ("0123456789abcdef0123456789abcdef" +:+ "0123456789abcdef0123456789abcdef") |} |}.

(** The banner without its CRLF. *)
Lemma serverVersionCRLFV1_line (pubKey : PublicKey) (hostID : string) :
  serverVersionCRLFV1 pubKey hostID =
    ("SSH-2.0-Teleport resume-v1 "
       +:+ RawStdEncoding_EncodeToString (Bytes pubKey) +:+ " " +:+ hostID) +:+ CRLF.
Proof. rewrite serverVersionCRLFV1_eq. now rewrite !append_assoc. Qed.

(** C2, as stated, fails: the host ID is copied into the banner as it
    is, so a host ID with a line break in it gives a banner of more than
    one line. *)
Lemma serverVersionCRLFV1_not_one_line :
  isP256Uncompressed (publicKey sampleKey) = true
  /\ isLine (serverVersionCRLFV1 (publicKey sampleKey)
               ("host-1" +:+ CRLF +:+ "SSH-2.0-OpenSSH_9.6")) = false.
Proof. split; vm_compute; reflexivity. Qed.

(** C2, amended: for every P-256 public key and every host ID the
    banner is ["SSH-2.0-Teleport resume-v1 "], the base64 of RFC 4648 of
    the 65 key bytes, which is what the Go encoder returns (87
    characters, none of them the padding character or a space), a space,
    the host ID and CRLF; and it is a single line exactly when the host
    ID has no CR and no LF in it. *)
Theorem serverVersionCRLFV1_banner (pubKey : PublicKey) (hostID : string) :
  isP256Uncompressed pubKey = true ->
  let b64 := base64_unpadded (Bytes pubKey) in
  let banner := serverVersionCRLFV1 pubKey hostID in
  banner = "SSH-2.0-Teleport resume-v1 " +:+ b64 +:+ " " +:+ hostID +:+ CRLF
  /\ RawStdEncoding_EncodeToString (Bytes pubKey) = b64
  /\ String.length b64 = 87
  /\ mem_str "=" b64 = false
  /\ mem_str " " b64 = false
  /\ String.length banner = 117 + String.length hostID
  /\ (isLine banner = true <-> mem_str CR hostID = false /\ mem_str LF hostID = false).
Proof.
  intros Hkey b64 banner.
  assert (Hb64 : RawStdEncoding_EncodeToString (Bytes pubKey) = b64)
    by apply Encode_base64.
  assert (Hlen : String.length b64 = 87).
  { rewrite <- Hb64. unfold RawStdEncoding_EncodeToString. rewrite Encode_length.
    unfold isP256Uncompressed in Hkey.
    apply andb_prop in Hkey as [Hsize _]. apply Nat.eqb_eq in Hsize.
    rewrite Hsize. reflexivity. }
  assert (Hno : forall c, mem_str c encodeStd = false -> mem_str c b64 = false).
  { intros c Hc. rewrite <- Hb64. apply Encode_no_break, Hc. }
  split; [unfold banner; rewrite serverVersionCRLFV1_eq, Hb64; reflexivity|].
  split; [exact Hb64|].
  split; [exact Hlen|].
  split; [apply Hno; reflexivity|].
  split; [apply Hno; reflexivity|].
  split.
  { unfold banner. rewrite serverVersionCRLFV1_eq, Hb64.
    rewrite !length_append, Hlen. simpl. lia. }
  unfold isLine, banner. rewrite serverVersionCRLFV1_line, Hb64.
  rewrite length_append. change (String.length CRLF) with 2.
  rewrite Nat.add_sub, take_app_length, drop_app_length.
  rewrite !mem_str_append, !Hno by reflexivity.
  change (String.eqb CRLF CRLF) with true. simpl.
  destruct (mem_str CR hostID), (mem_str LF hostID); simpl; intuition congruence.
Qed.

Lemma serverVersionCRLFV1_banner_witness :
  isP256Uncompressed (publicKey sampleKey) = true
  /\ serverVersionCRLFV1 (publicKey sampleKey) "host-1" =
       "SSH-2.0-Teleport resume-v1 BDAxMjM0NTY3ODlhYmNkZWYwMTIzNDU2Nzg5YWJjZGVmMDEyMzQ1Njc4OWFiY2RlZjAxMjM0NTY3ODlhYmNkZWY host-1"
         +:+ CRLF
  /\ isLine (serverVersionCRLFV1 (publicKey sampleKey) "host-1") = true.
Proof.
  split; [reflexivity|].
  destruct (serverVersionCRLFV1_banner (publicKey sampleKey) "host-1" eq_refl)
    as (Hbanner & _ & _ & _ & _ & _ & Hline).
  split.
  - rewrite Hbanner. vm_compute. reflexivity.
  - apply Hline. split; reflexivity.
Defined.

Example sample_banner :
  serverVersionCRLFV1 (publicKey sampleKey) "host-1" =
    "SSH-2.0-Teleport resume-v1 BDAxMjM0NTY3ODlhYmNkZWYwMTIzNDU2Nzg5YWJjZGVmMDEyMzQ1Njc4OWFiY2RlZjAxMjM0NTY3ODlhYmNkZWY host-1"
      +:+ CRLF.
Proof. vm_compute. reflexivity. Qed.

(** ** The version-probe hook *)

(** Peeking is a pure observation: the world is left as it is, and the
    answer depends on the unread client bytes and on the error that
    ends them only. *)
Lemma peekPrelude_world (conn : NetConn) (prelude : string) (w : World) :
  snd (peekPrelude conn prelude w) = w.
Proof.
  unfold peekPrelude, Peek, bind, gets, ret. simpl.
  destruct (Nat.leb _ _); reflexivity.
Qed.

Lemma peekPrelude_eq (conn : NetConn) (prelude : string) (w : World) :
  peekPrelude conn prelude w = (fst (peekPrelude conn prelude w), w).
Proof.
  rewrite <- (peekPrelude_world conn prelude w) at 3.
  destruct (peekPrelude conn prelude w); reflexivity.
Qed.

Lemma peekPrelude_inbound (c c' : NetConn) (prelude : string) (w w' : World) :
  inbound (sock w) = inbound (sock w') ->
  inboundErr (sock w) = inboundErr (sock w') ->
  fst (peekPrelude c prelude w) = fst (peekPrelude c' prelude w').
Proof.
  intros Hin Herr. unfold peekPrelude, Peek, bind, gets, ret. simpl.
  rewrite Hin, Herr. destruct (Nat.leb _ _); reflexivity.
Qed.

(** A match means that the unread bytes start with the prelude. *)
Lemma peekPrelude_match (conn : NetConn) (prelude : string) (w : World) :
  fst (peekPrelude conn prelude w) = (true, None) ->
  inbound (sock w) = prelude +:+ drop_str (String.length prelude) (inbound (sock w)).
Proof.
  unfold peekPrelude, Peek, bind, gets, ret. simpl.
  destruct (Nat.leb _ _); simpl; [|discriminate].
  intros H. injection H as H. apply String.eqb_eq in H.
  pose proof (take_drop (String.length prelude) (inbound (sock w))) as Htd.
  rewrite H in Htd. symmetry. exact Htd.
Qed.

Lemma peekPrelude_error (conn : NetConn) (prelude : string) (w : World) (b : bool) (err : error) :
  fst (peekPrelude conn prelude w) = (b, Some err) ->
  b = false /\ err = Wrap (inboundErr (sock w)) ""
  /\ String.length (inbound (sock w)) < String.length prelude.
Proof.
  unfold peekPrelude, Peek, bind, gets, ret. simpl.
  destruct (Nat.leb _ _) eqn:Hle; simpl; [discriminate|].
  intros H. injection H as <- <-. apply Nat.leb_gt in Hle. auto.
Qed.

Section HandlerFacts.

Variable IsOKNetworkError : error -> bool.

(** The banner without its line end: what [serverVersionCRLF[:len-2]]
    keeps. *)
Definition serverVersionV1 (pubKey : PublicKey) (hostID : string) : string :=
  "SSH-2.0-Teleport resume-v1 "
    +:+ RawStdEncoding_EncodeToString (Bytes pubKey) +:+ " " +:+ hostID.

Lemma serverVersionCRLFV1_split (pubKey : PublicKey) (hostID : string) :
  serverVersionCRLFV1 pubKey hostID = serverVersionV1 pubKey hostID +:+ CRLF.
Proof.
  rewrite serverVersionCRLFV1_eq. unfold serverVersionV1.
  now rewrite !append_assoc.
Qed.

Lemma serverVersionCRLFV1_chop (pubKey : PublicKey) (hostID : string) :
  let banner := serverVersionCRLFV1 pubKey hostID in
  take_str (String.length banner - 2) banner = serverVersionV1 pubKey hostID.
Proof.
  cbv zeta. rewrite serverVersionCRLFV1_split, length_append.
  change (String.length CRLF) with 2.
  replace (String.length (serverVersionV1 pubKey hostID) + 2 - 2)
    with (String.length (serverVersionV1 pubKey hostID)) by lia.
  apply take_app_length.
Qed.

Ltac run_handler :=
  unfold PreDetect, HandleConnection, PreDetectFixedSSHVersion,
    handleResumptionExchangeV1, sshServer, log, GenerateKey, Write, Close,
    Discard, setSock, emit, when, modify, bind, gets, ret.

(** C3: when the client's first bytes are the resumption prelude, the
    hook consumes exactly the prelude, calls the resumption exchange
    with the socket and the ephemeral key and returns nil, and
    [HandleConnection] does the same and returns without calling the
    inner SSH server. *)
Theorem prelude_match_hijacks
    (r : SSHServerWrapper) (nc conn : NetConn) (dhKey : PrivateKey) (w w' : World) :
  keygen w = Ok dhKey ->
  writeErr (sock w) = None ->
  fst (peekPrelude conn clientPreludeV1 w') = (true, None) ->
  fst (peekPrelude (ensureMultiplexerConn nc) clientPreludeV1 w) = (true, None) ->
  let banner := serverVersionCRLFV1 (publicKey dhKey) (hostID r) in
  (exists hook w1 w2,
      PreDetect IsOKNetworkError r nc w = ((Some hook, None), w1)
      /\ hook conn w' = (None, w2)
      /\ inbound (sock w') = clientPreludeV1 +:+ inbound (sock w2)
      /\ outbound (sock w2) = outbound (sock w')
      /\ closed (sock w2) = closed (sock w')
      /\ trace w2 = trace w' ++
           [EvDiscard conn (String.length clientPreludeV1);
            EvLog DebugLevel "Proceeding with connection resumption exchange." None;
            EvResumptionExchangeV1 conn dhKey])
  /\ (exists wH,
      HandleConnection IsOKNetworkError r nc w = (tt, wH)
      /\ inbound (sock w) = clientPreludeV1 +:+ inbound (sock wH)
      /\ outbound (sock wH) = outbound (sock w) +:+ banner
      /\ closed (sock wH) = closed (sock w)
      /\ trace wH = trace w ++
           [EvWrite nc banner;
            EvDiscard (ensureMultiplexerConn nc) (String.length clientPreludeV1);
            EvLog DebugLevel "Proceeding with connection resumption exchange." None;
            EvResumptionExchangeV1 (ensureMultiplexerConn nc) dhKey]).
Proof.
  intros Hkey Hwrite Hhook Hconn banner. split.
  - eexists _, _, _. split; [|split].
    + run_handler. rewrite Hkey, Hwrite. simpl. reflexivity.
    + unfold postDetect. run_handler. rewrite peekPrelude_eq, Hhook. simpl. reflexivity.
    + simpl. split; [exact (peekPrelude_match _ _ _ Hhook)|].
      rewrite <- !app_assoc. auto.
  - eexists. split.
    + run_handler. rewrite Hkey, Hwrite. simpl.
      rewrite peekPrelude_eq.
      erewrite (peekPrelude_inbound _ (ensureMultiplexerConn nc) _ _ w), Hconn
        by reflexivity.
      simpl. reflexivity.
    + simpl. split; [exact (peekPrelude_match _ _ _ Hconn)|].
      rewrite <- !app_assoc. auto.
Qed.

(** C4: when the client's first bytes are not the resumption prelude,
    the connection that goes to the inner SSH server is the wrapper
    whose [serverVersion] is the banner without CRLF and whose
    [alreadyWritten] is the banner as it was sent, once; nothing is
    consumed, the socket is not closed and the resumption exchange is
    not called. *)
Theorem prelude_mismatch_wraps
    (r : SSHServerWrapper) (nc conn : NetConn) (dhKey : PrivateKey) (w w' : World) :
  keygen w = Ok dhKey ->
  writeErr (sock w) = None ->
  fst (peekPrelude conn clientPreludeV1 w') = (false, None) ->
  fst (peekPrelude (ensureMultiplexerConn nc) clientPreludeV1 w) = (false, None) ->
  let banner := serverVersionCRLFV1 (publicKey dhKey) (hostID r) in
  let line := serverVersionV1 (publicKey dhKey) (hostID r) in
  banner = line +:+ CRLF
  /\ (exists hook w1 w2,
      PreDetect IsOKNetworkError r nc w = ((Some hook, None), w1)
      /\ outbound (sock w1) = outbound (sock w) +:+ banner
      /\ trace w1 = trace w ++ [EvWrite nc banner]
      /\ hook conn w' = (Some (sshVersionSkipConn conn line banner), w2)
      /\ sock w2 = sock w'
      /\ trace w2 = trace w' ++
           [EvLog DebugLevel "Returning non-resumable connection to multiplexer." None])
  /\ (exists wH,
      HandleConnection IsOKNetworkError r nc w = (tt, wH)
      /\ inbound (sock wH) = inbound (sock w)
      /\ outbound (sock wH) = outbound (sock w) +:+ banner
      /\ closed (sock wH) = closed (sock w)
      /\ trace wH = trace w ++
           [EvWrite nc banner;
            EvLog DebugLevel "Returning non-resumable connection to multiplexer." None;
            EvSSHServer (sshVersionSkipConn (ensureMultiplexerConn nc) line banner)]).
Proof.
  intros Hkey Hwrite Hhook Hconn. cbv zeta.
  pose proof (serverVersionCRLFV1_chop (publicKey dhKey) (hostID r)) as Hchop.
  cbv zeta in Hchop.
  split; [apply serverVersionCRLFV1_split|]. split.
  - eexists _, _, _. split; [|split; [|split; [|split]]].
    + run_handler. rewrite Hkey, Hwrite. simpl. reflexivity.
    + reflexivity.
    + reflexivity.
    + unfold postDetect. run_handler. rewrite Hchop, peekPrelude_eq, Hhook. reflexivity.
    + simpl. destruct w' as [[] ? ?]. auto.
  - eexists. split.
    + run_handler. rewrite Hkey, Hwrite. cbv beta zeta. rewrite Hchop. simpl.
      rewrite peekPrelude_eq.
      erewrite (peekPrelude_inbound _ (ensureMultiplexerConn nc) _ _ w), Hconn
        by reflexivity.
      reflexivity.
    + simpl. rewrite <- !app_assoc. auto.
Qed.

(** C8: when peeking the prelude fails, the socket is closed, the hook
    returns nil and [HandleConnection] returns; neither the resumption
    exchange nor the inner SSH server is called, and the error is logged
    exactly when it is not a routine network error. *)
Theorem peek_error_closes
    (r : SSHServerWrapper) (nc conn : NetConn) (dhKey : PrivateKey) (w w' : World)
    (b b' : bool) (err err' : error) :
  keygen w = Ok dhKey ->
  writeErr (sock w) = None ->
  fst (peekPrelude conn clientPreludeV1 w') = (b', Some err') ->
  fst (peekPrelude (ensureMultiplexerConn nc) clientPreludeV1 w) = (b, Some err) ->
  let banner := serverVersionCRLFV1 (publicKey dhKey) (hostID r) in
  let logged (e : error) :=
    if IsOKNetworkError e then []
    else [EvLog ErrorLevel "Error while peeking resumption prelude." (Some e)] in
  (exists hook w1 w2,
      PreDetect IsOKNetworkError r nc w = ((Some hook, None), w1)
      /\ hook conn w' = (None, w2)
      /\ closed (sock w2) = true
      /\ inbound (sock w2) = inbound (sock w')
      /\ outbound (sock w2) = outbound (sock w')
      /\ trace w2 = trace w' ++ logged err' ++ [EvClose conn])
  /\ (exists wH,
      HandleConnection IsOKNetworkError r nc w = (tt, wH)
      /\ closed (sock wH) = true
      /\ inbound (sock wH) = inbound (sock w)
      /\ trace wH = trace w ++ [EvWrite nc banner] ++ logged err
                      ++ [EvClose (ensureMultiplexerConn nc)]).
Proof.
  intros Hkey Hwrite Hhook Hconn banner logged. unfold logged. split.
  - destruct (IsOKNetworkError err') eqn:Hok; eexists _, _, _;
      (split;
       [ run_handler; rewrite Hkey, Hwrite; simpl; reflexivity
       | split;
         [ unfold postDetect; run_handler; rewrite peekPrelude_eq, Hhook; simpl;
           rewrite Hok; simpl; reflexivity
         | simpl; rewrite <- ?app_assoc; auto ] ]).
  - destruct (IsOKNetworkError err) eqn:Hok; eexists;
      (split;
       [ run_handler; rewrite Hkey, Hwrite; simpl;
         rewrite peekPrelude_eq;
         erewrite (peekPrelude_inbound _ (ensureMultiplexerConn nc) _ _ w), Hconn
           by reflexivity;
         simpl; rewrite Hok; simpl; reflexivity
       | simpl; rewrite <- ?app_assoc; auto ]).
Qed.

(** C7: when the ephemeral key cannot be generated, [HandleConnection]
    logs and hands the socket as it is to the inner SSH server, and
    [PreDetect] logs and sends the plain version banner, which carries
    no key; neither closes the socket nor calls the resumption
    exchange. *)
Theorem keygen_failure_falls_back
    (r : SSHServerWrapper) (nc : NetConn) (err : error) (w : World) :
  keygen w = Err err ->
  let failure :=
    EvLog ErrorLevel
      "Failed to generate ECDH key, proceeding without resumption (this is a bug)."
      (Some err) in
  let plain := "SSH-2.0-Teleport" +:+ CRLF in
  (exists wH,
      HandleConnection IsOKNetworkError r nc w = (tt, wH)
      /\ sock wH = sock w
      /\ trace wH = trace w ++ [failure; EvSSHServer nc])
  /\ (exists res w1,
      PreDetect IsOKNetworkError r nc w = (res, w1)
      /\ inbound (sock w1) = inbound (sock w)
      /\ closed (sock w1) = closed (sock w)
      /\ match writeErr (sock w) with
         | Some e =>
             res = (None, Some (Wrap e ""))
             /\ outbound (sock w1) = outbound (sock w)
             /\ trace w1 = trace w ++ [failure]
         | None =>
             outbound (sock w1) = outbound (sock w) +:+ plain
             /\ trace w1 = trace w ++ [failure; EvWrite nc plain]
             /\ exists hook,
                 res = (Some hook, None)
                 /\ forall conn w',
                     hook conn w' =
                       (Some (sshVersionSkipConn conn "SSH-2.0-Teleport" plain), w')
         end).
Proof.
  intros Hkey failure plain. split.
  - eexists. split.
    + run_handler. rewrite Hkey. simpl. reflexivity.
    + simpl. destruct w as [[] ? ?]. rewrite <- !app_assoc. auto.
  - destruct (writeErr (sock w)) as [e|] eqn:Hwrite.
    + eexists _, _. split.
      * run_handler. rewrite Hkey. simpl. rewrite Hwrite. reflexivity.
      * simpl. auto.
    + eexists _, _. split.
      * run_handler. rewrite Hkey. simpl. rewrite Hwrite. simpl. reflexivity.
      * simpl. rewrite <- !app_assoc. repeat split.
        eexists. split; [reflexivity|]. intros conn w'. reflexivity.
Qed.

End HandlerFacts.

(** *** The hook on sample connections *)

Definition sampleWrapper : SSHServerWrapper := {| hostID := "host-1"; conns := ∅ |}.

Definition clientSends (bytes : string) (k : result PrivateKey) : World :=
  {| sock := {| inbound := bytes; inboundErr := Foreign "EOF";
                outbound := ""; writeErr := None; closed := false |};
     keygen := k;
     trace := [] |}.

(** A resuming client, a legacy client, a client that hangs up after
    three bytes, and a server that cannot generate a key. *)
Definition resumingWorld : World :=
  clientSends (clientPreludeV1 +:+ "key and token") (Ok sampleKey).
Definition legacyWorld : World :=
  clientSends ("SSH-2.0-OpenSSH_9.6" +:+ CRLF +:+ "key exchange") (Ok sampleKey).
Definition hangupWorld : World := clientSends "SSH" (Ok sampleKey).
Definition noKeyWorld : World :=
  clientSends ("SSH-2.0-OpenSSH_9.6" +:+ CRLF) (Err (Foreign "entropy")).

Definition neverOK (e : error) : bool := false.

Lemma prelude_match_hijacks_witness :
  exists wH,
    HandleConnection neverOK sampleWrapper TCPConn resumingWorld = (tt, wH)
    /\ inbound (sock wH) = "key and token"
    /\ closed (sock wH) = false.
Proof.
  destruct (prelude_match_hijacks neverOK sampleWrapper TCPConn (MuxConn TCPConn)
              sampleKey resumingWorld resumingWorld)
    as [_ (wH & Hrun & Hin & _ & Hclosed & _)]; try reflexivity.
  exists wH. split; [exact Hrun|]. split; [|exact Hclosed].
  change (inbound (sock resumingWorld)) with (clientPreludeV1 +:+ "key and token") in Hin.
  clear Hrun Hclosed. revert Hin. generalize (inbound (sock wH)). intros rest Hin.
  vm_compute in Hin. injection Hin as Hin. symmetry. exact Hin.
Defined.

Lemma prelude_mismatch_wraps_witness :
  exists wH,
    HandleConnection neverOK sampleWrapper TCPConn legacyWorld = (tt, wH)
    /\ inbound (sock wH) = inbound (sock legacyWorld)
    /\ closed (sock wH) = false.
Proof.
  destruct (prelude_mismatch_wraps neverOK sampleWrapper TCPConn (MuxConn TCPConn)
              sampleKey legacyWorld legacyWorld)
    as (_ & _ & (wH & Hrun & Hin & _ & Hclosed & _)); try reflexivity.
  exists wH. auto.
Defined.

Lemma peek_error_closes_witness :
  exists wH,
    HandleConnection neverOK sampleWrapper TCPConn hangupWorld = (tt, wH)
    /\ closed (sock wH) = true.
Proof.
  destruct (peek_error_closes neverOK sampleWrapper TCPConn (MuxConn TCPConn)
              sampleKey hangupWorld hangupWorld
              false false (Wrap (Foreign "EOF") "") (Wrap (Foreign "EOF") ""))
    as (_ & (wH & Hrun & Hclosed & _)); try reflexivity.
  exists wH. auto.
Defined.

Lemma keygen_failure_falls_back_witness :
  exists wH,
    HandleConnection neverOK sampleWrapper TCPConn noKeyWorld = (tt, wH)
    /\ sock wH = sock noKeyWorld.
Proof.
  destruct (keygen_failure_falls_back neverOK sampleWrapper TCPConn
              (Foreign "entropy") noKeyWorld)
    as ((wH & Hrun & Hsock & _) & _); try reflexivity.
  exists wH. auto.
Defined.

Example resuming_trace :
  trace (snd (HandleConnection neverOK sampleWrapper TCPConn resumingWorld)) =
    [EvWrite TCPConn (serverVersionCRLFV1 (publicKey sampleKey) "host-1");
     EvDiscard (MuxConn TCPConn) 27;
     EvLog DebugLevel "Proceeding with connection resumption exchange." None;
     EvResumptionExchangeV1 (MuxConn TCPConn) sampleKey].
Proof. vm_compute. reflexivity. Qed.

Example hangup_trace :
  trace (snd (HandleConnection neverOK sampleWrapper TCPConn hangupWorld)) =
    [EvWrite TCPConn (serverVersionCRLFV1 (publicKey sampleKey) "host-1");
     EvLog ErrorLevel "Error while peeking resumption prelude."
       (Some (Wrap (Foreign "EOF") ""));
     EvClose (MuxConn TCPConn)].
Proof. vm_compute. reflexivity. Qed.

(** ** Attach count and detachment timer *)

Section ConnEntryFacts.

Local Open Scope Z_scope.

Lemma detachedTimeout_seconds : detachedTimeout = 60 * 1000000000.
Proof. reflexivity. Qed.

Lemma wrap_small (x : Z) : 0 <= x < uintSize -> wrap x = x.
Proof. intros Hx. unfold wrap. apply Z.mod_small. exact Hx. Qed.

Lemma increaseRunning_spec (e : connEntry) :
  timeout (increaseRunning e) = TimerStopped
  /\ running (increaseRunning e) = wrap (running e + 1)
  /\ remoteIP (increaseRunning e) = remoteIP e.
Proof. repeat split. Qed.

Lemma decreaseRunning_spec (e : connEntry) :
  running (decreaseRunning e) = wrap (running e - 1)
  /\ timeout (decreaseRunning e) =
       (if running (decreaseRunning e) =? 0
        then TimerArmed detachedTimeout else timeout e)
  /\ remoteIP (decreaseRunning e) = remoteIP e.
Proof. repeat split. Qed.

(** What holds between calls: the count is a [uint] and the timer runs
    exactly when the count is zero. *)
Definition entry_ok (e : connEntry) : Prop :=
  0 <= running e < uintSize /\ timer_inv e.

Lemma paired_step_ok (e e' : connEntry) :
  entry_ok e -> paired_step e e' -> entry_ok e'.
Proof.
  intros [Hrange Hinv] Hstep. unfold entry_ok, timer_inv in *.
  destruct Hstep as [e Hbound | e Hbound]; simpl.
  - rewrite wrap_small by lia. split; [lia|]. split; [discriminate | lia].
  - rewrite wrap_small by lia. split; [lia|].
    destruct (running e - 1 =? 0) eqn:Hz.
    + apply Z.eqb_eq in Hz. simpl. split; auto.
    + apply Z.eqb_neq in Hz. split.
      * intros Hruns. apply Hinv in Hruns. lia.
      * intros H0. contradiction.
Qed.

Lemma paired_steps_ok (e e' : connEntry) :
  entry_ok e -> rtc paired_step e e' -> entry_ok e'.
Proof.
  intros Hok Hsteps. induction Hsteps as [e | e e1 e2 Hstep _ IH]; [exact Hok|].
  apply IH. exact (paired_step_ok _ _ Hok Hstep).
Qed.

Lemma freshEntry_ok (ip : string) : entry_ok (freshEntry ip).
Proof.
  unfold entry_ok, timer_inv, freshEntry, uintSize. simpl.
  split; [lia|]. split; reflexivity.
Qed.

(** C5, as stated, fails: it is not after every call that the timer
    runs iff the count is zero.  A [decreaseRunning] that undoes no
    [increaseRunning] takes the count of a fresh entry from 0 to
    [2^64 - 1] and leaves its timer running. *)
Lemma unpaired_detach_leaves_timer_running :
  let e := decreaseRunning (freshEntry "192.0.2.1") in
  timerRuns (timeout e) = true
  /\ running e = 2 ^ 64 - 1
  /\ ~ (timerRuns (timeout e) = true <-> running e = 0).
Proof.
  split; [reflexivity|]. split; [reflexivity|].
  intros [H _]. specialize (H eq_refl). vm_compute in H. discriminate.
Qed.

(** C5, amended: [increaseRunning] stops the timer and adds one to the
    count, [decreaseRunning] takes one from the count and resets the
    timer to the detached timeout, 60 seconds, exactly when the count
    has become zero; so, over calls that are paired, the timer runs iff
    the count is zero. *)
Theorem detachment_timer_runs_iff_detached (e0 e : connEntry) :
  0 <= running e0 < uintSize ->
  timer_inv e0 ->
  rtc paired_step e0 e ->
  detachedTimeout = 60 * Second
  /\ Second = 1000000000 * Nanosecond
  /\ (timeout (increaseRunning e) = TimerStopped
      /\ running (increaseRunning e) = wrap (running e + 1))
  /\ (running (decreaseRunning e) = wrap (running e - 1)
      /\ (running (decreaseRunning e) = 0 ->
          timeout (decreaseRunning e) = TimerArmed (60 * Second))
      /\ (running (decreaseRunning e) <> 0 ->
          timeout (decreaseRunning e) = timeout e))
  /\ (timerRuns (timeout e) = true <-> running e = 0).
Proof.
  intros Hrange Hinv Hsteps.
  split; [reflexivity|]. split; [reflexivity|].
  split; [repeat split|]. split.
  - split; [reflexivity|]. simpl. split.
    + intros Hz. rewrite Hz. reflexivity.
    + intros Hnz. apply Z.eqb_neq in Hnz. rewrite Hnz. reflexivity.
  - assert (Hok : entry_ok e) by (apply (paired_steps_ok e0); [split|]; assumption).
    exact (proj2 Hok).
Qed.

Lemma detachment_timer_runs_iff_detached_witness :
  let e := decreaseRunning (increaseRunning (freshEntry "192.0.2.1")) in
  timerRuns (timeout e) = true <-> running e = 0.
Proof.
  intros e.
  apply (detachment_timer_runs_iff_detached (freshEntry "192.0.2.1") e).
  - vm_compute. split; [discriminate | reflexivity].
  - split; reflexivity.
  - eapply rtc_l; [apply paired_attach; vm_compute; split; [discriminate | reflexivity]|].
    eapply rtc_l; [|apply rtc_refl].
    apply paired_detach. vm_compute. split; reflexivity.
Defined.

(** What holds of a resumable connection between two operations:
    with a transport attached the count is 1 and the timer is stopped,
    with none it is 0 and the timer is set to the detached timeout. *)
Definition attach_inv (c : Resumable) : Prop :=
  match attached c with
  | Some _ => running (entry c) = 1 /\ timeout (entry c) = TimerStopped
  | None => running (entry c) = 0 /\ timeout (entry c) = TimerArmed detachedTimeout
  end.

Lemma detach_inv (t : Transport) (c : Resumable) :
  attach_inv c -> attach_inv (detach t c).
Proof.
  unfold attach_inv, detach, isAttached. intros Hinv.
  destruct (attached c) as [t'|] eqn:Hatt.
  - destruct (Nat.eqb t t'); cbn [attached entry].
    + destruct Hinv as [Hrun _]. unfold decreaseRunning. simpl. rewrite Hrun.
      split; reflexivity.
    + exact Hinv.
  - cbn [attached entry]. exact Hinv.
Qed.

Lemma detach_incumbent (t : Transport) (c : Resumable) :
  attached c = Some t -> attached (detach t c) = None.
Proof.
  intros Hatt. unfold detach, isAttached. rewrite Hatt, Nat.eqb_refl. reflexivity.
Qed.

Lemma attach_attaches (t : Transport) (c : Resumable) :
  attach_inv c -> attach_inv (attach t c).
Proof.
  intros Hinv. unfold attach.
  set (c1 := match attached c with Some incumbent => detach incumbent c | None => c end).
  assert (H1 : attach_inv c1 /\ attached c1 = None).
  { unfold c1. destruct (attached c) as [old|] eqn:Hatt.
    - split; [apply detach_inv, Hinv | apply detach_incumbent, Hatt].
    - split; [exact Hinv | exact Hatt]. }
  destruct H1 as [Hinv1 Hnone]. unfold attach_inv in *. rewrite Hnone in Hinv1.
  destruct Hinv1 as [Hrun _]. cbn [attached entry]. unfold increaseRunning. simpl.
  rewrite Hrun. split; reflexivity.
Qed.

Lemma operateAll_inv (ops : list Operation) (c : Resumable) :
  attach_inv c -> attach_inv (operateAll ops c).
Proof.
  revert c. induction ops as [|op ops IH]; intros c Hinv; [exact Hinv|].
  apply IH. destruct op; [apply attach_attaches | apply detach_inv]; exact Hinv.
Qed.

(** C6: in every state that the attach and detach operations reach
    from a new connection, the count of the entry is 0 or 1: it is 1
    exactly when a transport is attached, and the timer runs exactly
    when it is 0.  That holds within an attach operation too, whose
    state after the incumbent has left is one that a detach operation
    reaches. *)
Theorem running_is_zero_or_one (ip : string) (ops : list Operation) :
  let c := operateAll ops (newResumable ip) in
  (running (entry c) = 0 \/ running (entry c) = 1)
  /\ (running (entry c) = 1 <-> attached c <> None)
  /\ (timerRuns (timeout (entry c)) = true <-> running (entry c) = 0)
  /\ (forall t,
        let c1 := match attached c with
                  | Some incumbent => detach incumbent c
                  | None => c
                  end in
        running (entry c1) = 0
        /\ running (entry (attach t c)) = 1
        /\ attached (attach t c) = Some t).
Proof.
  intros c.
  assert (Hinv : attach_inv c) by (apply operateAll_inv; split; reflexivity).
  assert (Hnext : forall t, attach_inv (attach t c)) by (intros t; apply attach_attaches, Hinv).
  unfold attach_inv in Hinv.
  split; [|split; [|split]].
  - destruct (attached c); destruct Hinv as [Hrun _]; auto.
  - destruct (attached c); destruct Hinv as [Hrun _]; rewrite Hrun;
      split; congruence.
  - destruct (attached c); destruct Hinv as [Hrun Htimer]; rewrite Hrun, Htimer;
      split; simpl; congruence.
  - intros t c1. split; [|split].
    + assert (H1 : attach_inv c1 /\ attached c1 = None).
      { unfold c1. destruct (attached c) as [old|] eqn:Hatt.
        - split; [apply detach_inv; unfold attach_inv; rewrite Hatt; exact Hinv
                 | apply detach_incumbent, Hatt].
        - split; [unfold attach_inv; rewrite Hatt; exact Hinv | exact Hatt]. }
      destruct H1 as [H1 Hnone]. unfold attach_inv in H1. rewrite Hnone in H1. apply H1.
    + specialize (Hnext t). unfold attach_inv in Hnext.
      change (attached (attach t c)) with (Some t) in Hnext. apply Hnext.
    + reflexivity.
Qed.

(** Two clients that present the same token one after the other (S4 of
    the spec): the second evicts the first, and the task of the first,
    which detaches late, no longer changes the count. *)
Example simultaneous_reattach :
  let c := operateAll [DoAttach 1%nat; DoAttach 2%nat; DoDetach 1%nat] (newResumable "192.0.2.1") in
  running (entry c) = 1
  /\ attached c = Some 2%nat
  /\ closedSockets c = [1%nat; 1%nat]
  /\ timeout (entry c) = TimerStopped.
Proof. repeat split. Qed.

End ConnEntryFacts.

End ResumptionFacts.

(** ** Bots and their backing user and role *)

Module MachineIDFacts.
Import Go Trace StateM MachineID GoFacts.
Local Open Scope list_scope.

Lemma HasPrefix_empty (s : string) : HasPrefix s "" = true.
Proof. destruct s; reflexivity. Qed.

(** [strings.ReplaceAll(name, " ", "-")] turns every space into a
    hyphen and keeps every other byte. *)
Lemma ReplaceAll_space_hyphen (s : string) : ReplaceAll s " " "-" = hyphenate s.
Proof.
  unfold ReplaceAll. induction s as [|c s IH]; [reflexivity|].
  cbn [replace_from hyphenate HasPrefix String.length Nat.sub].
  destruct (Ascii.eqb_spec " " c) as [<- | Hne].
  - rewrite HasPrefix_empty, append_cons, append_nil, IH. reflexivity.
  - destruct (Ascii.eqb_spec c " ") as [-> | _]; [contradiction|].
    rewrite IH. reflexivity.
Qed.

Lemma BotResourceName_hyphenate (botName : string) :
  BotResourceName botName = "bot-" +:+ hyphenate botName.
Proof. unfold BotResourceName. now rewrite ReplaceAll_space_hyphen. Qed.

Lemma hyphenate_length (s : string) : String.length (hyphenate s) = String.length s.
Proof. induction s as [|c s IH]; simpl; [reflexivity | now rewrite IH]. Qed.

Lemma hyphenate_no_space (s : string) : mem_str " " (hyphenate s) = false.
Proof.
  induction s as [|c s IH]; [reflexivity|].
  cbn [hyphenate mem_str]. rewrite IH.
  destruct (Ascii.eqb_spec c " ") as [-> | Hne]; [reflexivity|].
  destruct (Ascii.eqb_spec " " c) as [<- | _]; [contradiction | reflexivity].
Qed.

Section ServiceFacts.

Variable types : TypesPkg.

(** The role specification that [botToUserAndRole] hands to
    [types.NewRole]. *)
Definition botRoleSpec (roles : list string) : RoleSpecV6 :=
  {| Options := {| MaxSessionTTL := 12 * Hour |};
     Allow := {| Rules := [NewRule (KindCertAuthority types) [VerbReadNoSecrets types]];
                 Impersonate := Some {| Roles := roles |} |} |}.

(** The role and the user that it returns, from what the constructors
    returned. *)
Definition botRole (botName : string) (role0 : Role) : Role :=
  {| roleMetadata :=
       {| Name := Name (roleMetadata role0);
          Description := Sprintf "Automatically generated role for bot %s" [botName];
          Labels := {[ BotLabel types := botName ]} |};
     roleSpec := roleSpec role0 |}.

Definition botUser (botName : string) (traits : list Trait) (now : Z)
    (createdBy : string) (user0 : User) : User :=
  {| userMetadata :=
       {| Name := Name (userMetadata user0);
          Description := Description (userMetadata user0);
          Labels := <[ BotLabel types := botName ]>
                      (<[ BotGenerationLabel types := "0" ]> ∅) |};
     userRoles := [BotResourceName botName];
     userTraits := collectTraits traits;
     userCreatedBy := {| createdByUser := createdBy; createdByTime := now |} |}.

Lemma botToUserAndRole_ok (bot : Bot) (md : HeaderMetadata) (spec : BotSpec)
    (now : Z) (createdBy : string) (role0 : Role) (user0 : User) :
  Metadata_ bot = Some md ->
  Spec bot = Some spec ->
  NewRole types (BotResourceName (metaName md)) (botRoleSpec (specRoles spec)) = Ok role0 ->
  NewUser types (BotResourceName (metaName md)) = Ok user0 ->
  botToUserAndRole types bot now createdBy =
    Returns (Ok (botUser (metaName md) (specTraits spec) now createdBy user0,
                 botRole (metaName md) role0)).
Proof.
  intros Hmd Hspec Hrole Huser. unfold botToUserAndRole, botRoleSpec in *.
  rewrite Hmd, Hspec, Hrole, Huser. reflexivity.
Qed.

(** C9: the user and the role of a bot are both named
    [BotResourceName name], which is ["bot-"] and the name with every
    space replaced by a hyphen; both carry the bot label with the name
    as it was given, and the user's roles are that one resource name. *)
Theorem bot_resources_named (bot : Bot) (md : HeaderMetadata) (spec : BotSpec)
    (now : Z) (createdBy : string) (role0 : Role) (user0 : User) :
  Metadata_ bot = Some md ->
  Spec bot = Some spec ->
  NewRole types (BotResourceName (metaName md)) (botRoleSpec (specRoles spec)) = Ok role0 ->
  Role_GetName role0 = BotResourceName (metaName md) ->
  NewUser types (BotResourceName (metaName md)) = Ok user0 ->
  User_GetName user0 = BotResourceName (metaName md) ->
  exists user role,
    botToUserAndRole types bot now createdBy = Returns (Ok (user, role))
    /\ BotResourceName (metaName md) = "bot-" +:+ hyphenate (metaName md)
    /\ User_GetName user = BotResourceName (metaName md)
    /\ Role_GetName role = BotResourceName (metaName md)
    /\ User_GetLabel user (BotLabel types) = Some (metaName md)
    /\ Role_GetLabel role (BotLabel types) = Some (metaName md)
    /\ User_GetRoles user = [BotResourceName (metaName md)].
Proof.
  intros Hmd Hspec Hrole Hrname Huser Huname.
  eexists _, _. split; [exact (botToUserAndRole_ok _ _ _ _ _ _ _ Hmd Hspec Hrole Huser)|].
  split; [apply BotResourceName_hyphenate|].
  split; [exact Huname|]. split; [exact Hrname|].
  split; [|split; [|reflexivity]].
  - unfold User_GetLabel, botUser. simpl. apply lookup_insert_eq.
  - unfold Role_GetLabel, botRole. simpl. apply lookup_singleton_eq.
Qed.

Lemma validateBot_ok (bot : Bot) (md : HeaderMetadata) (spec : BotSpec) :
  Metadata_ bot = Some md ->
  metaName md <> "" ->
  Spec bot = Some spec ->
  validateBot (Some bot) = None.
Proof.
  intros Hmd Hname Hspec. unfold validateBot. rewrite Hmd, Hspec.
  destruct (String.eqb_spec (metaName md) ""); [contradiction | reflexivity].
Qed.

(** The user that [UpsertBot] writes when the backend has a user with
    generation label [g]. *)
Definition withGeneration (g : string) (user : User) : User :=
  User_SetMetadata user
    {| Name := Name (userMetadata user);
       Description := Description (userMetadata user);
       Labels := <[ BotGenerationLabel types := g ]> (Labels (userMetadata user)) |}.

(** C10: the user that [botToUserAndRole] builds has generation label
    ["0"]; when the backend has a user under the resource name,
    [UpsertBot] writes the user with the generation label of that user,
    and when that user has no generation label it returns a BadParameter
    error after the one call to [GetUser], without [UpsertUser] or
    [UpsertRole]. *)
Theorem upsert_copies_generation {S : Type} (backend : Backend S)
    (bot : Bot) (md : HeaderMetadata) (spec : BotSpec) (now : Z) (createdBy : string)
    (role0 : Role) (user0 existing : User) (w : BackendWorld S) (s1 : S) :
  Metadata_ bot = Some md ->
  metaName md <> "" ->
  Spec bot = Some spec ->
  NewRole types (BotResourceName (metaName md)) (botRoleSpec (specRoles spec)) = Ok role0 ->
  NewUser types (BotResourceName (metaName md)) = Ok user0 ->
  BotLabel types <> BotGenerationLabel types ->
  GetUser backend (BotResourceName (metaName md)) false (store w) = (Ok existing, s1) ->
  let name := BotResourceName (metaName md) in
  (exists user role,
      botToUserAndRole types bot now createdBy = Returns (Ok (user, role))
      /\ User_GetLabel user (BotGenerationLabel types) = Some "0"
      /\ match User_GetLabel existing (BotGenerationLabel types) with
         | Some g =>
             exists rest,
               calls (snd (UpsertBot types backend (Some bot) now createdBy w)) =
                 calls w ++ CallGetUser name false
                         :: CallUpsertUser (withGeneration g user) :: rest
               /\ User_GetLabel (withGeneration g user) (BotGenerationLabel types) = Some g
               /\ User_GetLabel (withGeneration g user) (BotLabel types) = Some (metaName md)
               /\ User_GetRoles (withGeneration g user) = User_GetRoles user
               /\ User_GetTraits (withGeneration g user) = User_GetTraits user
         | None =>
             UpsertBot types backend (Some bot) now createdBy w =
               (Returns (Err (BadParameter
                  "unable to determine existing generation for bot due to missing label")),
                {| store := s1; calls := calls w ++ [CallGetUser name false] |})
         end).
Proof.
  intros Hmd Hname Hspec Hrole Huser Hlabels Hget name.
  pose proof (botToUserAndRole_ok _ _ _ now createdBy _ _ Hmd Hspec Hrole Huser) as Hconv.
  eexists _, _. split; [exact Hconv|]. split.
  { unfold User_GetLabel, botUser. simpl.
    rewrite lookup_insert_ne by exact Hlabels. apply lookup_insert_eq. }
  unfold UpsertBot.
  rewrite (validateBot_ok _ _ _ Hmd Hname Hspec), Hconv, Hmd.
  unfold invoke, bind, ret. rewrite Hget.
  destruct (User_GetLabel existing (BotGenerationLabel types)) as [g|]; [|reflexivity].
  fold (withGeneration g (botUser (metaName md) (specTraits spec) now createdBy user0)).
  set (user := botUser (metaName md) (specTraits spec) now createdBy user0).
  assert (Hfacts :
    User_GetLabel (withGeneration g user) (BotGenerationLabel types) = Some g
    /\ User_GetLabel (withGeneration g user) (BotLabel types) = Some (metaName md)
    /\ User_GetRoles (withGeneration g user) = User_GetRoles user
    /\ User_GetTraits (withGeneration g user) = User_GetTraits user).
  { unfold withGeneration, User_GetLabel, User_SetMetadata, user, botUser. simpl.
    split; [apply lookup_insert_eq|]. split; [|split; reflexivity].
    rewrite lookup_insert_ne by (intros Heq; apply Hlabels; symmetry; exact Heq).
    apply lookup_insert_eq. }
  simpl.
  destruct (UpsertUser backend _ s1) as [[user'|e] s2]; simpl.
  - destruct (UpsertRole backend _ s2) as [[role'|e] s3]; simpl.
    + exists [CallUpsertRole (botRole (metaName md) role0)].
      split; [|exact Hfacts].
      destruct (botFromUserAndRole types user' role'); simpl;
        rewrite <- !app_assoc; reflexivity.
    + exists [CallUpsertRole (botRole (metaName md) role0)].
      split; [|exact Hfacts]. rewrite <- !app_assoc. reflexivity.
  - exists []. split; [|exact Hfacts]. rewrite <- !app_assoc. reflexivity.
Qed.

End ServiceFacts.

(** *** A sample instance *)

(** Label and kind constants, and constructors that accept every
    non-empty name. *)
Definition sampleTypes : TypesPkg :=
  {| BotLabel := "teleport.internal/bot";
     BotGenerationLabel := "teleport.internal/bot-generation";
     KindBot := "bot";
     V1 := "v1";
     KindCertAuthority := "cert_authority";
     VerbReadNoSecrets := "readnosecrets";
     NewRole := fun name spec =>
       if String.eqb name "" then Err (BadParameter "missing parameter Name")
       else Ok {| roleMetadata := {| Name := name; Description := ""; Labels := ∅ |};
                  roleSpec := spec |};
     NewUser := fun name =>
       if String.eqb name "" then Err (BadParameter "missing parameter Name")
       else Ok {| userMetadata := {| Name := name; Description := ""; Labels := ∅ |};
                  userRoles := [];
                  userTraits := ∅;
                  userCreatedBy := {| createdByUser := ""; createdByTime := 0 |} |} |}.

(** A backend that keeps users and roles in two maps. *)
Definition memoryBackend : Backend (gmap string User * gmap string Role) :=
  {| GetUser := fun name _ s =>
       (match fst s !! name with
        | Some u => Ok u
        | None => Err (NotFound name)
        end, s);
     UpsertUser := fun u s => (Ok u, (<[ User_GetName u := u ]> (fst s), snd s));
     UpsertRole := fun r s => (Ok r, (fst s, <[ Role_GetName r := r ]> (snd s))) |}.

Definition sampleMeta : HeaderMetadata := {| metaName := "build bot" |}.
Definition sampleSpec : BotSpec :=
  {| specRoles := ["access"];
     specTraits := [ {| traitName := "logins"; traitValues := ["root"] |} ] |}.
Definition sampleBot : Bot :=
  {| Kind := "bot"; Version := "v1";
     Metadata_ := Some sampleMeta; Spec := Some sampleSpec; Status := None |}.

Definition sampleRole0 : Role :=
  {| roleMetadata := {| Name := "bot-build-bot"; Description := ""; Labels := ∅ |};
     roleSpec := botRoleSpec sampleTypes ["access"] |}.
Definition sampleUser0 : User :=
  {| userMetadata := {| Name := "bot-build-bot"; Description := ""; Labels := ∅ |};
     userRoles := [];
     userTraits := ∅;
     userCreatedBy := {| createdByUser := ""; createdByTime := 0 |} |}.

(** A user that the backend already has, at generation 7. *)
Definition existingUser : User :=
  {| userMetadata :=
       {| Name := "bot-build-bot"; Description := "";
          Labels := {[ "teleport.internal/bot-generation" := "7" ]} |};
     userRoles := ["bot-build-bot"];
     userTraits := ∅;
     userCreatedBy := {| createdByUser := "admin"; createdByTime := 1 |} |}.

Definition sampleStore : gmap string User * gmap string Role :=
  ({[ "bot-build-bot" := existingUser ]}, ∅).

Definition sampleBackendWorld : BackendWorld (gmap string User * gmap string Role) :=
  {| store := sampleStore; calls := [] |}.

Example sample_resource_name : BotResourceName "build bot" = "bot-build-bot".
Proof. reflexivity. Qed.

Lemma bot_resources_named_witness :
  exists user role,
    botToUserAndRole sampleTypes sampleBot 0 "admin" = Returns (Ok (user, role))
    /\ User_GetName user = "bot-build-bot"
    /\ Role_GetName role = "bot-build-bot"
    /\ User_GetRoles user = ["bot-build-bot"].
Proof.
  destruct (bot_resources_named sampleTypes sampleBot sampleMeta sampleSpec 0 "admin"
              sampleRole0 sampleUser0)
    as (user & role & Hconv & _ & Huser & Hrole & _ & _ & Hroles);
    try reflexivity.
  exists user, role. auto.
Defined.

Lemma upsert_copies_generation_witness :
  exists rest,
    calls (snd (UpsertBot sampleTypes memoryBackend (Some sampleBot) 0 "admin"
                  sampleBackendWorld)) =
      CallGetUser "bot-build-bot" false
        :: CallUpsertUser
             (withGeneration sampleTypes "7"
                (botUser sampleTypes "build bot" (specTraits sampleSpec) 0 "admin" sampleUser0))
        :: rest.
Proof.
  destruct (upsert_copies_generation sampleTypes memoryBackend sampleBot sampleMeta
              sampleSpec 0 "admin" sampleRole0 sampleUser0 existingUser
              sampleBackendWorld sampleStore)
    as (user & role & Hconv & _ & Hcalls);
    try reflexivity; try discriminate.
  assert (Hlabel : User_GetLabel existingUser (BotGenerationLabel sampleTypes) = Some "7")
    by reflexivity.
  rewrite Hlabel in Hcalls. destruct Hcalls as (rest & Hcalls & _).
  assert (Huser : user = botUser sampleTypes "build bot" (specTraits sampleSpec) 0 "admin"
                           sampleUser0).
  { assert (Hconv' : botToUserAndRole sampleTypes sampleBot 0 "admin" =
                       Returns (Ok (botUser sampleTypes "build bot" (specTraits sampleSpec)
                                      0 "admin" sampleUser0,
                                    botRole sampleTypes "build bot" sampleRole0)))
      by (apply (botToUserAndRole_ok sampleTypes sampleBot sampleMeta sampleSpec);
          reflexivity).
    rewrite Hconv' in Hconv. injection Hconv as <- _. reflexivity. }
  subst user. exists rest. exact Hcalls.
Defined.

End MachineIDFacts.

(** * Further properties of the resumption hook *)

Module ResumptionExtra.
Import Go Trace StateM Resumption GoFacts ResumptionFacts.
Local Open Scope list_scope.

(** The three ways in which a handler lets go of a connection. *)
Definition isHandOff (ev : Event) : bool :=
  match ev with
  | EvSSHServer _ | EvResumptionExchangeV1 _ _ | EvClose _ => true
  | _ => false
  end.

Definition isExchange (ev : Event) : bool :=
  match ev with
  | EvResumptionExchangeV1 _ _ => true
  | _ => false
  end.

Definition isWrite (ev : Event) : bool :=
  match ev with
  | EvWrite _ _ => true
  | _ => false
  end.

Ltac run :=
  unfold PreDetect, HandleConnection, PreDetectFixedSSHVersion,
    handleResumptionExchangeV1, sshServer, log, GenerateKey, Write, Close,
    Discard, setSock, emit, when, modify, bind, gets, ret.

Section HandlerExtra.

Variable IsOKNetworkError : error -> bool.

Ltac run_peeked nc w Hkey Hwrite Hpeek :=
  run; rewrite Hkey, Hwrite; simpl;
  rewrite peekPrelude_eq;
  erewrite (peekPrelude_inbound _ (ensureMultiplexerConn nc) _ _ w), Hpeek by reflexivity;
  simpl.

(** X1: when the banner cannot be written, [HandleConnection] closes the
    socket it was given without peeking, and logs a warning exactly when
    the error is not a routine network error; [PreDetect] returns the
    wrapped error and no hook, and leaves the socket open for its
    caller. *)
Theorem banner_write_failure
    (r : SSHServerWrapper) (nc : NetConn) (dhKey : PrivateKey) (err : error) (w : World) :
  keygen w = Ok dhKey ->
  writeErr (sock w) = Some err ->
  (exists wH,
      HandleConnection IsOKNetworkError r nc w = (tt, wH)
      /\ closed (sock wH) = true
      /\ inbound (sock wH) = inbound (sock w)
      /\ outbound (sock wH) = outbound (sock w)
      /\ trace wH = trace w
           ++ (if IsOKNetworkError err then []
               else [EvLog WarnLevel "Error while sending SSH identification string."
                       (Some err)])
           ++ [EvClose nc])
  /\ (exists res,
      PreDetect IsOKNetworkError r nc w = (res, w)
      /\ fst res = None
      /\ snd res = Some (Wrap err "")).
Proof.
  intros Hkey Hwrite. split.
  - destruct (IsOKNetworkError err) eqn:Hok; eexists;
      (split;
       [ run; rewrite Hkey, Hwrite; simpl; rewrite Hok; simpl; reflexivity
       | simpl; rewrite <- ?app_assoc; auto ]).
  - eexists. split.
    + run. rewrite Hkey, Hwrite. simpl. reflexivity.
    + auto.
Qed.

(** The answer of [peekPrelude], whatever it is. *)
Lemma peekPrelude_cases (conn : NetConn) (w : World) :
  let a := fst (peekPrelude conn clientPreludeV1 w) in
  a = (true, None) \/ a = (false, None) \/ exists b err, a = (b, Some err).
Proof.
  cbv zeta. destruct (fst (peekPrelude conn clientPreludeV1 w)) as [[|] [err|]]; eauto.
Qed.

(** X2: whatever the key generator, the socket and the client do,
    [HandleConnection] lets go of the connection exactly once, as its
    last action: it closes it, or hands it to the inner SSH server, or
    hands it to the resumption exchange.  Only the exchange is given a
    stream with bytes consumed, and those are the prelude. *)
Theorem HandleConnection_hands_off_once
    (r : SSHServerWrapper) (nc : NetConn) (w : World) :
  exists evs last wH,
    HandleConnection IsOKNetworkError r nc w = (tt, wH)
    /\ trace wH = trace w ++ evs ++ [last]
    /\ forallb (fun ev => negb (isHandOff ev)) evs = true
    /\ match last with
       | EvClose _ =>
           closed (sock wH) = true /\ inbound (sock wH) = inbound (sock w)
       | EvSSHServer _ =>
           closed (sock wH) = closed (sock w) /\ inbound (sock wH) = inbound (sock w)
       | EvResumptionExchangeV1 _ dhKey =>
           keygen w = Ok dhKey
           /\ closed (sock wH) = closed (sock w)
           /\ inbound (sock w) = clientPreludeV1 +:+ inbound (sock wH)
       | _ => False
       end.
Proof.
  destruct (keygen w) as [dhKey|kerr] eqn:Hkey.
  - destruct (writeErr (sock w)) as [werr|] eqn:Hwrite.
    + destruct (IsOKNetworkError werr) eqn:Hok.
      * exists [], (EvClose nc). eexists. split.
        { run. rewrite Hkey, Hwrite. simpl. rewrite Hok. reflexivity. }
        simpl. auto.
      * eexists [_], (EvClose nc), _. split.
        { run. rewrite Hkey, Hwrite. simpl. rewrite Hok. reflexivity. }
        simpl. rewrite <- app_assoc. auto.
    + destruct (fst (peekPrelude (ensureMultiplexerConn nc) clientPreludeV1 w))
        as [b [perr|]] eqn:Hpeek.
      * destruct (IsOKNetworkError perr) eqn:Hok.
        -- eexists [_], (EvClose _), _. split.
           { run_peeked nc w Hkey Hwrite Hpeek. rewrite Hok. simpl. reflexivity. }
           simpl. rewrite <- app_assoc. auto.
        -- eexists [_; _], (EvClose _), _. split.
           { run_peeked nc w Hkey Hwrite Hpeek. rewrite Hok. simpl. reflexivity. }
           simpl. rewrite <- !app_assoc. auto.
      * destruct b.
        -- eexists [_; _; _], (EvResumptionExchangeV1 _ _), _. split.
           { run_peeked nc w Hkey Hwrite Hpeek. reflexivity. }
           simpl. rewrite <- !app_assoc. repeat split.
           exact (peekPrelude_match _ _ _ Hpeek).
        -- eexists [_; _], (EvSSHServer _), _. split.
           { run_peeked nc w Hkey Hwrite Hpeek. reflexivity. }
           simpl. rewrite <- !app_assoc. auto.
  - eexists [_], (EvSSHServer nc), _. split.
    { run. rewrite Hkey. simpl. reflexivity. }
    simpl. rewrite <- !app_assoc. auto.
Qed.

(** A stream that matches the prelude has a NUL as its ninth byte. *)
Lemma peekPrelude_match_NUL (conn : NetConn) (w : World) :
  fst (peekPrelude conn clientPreludeV1 w) = (true, None) ->
  String.get 8 (inbound (sock w)) = Some NUL.
Proof.
  intros Hpeek. rewrite (peekPrelude_match _ _ _ Hpeek).
  generalize (drop_str (String.length clientPreludeV1) (inbound (sock w))). intros rest.
  reflexivity.
Qed.

(** X3: a client whose ninth byte is not NUL, as that of every SSH
    version string, is never taken for a resuming one: neither
    [HandleConnection] nor the post-detect hook calls the resumption
    exchange or consumes a byte of its stream. *)
Theorem no_NUL_no_hijack
    (r : SSHServerWrapper) (nc conn : NetConn) (dhKey : PrivateKey)
    (banner : string) (w : World) :
  String.get 8 (inbound (sock w)) <> Some NUL ->
  (let wH := snd (HandleConnection IsOKNetworkError r nc w) in
   filter (fun ev => isExchange ev = true) (trace wH)
     = filter (fun ev => isExchange ev = true) (trace w)
   /\ inbound (sock wH) = inbound (sock w))
  /\ (let w2 := snd (postDetect IsOKNetworkError r dhKey banner conn w) in
      filter (fun ev => isExchange ev = true) (trace w2)
        = filter (fun ev => isExchange ev = true) (trace w)
      /\ inbound (sock w2) = inbound (sock w)).
Proof.
  intros Hnul. split.
  - cbv zeta. destruct (keygen w) as [k|kerr] eqn:Hkey.
    + destruct (writeErr (sock w)) as [werr|] eqn:Hwrite.
      * run. rewrite Hkey, Hwrite. simpl.
        destruct (IsOKNetworkError werr); simpl;
          rewrite ?filter_app; simpl; rewrite ?app_nil_r; auto.
      * destruct (fst (peekPrelude (ensureMultiplexerConn nc) clientPreludeV1 w))
          as [b [perr|]] eqn:Hpeek.
        -- run_peeked nc w Hkey Hwrite Hpeek.
           destruct (IsOKNetworkError perr); simpl;
             rewrite ?filter_app; simpl; rewrite ?app_nil_r; auto.
        -- destruct b.
           ++ contradiction (Hnul (peekPrelude_match_NUL _ _ Hpeek)).
           ++ run_peeked nc w Hkey Hwrite Hpeek.
              rewrite ?filter_app; simpl; rewrite ?app_nil_r; auto.
    + run. rewrite Hkey. simpl. rewrite ?filter_app; simpl; rewrite ?app_nil_r; auto.
  - cbv zeta. unfold postDetect.
    destruct (fst (peekPrelude conn clientPreludeV1 w)) as [b [perr|]] eqn:Hpeek.
    + run. rewrite peekPrelude_eq, Hpeek. simpl.
      destruct (IsOKNetworkError perr); simpl;
        rewrite ?filter_app; simpl; rewrite ?app_nil_r; auto.
    + destruct b.
      * contradiction (Hnul (peekPrelude_match_NUL _ _ Hpeek)).
      * run. rewrite peekPrelude_eq, Hpeek. simpl.
        rewrite ?filter_app; simpl; rewrite ?app_nil_r; auto.
Qed.

(** X4: the post-detect hook never writes to the socket.  It returns a
    connection exactly when it has neither closed nor hijacked the one
    it was given, and that connection is the version-skipping wrapper
    around it, with the socket as it was; when it returns nil its last
    action was to close the connection or to hand it to the resumption
    exchange. *)
Theorem postDetect_outcome
    (r : SSHServerWrapper) (dhKey : PrivateKey) (banner : string)
    (conn : NetConn) (w : World) :
  exists res w2,
    postDetect IsOKNetworkError r dhKey banner conn w = (res, w2)
    /\ outbound (sock w2) = outbound (sock w)
    /\ filter (fun ev => isWrite ev = true) (trace w2)
         = filter (fun ev => isWrite ev = true) (trace w)
    /\ match res with
       | Some c =>
           c = sshVersionSkipConn conn (take_str (String.length banner - 2) banner) banner
           /\ sock w2 = sock w
           /\ filter (fun ev => isHandOff ev = true) (trace w2)
                = filter (fun ev => isHandOff ev = true) (trace w)
       | None =>
           exists evs last,
             trace w2 = trace w ++ evs ++ [last]
             /\ forallb (fun ev => negb (isHandOff ev)) evs = true
             /\ ((last = EvClose conn /\ closed (sock w2) = true)
                 \/ (last = EvResumptionExchangeV1 conn dhKey
                     /\ closed (sock w2) = closed (sock w)
                     /\ inbound (sock w) = clientPreludeV1 +:+ inbound (sock w2)))
       end.
Proof.
  unfold postDetect.
  destruct (fst (peekPrelude conn clientPreludeV1 w)) as [b [perr|]] eqn:Hpeek.
  - destruct (IsOKNetworkError perr) eqn:Hok; eexists None, _;
      (split; [run; rewrite peekPrelude_eq, Hpeek; simpl; rewrite Hok; reflexivity|]);
      simpl; rewrite ?filter_app; simpl; rewrite ?app_nil_r;
      (split; [reflexivity|]); (split; [reflexivity|]).
    + exists [], (EvClose conn). simpl. auto.
    + eexists [_], (EvClose conn). simpl. rewrite <- app_assoc. auto.
  - destruct b.
    + eexists None, _.
      split; [run; rewrite peekPrelude_eq, Hpeek; simpl; reflexivity|].
      simpl. rewrite ?filter_app. simpl. rewrite ?app_nil_r.
      split; [reflexivity|]. split; [reflexivity|].
      eexists [_; _], (EvResumptionExchangeV1 conn dhKey). simpl.
      rewrite <- !app_assoc. split; [reflexivity|]. split; [reflexivity|].
      right. repeat split. exact (peekPrelude_match _ _ _ Hpeek).
    + eexists (Some _), _.
      split; [run; rewrite peekPrelude_eq, Hpeek; cbv beta iota zeta; reflexivity|].
      simpl. rewrite ?filter_app. simpl. rewrite ?app_nil_r.
      destruct w as [[] ? ?]. simpl. auto.
Qed.

End HandlerExtra.

(** *** The shape of the banner *)

(** X5: the banner is one line: the identification string, which
    starts with ["SSH-2.0-"] as RFC 4253 asks, and then CRLF.  When the
    host ID has no CR and no LF, the identification string, which is what
    the version-skipping wrapper records, has none either, and none of
    NUL when the host ID has none.  The banner never starts with the
    client prelude. *)
Theorem serverVersionCRLFV1_one_line (pubKey : PublicKey) (hostID : string) :
  mem_str CR hostID = false ->
  mem_str LF hostID = false ->
  exists line,
    serverVersionCRLFV1 pubKey hostID = line +:+ CRLF
    /\ take_str (String.length (serverVersionCRLFV1 pubKey hostID) - 2)
         (serverVersionCRLFV1 pubKey hostID) = line
    /\ HasPrefix line sshPrefix = true
    /\ mem_str CR line = false
    /\ mem_str LF line = false
    /\ (mem_str NUL hostID = false -> mem_str NUL line = false)
    /\ HasPrefix (serverVersionCRLFV1 pubKey hostID) clientPreludeV1 = false.
Proof.
  intros Hcr Hlf.
  exists ("SSH-2.0-Teleport resume-v1 "
            +:+ RawStdEncoding_EncodeToString (Bytes pubKey) +:+ " " +:+ hostID).
  assert (Heq : serverVersionCRLFV1 pubKey hostID =
                ("SSH-2.0-Teleport resume-v1 "
                   +:+ RawStdEncoding_EncodeToString (Bytes pubKey) +:+ " " +:+ hostID)
                  +:+ CRLF).
  { rewrite serverVersionCRLFV1_eq. now rewrite !append_assoc. }
  split; [exact Heq|]. split.
  { rewrite Heq, length_append. change (String.length CRLF) with 2.
    rewrite Nat.add_sub. apply take_app_length. }
  unfold RawStdEncoding_EncodeToString.
  split; [reflexivity|].
  rewrite !mem_str_append, !Encode_no_break, Hcr, Hlf by reflexivity.
  split; [reflexivity|]. split; [reflexivity|].
  split; [intros ->; reflexivity|].
  rewrite serverVersionCRLFV1_eq. reflexivity.
Qed.

Lemma serverVersionCRLFV1_one_line_witness :
  exists line,
    serverVersionCRLFV1 (publicKey sampleKey) "host-1" = line +:+ CRLF
    /\ mem_str CR line = false /\ mem_str LF line = false.
Proof.
  destruct (serverVersionCRLFV1_one_line (publicKey sampleKey) "host-1")
    as (line & Heq & _ & _ & Hcr & Hlf & _); try reflexivity.
  exists line. auto.
Defined.

Lemma banner_write_failure_witness :
  exists wH,
    HandleConnection neverOK sampleWrapper TCPConn
      {| sock := {| inbound := ""; inboundErr := Foreign "EOF"; outbound := "";
                    writeErr := Some (Foreign "broken pipe"); closed := false |};
         keygen := Ok sampleKey; trace := [] |} = (tt, wH)
    /\ closed (sock wH) = true.
Proof.
  destruct (banner_write_failure neverOK sampleWrapper TCPConn sampleKey
              (Foreign "broken pipe")
              {| sock := {| inbound := ""; inboundErr := Foreign "EOF"; outbound := "";
                            writeErr := Some (Foreign "broken pipe"); closed := false |};
                 keygen := Ok sampleKey; trace := [] |})
    as [(wH & Hrun & Hclosed & _) _]; try reflexivity.
  exists wH. auto.
Defined.

Lemma no_NUL_no_hijack_witness :
  inbound (sock (snd (HandleConnection neverOK sampleWrapper TCPConn legacyWorld)))
    = inbound (sock legacyWorld).
Proof.
  apply (no_NUL_no_hijack neverOK sampleWrapper TCPConn TCPConn sampleKey "" legacyWorld).
  vm_compute. discriminate.
Defined.

End ResumptionExtra.

(** * Further properties of connection entries *)

Module ConnEntryExtra.
Import Go Trace Resumption ResumptionFacts.
Local Open Scope Z_scope.

(** A call on an entry, and a sequence of calls. *)
Inductive EntryCall : Type := Attach | Detach.

Definition call (e : connEntry) (c : EntryCall) : connEntry :=
  match c with
  | Attach => increaseRunning e
  | Detach => decreaseRunning e
  end.

Definition callAll (cs : list EntryCall) (e : connEntry) : connEntry :=
  fold_left call cs e.

Definition delta (c : EntryCall) : Z :=
  match c with
  | Attach => 1
  | Detach => -1
  end.

Fixpoint balance (cs : list EntryCall) : Z :=
  match cs with
  | [] => 0
  | c :: cs' => delta c + balance cs'
  end.

(** The count stays a [uint] along the calls, starting from [n]: no
    detachment at zero and no attachment at the largest value. *)
Fixpoint fits (n : Z) (cs : list EntryCall) : bool :=
  match cs with
  | [] => true
  | c :: cs' =>
      (0 <=? n + delta c) && (n + delta c <? uintSize) && fits (n + delta c) cs'
  end.

(** X6: an attachment followed by its detachment leaves the count as it
    was, and leaves the timer set to the detached timeout when the count
    is zero and stopped otherwise, whatever the timer was before. *)
Theorem attach_detach_round_trip (e : connEntry) :
  0 <= running e < uintSize - 1 ->
  running (decreaseRunning (increaseRunning e)) = running e
  /\ timeout (decreaseRunning (increaseRunning e)) =
       (if running e =? 0 then TimerArmed detachedTimeout else TimerStopped)
  /\ remoteIP (decreaseRunning (increaseRunning e)) = remoteIP e.
Proof.
  intros Hrange. unfold decreaseRunning, increaseRunning. simpl.
  rewrite (wrap_small (running e + 1)) by (unfold uintSize in *; lia).
  replace (running e + 1 - 1) with (running e) by lia.
  rewrite wrap_small by (unfold uintSize in *; lia).
  destruct (running e =? 0); auto.
Qed.

Lemma attach_detach_round_trip_witness :
  timeout (decreaseRunning (increaseRunning (freshEntry "192.0.2.1")))
    = TimerArmed detachedTimeout.
Proof.
  apply (attach_detach_round_trip (freshEntry "192.0.2.1")).
  vm_compute. split; [discriminate | reflexivity].
Defined.

Lemma call_running (e : connEntry) (c : EntryCall) :
  running (call e c) = wrap (running e + delta c).
Proof. destruct c; reflexivity. Qed.

(** X7: the count is the number of attachments minus the number of
    detachments: after any sequence of calls along which it neither
    underflows nor overflows, it is the initial count plus the balance
    of the sequence, and still a [uint]. *)
Theorem running_is_balance (cs : list EntryCall) (e : connEntry) :
  0 <= running e < uintSize ->
  fits (running e) cs = true ->
  running (callAll cs e) = running e + balance cs
  /\ 0 <= running (callAll cs e) < uintSize.
Proof.
  revert e. induction cs as [|c cs IH]; intros e Hrange Hfits.
  - simpl. split; lia.
  - cbn [fits] in Hfits.
    apply andb_prop in Hfits as [Hstep Hfits].
    apply andb_prop in Hstep as [Hlo Hhi].
    apply Z.leb_le in Hlo. apply Z.ltb_lt in Hhi.
    assert (Hcall : running (call e c) = running e + delta c).
    { rewrite call_running. apply wrap_small. lia. }
    change (callAll (c :: cs) e) with (callAll cs (call e c)).
    destruct (IH (call e c)) as [Heq Hbound].
    + rewrite Hcall. lia.
    + rewrite Hcall. exact Hfits.
    + split; [|exact Hbound]. rewrite Heq, Hcall. cbn [balance]. lia.
Qed.

Lemma running_is_balance_witness :
  running (callAll [Attach; Attach; Detach] (freshEntry "192.0.2.1")) = 1.
Proof.
  apply (running_is_balance [Attach; Attach; Detach] (freshEntry "192.0.2.1")).
  - vm_compute. split; [discriminate | reflexivity].
  - vm_compute. reflexivity.
Defined.

(** X8: nothing guards the ends of the counter.  A detachment at count
    zero wraps it to [2^64 - 1] and leaves the timer as it is; an
    attachment at [2^64 - 1] wraps it to zero with the timer stopped.
    Either way an entry can end with count zero and no running timer. *)
Theorem running_wraps (e : connEntry) :
  (running e = 0 ->
     running (decreaseRunning e) = uintSize - 1
     /\ timeout (decreaseRunning e) = timeout e
     /\ running (increaseRunning (decreaseRunning e)) = 0
     /\ ~ timer_inv (increaseRunning (decreaseRunning e)))
  /\ (running e = uintSize - 1 ->
        running (increaseRunning e) = 0
        /\ ~ timer_inv (increaseRunning e)).
Proof.
  split; intros Hrun.
  - unfold decreaseRunning, increaseRunning, timer_inv. simpl. rewrite Hrun.
    repeat split.
    intros [_ Hinv]. specialize (Hinv eq_refl). discriminate.
  - unfold increaseRunning, timer_inv. simpl. rewrite Hrun.
    split; [reflexivity|].
    intros [_ Hinv]. specialize (Hinv eq_refl). discriminate.
Qed.

Lemma running_wraps_witness :
  running (decreaseRunning (freshEntry "192.0.2.1")) = uintSize - 1.
Proof.
  apply (running_wraps (freshEntry "192.0.2.1")). reflexivity.
Defined.

End ConnEntryExtra.

(** * Further properties of bots and their resources *)

Module MachineIDExtra.
Import Go Trace StateM MachineID GoFacts MachineIDFacts.
Local Open Scope list_scope.

(** ** Resource names *)

Lemma hyphenate_idempotent (s : string) : hyphenate (hyphenate s) = hyphenate s.
Proof.
  induction s as [|c s IH]; [reflexivity|].
  cbn [hyphenate]. rewrite IH.
  destruct (Ascii.eqb_spec c " ") as [-> | Hne]; [reflexivity|].
  destruct (Ascii.eqb_spec c " "); [contradiction | reflexivity].
Qed.

Lemma hyphenate_without_space (s : string) : mem_str " " s = false -> hyphenate s = s.
Proof.
  induction s as [|c s IH]; [reflexivity|].
  cbn [hyphenate mem_str]. intros Hmem.
  apply orb_false_elim in Hmem as [Hc Hs]. rewrite (IH Hs).
  destruct (Ascii.eqb_spec c " ") as [-> | _]; [discriminate | reflexivity].
Qed.

(** X9: a resource name is ["bot-"] and as many bytes as the bot name
    has, and it never has a space in it. *)
Theorem BotResourceName_shape (botName : string) :
  HasPrefix (BotResourceName botName) "bot-" = true
  /\ String.length (BotResourceName botName) = 4 + String.length botName
  /\ mem_str " " (BotResourceName botName) = false
  /\ drop_str 4 (BotResourceName botName) = hyphenate botName.
Proof.
  rewrite BotResourceName_hyphenate.
  rewrite !append_cons, append_nil. simpl.
  rewrite hyphenate_length, hyphenate_no_space, HasPrefix_empty. repeat split.
Qed.

(** X10: two bot names have the same resource name exactly when they
    differ only in spaces written as hyphens; so a name with a space
    shares its user and role with the name written with hyphens, and
    names without spaces never collide. *)
Theorem BotResourceName_collisions :
  (forall a b, BotResourceName a = BotResourceName b <-> hyphenate a = hyphenate b)
  /\ (forall a, BotResourceName (hyphenate a) = BotResourceName a)
  /\ (forall a, mem_str " " a = true -> hyphenate a <> a)
  /\ (forall a b,
        mem_str " " a = false -> mem_str " " b = false ->
        BotResourceName a = BotResourceName b -> a = b).
Proof.
  assert (Hiff : forall a b,
             BotResourceName a = BotResourceName b <-> hyphenate a = hyphenate b).
  { intros a b. rewrite !BotResourceName_hyphenate. split.
    - rewrite !append_cons, !append_nil. intros H. injection H as H. exact H.
    - intros ->. reflexivity. }
  split; [exact Hiff|]. split; [|split].
  - intros a. apply Hiff. apply hyphenate_idempotent.
  - intros a Hmem Heq. rewrite <- Heq, hyphenate_no_space in Hmem. discriminate.
  - intros a b Ha Hb Heq. apply Hiff in Heq.
    now rewrite !hyphenate_without_space in Heq.
Qed.

Example resource_name_collision :
  BotResourceName "build bot" = BotResourceName "build-bot".
Proof. reflexivity. Qed.

(** ** Traits *)

(** The values that the traits named [name] carry, in order. *)
Definition valuesOf (name : string) (ts : list Trait) : list string :=
  flat_map (fun t => if String.eqb (traitName t) name then traitValues t else []) ts.

Definition traitStep (traits : gmap string (list string)) (t : Trait)
  : gmap string (list string) :=
  if Nat.eqb (List.length (traitValues t)) 0 then traits
  else <[traitName t := app (default [] (traits !! traitName t)) (traitValues t)]> traits.

Lemma collectTraits_from (ts : list Trait) (acc : gmap string (list string)) (name : string) :
  fold_left traitStep ts acc !! name =
    match valuesOf name ts with
    | [] => acc !! name
    | vs => Some (default [] (acc !! name) ++ vs)
    end.
Proof.
  revert acc. induction ts as [|t ts IH]; intros acc; [reflexivity|].
  cbn [fold_left]. rewrite IH. unfold valuesOf. cbn [flat_map].
  fold (valuesOf name ts). unfold traitStep.
  destruct (traitValues t) as [|v vs] eqn:Hvals.
  - simpl. destruct (String.eqb (traitName t) name); reflexivity.
  - cbn [List.length Nat.eqb].
    destruct (String.eqb_spec (traitName t) name) as [-> | Hne].
    + rewrite lookup_insert_eq.
      change (default [] (Some ?x)) with x.
      destruct (valuesOf name ts) as [|v' vs'].
      * rewrite app_nil_r. reflexivity.
      * rewrite <- app_assoc. reflexivity.
    + rewrite lookup_insert_ne by exact Hne. reflexivity.
Qed.

Lemma collectTraits_lookup_eq (ts : list Trait) (name : string) :
  collectTraits ts !! name =
    match valuesOf name ts with
    | [] => None
    | vs => Some vs
    end.
Proof.
  unfold collectTraits.
  change (fold_left _ ts ∅) with (fold_left traitStep ts ∅).
  rewrite collectTraits_from, lookup_empty. reflexivity.
Qed.

Lemma collectTraits_nonempty (ts : list Trait) (name : string) (vs : list string) :
  collectTraits ts !! name = Some vs -> vs <> [] /\ vs = valuesOf name ts.
Proof.
  rewrite collectTraits_lookup_eq. destruct (valuesOf name ts) as [|v vs'].
  - discriminate.
  - intros H. injection H as <-. split; [discriminate | reflexivity].
Qed.

(** X11: the traits collected from a bot map a name to the values of
    all traits of that name, in their order; a name whose traits carry
    no value at all is not in the map, so no name maps to an empty
    list. *)
Theorem collectTraits_lookup (ts : list Trait) (name : string) :
  collectTraits ts !! name =
    match valuesOf name ts with
    | [] => None
    | vs => Some vs
    end
  /\ collectTraits ts !! name <> Some []
  /\ (collectTraits ts !! name = None <->
      Forall (fun t => traitName t = name -> traitValues t = []) ts).
Proof.
  split; [apply collectTraits_lookup_eq|]. split.
  - intros H. apply collectTraits_nonempty in H as [Hne _]. contradiction.
  - rewrite collectTraits_lookup_eq. unfold valuesOf.
    induction ts as [|t ts IH]; [split; [constructor | reflexivity]|].
    cbn [flat_map].
    destruct (String.eqb_spec (traitName t) name) as [Hname | Hname].
    + destruct (traitValues t) as [|v vs] eqn:Hvals.
      * rewrite app_nil_l, IH. split.
        -- intros Hall. constructor; [intros _; exact Hvals | exact Hall].
        -- intros Hall. apply Forall_cons in Hall as [_ Hall]. exact Hall.
      * split; [discriminate|].
        intros Hall. apply Forall_cons in Hall as [Ht _].
        rewrite Hvals in Ht. specialize (Ht Hname). discriminate.
    + rewrite app_nil_l, IH. split.
      * intros Hall. constructor; [intros Heq; contradiction | exact Hall].
      * intros Hall. apply Forall_cons in Hall as [_ Hall]. exact Hall.
Qed.

(** ** From a bot to its resources and back *)

Definition traitOf (kv : string * list string) : option Trait :=
  if Nat.eqb (List.length (snd kv)) 0 then None
  else Some {| traitName := fst kv; traitValues := snd kv |}.

Lemma traitOf_names (l : list (string * list string)) :
  NoDup (fst <$> l) -> NoDup (traitName <$> omap traitOf l).
Proof.
  induction l as [|kv l IH]; intros Hnd; [constructor|].
  cbn [fmap list_fmap] in Hnd. apply NoDup_cons in Hnd as [Hnotin Hnd].
  cbn [omap list_omap]. unfold traitOf at 1.
  destruct (Nat.eqb (List.length (snd kv)) 0); [exact (IH Hnd)|].
  cbn [fmap list_fmap traitName]. apply NoDup_cons. split; [|exact (IH Hnd)].
  intros Hin. apply Hnotin.
  apply list_elem_of_fmap in Hin as (t & Hname & Hin).
  apply list_elem_of_omap in Hin as (kv' & Hin & Hkv').
  unfold traitOf in Hkv'.
  destruct (Nat.eqb (List.length (snd kv')) 0); [discriminate|].
  injection Hkv' as <-. simpl in Hname. rewrite Hname.
  apply list_elem_of_fmap. exists kv'. split; [reflexivity | exact Hin].
Qed.

Section ServiceExtra.

Variable types : TypesPkg.

(** X12: converting a bot to its user and role and back gives a bot
    with the name as it was given (spaces and all), the roles of the
    bot, the resource names in its status, and one trait per name that
    has a value, with all values of that name in order. *)
Theorem bot_round_trip (bot : Bot) (md : HeaderMetadata) (spec : BotSpec)
    (now : Z) (createdBy : string) (role0 : Role) (user0 : User) :
  Metadata_ bot = Some md ->
  Spec bot = Some spec ->
  NewRole types (BotResourceName (metaName md)) (botRoleSpec types (specRoles spec)) = Ok role0 ->
  Impersonate (Allow (roleSpec role0)) = Some {| Roles := specRoles spec |} ->
  NewUser types (BotResourceName (metaName md)) = Ok user0 ->
  exists user role bot' spec',
    botToUserAndRole types bot now createdBy = Returns (Ok (user, role))
    /\ botFromUserAndRole types user role = Ok bot'
    /\ Kind bot' = KindBot types
    /\ Version bot' = V1 types
    /\ Metadata_ bot' = Some md
    /\ Status bot' = Some {| UserName := User_GetName user0; RoleName := Role_GetName role0 |}
    /\ Spec bot' = Some spec'
    /\ specRoles spec' = specRoles spec
    /\ NoDup (traitName <$> specTraits spec')
    /\ (forall t, t ∈ specTraits spec' <->
          traitValues t <> []
          /\ traitValues t = valuesOf (traitName t) (specTraits spec)).
Proof.
  intros Hmd Hspec Hrole Himp Huser.
  eexists _, _, _, _.
  split; [exact (botToUserAndRole_ok types _ _ _ now createdBy _ _ Hmd Hspec Hrole Huser)|].
  split.
  { unfold botFromUserAndRole, User_GetLabel, botUser. cbn [userMetadata Labels].
    rewrite lookup_insert_eq. reflexivity. }
  cbn [Kind Version Metadata_ Status Spec specRoles specTraits].
  split; [reflexivity|]. split; [reflexivity|].
  split; [destruct md; reflexivity|]. split; [reflexivity|]. split; [reflexivity|].
  cbn [specRoles specTraits].
  split.
  { unfold Role_GetImpersonateConditions_Allow, botRole. cbn [roleSpec].
    rewrite Himp. reflexivity. }
  change (fun kv : string * list string =>
            if Nat.eqb (List.length (snd kv)) 0 then None
            else Some {| traitName := fst kv; traitValues := snd kv |}) with traitOf.
  unfold User_GetTraits, botUser. cbn [userTraits].
  split; [apply traitOf_names, NoDup_fst_map_to_list|].
  intros t. rewrite list_elem_of_omap. split.
  - intros ([k vs] & Hin & Ht). apply elem_of_map_to_list in Hin.
    apply collectTraits_nonempty in Hin as [Hne Hvs].
    unfold traitOf in Ht. cbn [fst snd] in Ht.
    destruct (Nat.eqb (List.length vs) 0); [discriminate|].
    injection Ht as <-. simpl. auto.
  - destruct t as [name vals]. cbn [traitName traitValues].
    intros [Hne Hvs]. exists (name, vals). split.
    + apply elem_of_map_to_list. rewrite collectTraits_lookup_eq, <- Hvs.
      destruct vals; [contradiction | reflexivity].
    + unfold traitOf. cbn [fst snd].
      destruct vals as [|v vs]; [contradiction | reflexivity].
Qed.

(** What [validateBot] accepts. *)
Lemma validateBot_None (bot : option Bot) :
  validateBot bot = None <->
  exists b md spec,
    bot = Some b /\ Metadata_ b = Some md /\ metaName md <> "" /\ Spec b = Some spec.
Proof.
  unfold validateBot. split.
  - destruct bot as [b|]; [|discriminate].
    destruct (Metadata_ b) as [md|] eqn:Hmd; [|discriminate].
    destruct (String.eqb_spec (metaName md) ""); [discriminate|].
    destruct (Spec b) as [spec|] eqn:Hspec; [|discriminate].
    intros _. exists b, md, spec. auto.
  - intros (b & md & spec & -> & -> & Hname & ->).
    destruct (String.eqb_spec (metaName md) ""); [contradiction | reflexivity].
Qed.

Lemma validateBot_BadParameter (bot : option Bot) (err : error) :
  validateBot bot = Some err -> IsBadParameter err = true.
Proof.
  unfold validateBot.
  destruct bot as [b|]; [|intros H; injection H as <-; reflexivity].
  destruct (Metadata_ b) as [md|]; [|intros H; injection H as <-; reflexivity].
  destruct (String.eqb (metaName md) ""); [intros H; injection H as <-; reflexivity|].
  destruct (Spec b); [discriminate | intros H; injection H as <-; reflexivity].
Qed.

(** X13: [UpsertBot] validates before anything else.  A bot that is
    nil, or has no metadata, an empty name or no spec, gives the error of
    [validateBot], a BadParameter, and no call to the backend is made; so
    a nil metadata or a nil spec, which [botToUserAndRole] would
    dereference, does not reach it.  A bot that is valid, and whose role
    and user can be constructed, does reach the backend: the first call
    is [GetUser] for its resource name. *)
Theorem UpsertBot_validates {S : Type} (backend : Backend S) (bot : option Bot)
    (now : Z) (createdBy : string) (w : BackendWorld S) :
  ((~ exists b md spec,
        bot = Some b /\ Metadata_ b = Some md /\ metaName md <> "" /\ Spec b = Some spec) ->
   exists err,
     validateBot bot = Some err
     /\ UpsertBot types backend bot now createdBy w
          = (Returns (Err (Wrap err "validating bot")), w)
     /\ IsBadParameter err = true)
  /\ (forall b,
        bot = Some b ->
        Metadata_ b = None \/ Spec b = None ->
        botToUserAndRole types b now createdBy = Panics
        /\ exists err,
            UpsertBot types backend bot now createdBy w = (Returns (Err err), w))
  /\ (forall b md spec role0 user0,
        bot = Some b ->
        Metadata_ b = Some md ->
        metaName md <> "" ->
        Spec b = Some spec ->
        NewRole types (BotResourceName (metaName md)) (botRoleSpec types (specRoles spec))
          = Ok role0 ->
        NewUser types (BotResourceName (metaName md)) = Ok user0 ->
        exists rest,
          calls (snd (UpsertBot types backend bot now createdBy w))
            = calls w ++ CallGetUser (BotResourceName (metaName md)) false :: rest).
Proof.
  assert (Hinvalid :
    (~ exists b md spec,
        bot = Some b /\ Metadata_ b = Some md /\ metaName md <> "" /\ Spec b = Some spec) ->
    exists err,
      validateBot bot = Some err
      /\ UpsertBot types backend bot now createdBy w
           = (Returns (Err (Wrap err "validating bot")), w)
      /\ IsBadParameter err = true).
  { intros Hinvalid. unfold UpsertBot.
    destruct (validateBot bot) as [err|] eqn:Hval.
    - exists err. split; [reflexivity|]. split; [reflexivity|].
      exact (validateBot_BadParameter _ _ Hval).
    - apply validateBot_None in Hval. contradiction. }
  split; [exact Hinvalid|]. split.
  - intros b -> Hnil. split.
    + unfold botToUserAndRole. destruct Hnil as [-> | ->]; [reflexivity|].
      destruct (Metadata_ b); reflexivity.
    + destruct Hinvalid as (err & _ & Hrun & _); [|eauto].
      intros (b' & md & spec & Hb & Hmd & _ & Hspec). injection Hb as <-.
      destruct Hnil; congruence.
  - intros b md spec role0 user0 -> Hmd Hname Hspec Hrole Huser.
    unfold UpsertBot.
    rewrite (validateBot_ok _ _ _ Hmd Hname Hspec).
    rewrite (botToUserAndRole_ok types _ _ _ now createdBy _ _ Hmd Hspec Hrole Huser), Hmd.
    unfold invoke, bind, ret.
    destruct (GetUser backend _ false (store w)) as [[existing|e] s1].
    + destruct (User_GetLabel existing (BotGenerationLabel types)); simpl;
        [|exists []; reflexivity].
      destruct (UpsertUser backend _ s1) as [[user'|e] s2]; simpl;
        [|eexists [_]; rewrite <- !app_assoc; reflexivity].
      destruct (UpsertRole backend _ s2) as [[role'|e] s3]; simpl;
        [|eexists [_; _]; rewrite <- !app_assoc; reflexivity].
      destruct (botFromUserAndRole types user' role'); simpl;
        eexists [_; _]; rewrite <- !app_assoc; reflexivity.
    + simpl.
      destruct (UpsertUser backend _ s1) as [[user'|e'] s2]; simpl;
        [|eexists [_]; rewrite <- !app_assoc; reflexivity].
      destruct (UpsertRole backend _ s2) as [[role'|e'] s3]; simpl;
        [|eexists [_; _]; rewrite <- !app_assoc; reflexivity].
      destruct (botFromUserAndRole types user' role'); simpl;
        eexists [_; _]; rewrite <- !app_assoc; reflexivity.
Qed.

(** X14: the calls that [UpsertBot] makes to the backend are, in this
    order, [GetUser] for the resource name, [UpsertUser] and
    [UpsertRole], or a beginning of these: the role is not written
    unless the user was, nothing is written before the lookup, and a bot
    is returned only after all three. *)
Theorem UpsertBot_calls {S : Type} (backend : Backend S) (bot : option Bot)
    (now : Z) (createdBy : string) (w : BackendWorld S) :
  exists res w' added,
    UpsertBot types backend bot now createdBy w = (res, w')
    /\ calls w' = calls w ++ added
    /\ (added = []
        \/ exists name,
            added = [CallGetUser name false]
            \/ exists user,
                added = [CallGetUser name false; CallUpsertUser user]
                \/ exists role,
                    added = [CallGetUser name false; CallUpsertUser user;
                             CallUpsertRole role])
    /\ (forall b, res = Returns (Ok b) -> List.length added = 3).
Proof.
  unfold UpsertBot.
  destruct (validateBot bot) as [err|] eqn:Hval.
  { eexists _, _, []. split; [reflexivity|]. rewrite app_nil_r.
    split; [reflexivity|]. split; [auto | discriminate]. }
  apply validateBot_None in Hval as (b & md & spec & -> & Hmd & Hname & Hspec).
  unfold botToUserAndRole. rewrite Hmd, Hspec.
  destruct (NewRole types _ _) as [role|e].
  2:{ eexists _, _, []. split; [reflexivity|]. rewrite app_nil_r.
      split; [reflexivity|]. split; [auto | discriminate]. }
  destruct (NewUser types _) as [user|e].
  2:{ eexists _, _, []. split; [reflexivity|]. rewrite app_nil_r.
      split; [reflexivity|]. split; [auto | discriminate]. }
  unfold invoke, bind, ret.
  destruct (GetUser backend _ false (store w)) as [[existing|e] s1].
  - destruct (User_GetLabel existing (BotGenerationLabel types)); simpl.
    2:{ eexists _, _, [_]. split; [reflexivity|]. split; [reflexivity|].
        split; [eauto | discriminate]. }
    destruct (UpsertUser backend _ s1) as [[user'|e] s2]; simpl.
    2:{ eexists _, _, [_; _]. split; [reflexivity|].
        split; [rewrite <- !app_assoc; reflexivity|].
        split; [eauto 6 | discriminate]. }
    destruct (UpsertRole backend _ s2) as [[role'|e] s3]; simpl.
    2:{ eexists _, _, [_; _; _]. split; [reflexivity|].
        split; [rewrite <- !app_assoc; reflexivity|].
        split; [eauto 8 | discriminate]. }
    destruct (botFromUserAndRole types user' role');
      (eexists _, _, [_; _; _]; split; [reflexivity|];
       split; [rewrite <- !app_assoc; reflexivity|];
       split; [eauto 8 | reflexivity || discriminate]).
  - simpl.
    destruct (UpsertUser backend _ s1) as [[user'|e'] s2]; simpl.
    2:{ eexists _, _, [_; _]. split; [reflexivity|].
        split; [rewrite <- !app_assoc; reflexivity|].
        split; [eauto 6 | discriminate]. }
    destruct (UpsertRole backend _ s2) as [[role'|e'] s3]; simpl.
    2:{ eexists _, _, [_; _; _]. split; [reflexivity|].
        split; [rewrite <- !app_assoc; reflexivity|].
        split; [eauto 8 | discriminate]. }
    destruct (botFromUserAndRole types user' role');
      (eexists _, _, [_; _; _]; split; [reflexivity|];
       split; [rewrite <- !app_assoc; reflexivity|];
       split; [eauto 8 | reflexivity || discriminate]).
Qed.

(** X15: when [GetUser] fails, with whatever error, [UpsertBot] does
    not report it: it goes on to write the user as [botToUserAndRole]
    built it, with generation label ["0"]. *)
Theorem upsert_without_existing {S : Type} (backend : Backend S)
    (bot : Bot) (md : HeaderMetadata) (spec : BotSpec) (now : Z) (createdBy : string)
    (role0 : Role) (user0 : User) (w : BackendWorld S) (err : error) (s1 : S) :
  Metadata_ bot = Some md ->
  metaName md <> "" ->
  Spec bot = Some spec ->
  NewRole types (BotResourceName (metaName md)) (botRoleSpec types (specRoles spec)) = Ok role0 ->
  NewUser types (BotResourceName (metaName md)) = Ok user0 ->
  BotLabel types <> BotGenerationLabel types ->
  GetUser backend (BotResourceName (metaName md)) false (store w) = (Err err, s1) ->
  let user := botUser types (metaName md) (specTraits spec) now createdBy user0 in
  User_GetLabel user (BotGenerationLabel types) = Some "0"
  /\ exists rest,
      calls (snd (UpsertBot types backend (Some bot) now createdBy w)) =
        calls w ++ CallGetUser (BotResourceName (metaName md)) false
                :: CallUpsertUser user :: rest
      /\ (forall e, In (CallUpsertUser e) rest -> False).
Proof.
  intros Hmd Hname Hspec Hrole Huser Hlabels Hget user. split.
  { unfold User_GetLabel, user, botUser. simpl.
    rewrite lookup_insert_ne by exact Hlabels. apply lookup_insert_eq. }
  unfold UpsertBot.
  rewrite (validateBot_ok _ _ _ Hmd Hname Hspec).
  rewrite (botToUserAndRole_ok types _ _ _ now createdBy _ _ Hmd Hspec Hrole Huser), Hmd.
  unfold invoke, bind, ret. rewrite Hget. simpl.
  destruct (UpsertUser backend _ s1) as [[user'|e] s2]; simpl.
  - destruct (UpsertRole backend _ s2) as [[role'|e] s3]; simpl.
    + eexists [_]. split.
      * destruct (botFromUserAndRole types user' role'); simpl;
          rewrite <- !app_assoc; reflexivity.
      * intros e [H|[]]. discriminate.
    + eexists [_]. split; [rewrite <- !app_assoc; reflexivity|].
      intros e' [H|[]]. discriminate.
  - exists []. split; [rewrite <- !app_assoc; reflexivity|]. intros e' [].
Qed.

End ServiceExtra.

(** *** On the sample instance *)

Lemma bot_round_trip_witness :
  exists user role bot',
    botToUserAndRole sampleTypes sampleBot 0 "admin" = Returns (Ok (user, role))
    /\ botFromUserAndRole sampleTypes user role = Ok bot'
    /\ Metadata_ bot' = Some sampleMeta.
Proof.
  destruct (bot_round_trip sampleTypes sampleBot sampleMeta sampleSpec 0 "admin"
              sampleRole0 sampleUser0)
    as (user & role & bot' & spec' & Hto & Hfrom & _ & _ & Hmeta & _);
    try reflexivity.
  exists user, role, bot'. auto.
Defined.

Lemma UpsertBot_validates_witness :
  (exists err,
     UpsertBot sampleTypes memoryBackend None 0 "admin" sampleBackendWorld
       = (Returns (Err (Wrap err "validating bot")), sampleBackendWorld)
     /\ IsBadParameter err = true)
  /\ exists rest,
      calls (snd (UpsertBot sampleTypes memoryBackend (Some sampleBot) 0 "admin"
                    sampleBackendWorld))
        = calls sampleBackendWorld ++ CallGetUser "bot-build-bot" false :: rest.
Proof.
  split.
  - destruct (UpsertBot_validates sampleTypes memoryBackend None 0 "admin" sampleBackendWorld)
      as [Hinvalid _].
    destruct Hinvalid as (err & _ & Hrun & Hbad).
    + intros (b & md & spec & Hbot & _). discriminate.
    + exists err. split; [exact Hrun | exact Hbad].
  - destruct (UpsertBot_validates sampleTypes memoryBackend (Some sampleBot) 0 "admin"
                sampleBackendWorld)
      as (_ & _ & Hvalid).
    apply (Hvalid sampleBot sampleMeta sampleSpec sampleRole0 sampleUser0);
      try reflexivity.
    discriminate.
Defined.

Lemma collectTraits_lookup_witness :
  collectTraits [ {| traitName := "logins"; traitValues := [] |} ] !! "logins" = None.
Proof.
  apply (collectTraits_lookup [ {| traitName := "logins"; traitValues := [] |} ] "logins").
  constructor; [reflexivity | constructor].
Defined.

Lemma BotResourceName_collisions_witness :
  BotResourceName "build bot" = BotResourceName "build-bot".
Proof.
  destruct BotResourceName_collisions as [Hiff _].
  apply Hiff. reflexivity.
Defined.

Lemma UpsertBot_calls_witness :
  exists res w' added,
    UpsertBot sampleTypes memoryBackend (Some sampleBot) 0 "admin" sampleBackendWorld
      = (res, w')
    /\ calls w' = calls sampleBackendWorld ++ added
    /\ (forall b, res = Returns (Ok b) -> List.length added = 3).
Proof.
  destruct (UpsertBot_calls sampleTypes memoryBackend (Some sampleBot) 0 "admin"
              sampleBackendWorld)
    as (res & w' & added & Hrun & Hcalls & _ & Hall).
  exists res, w', added. auto.
Defined.

Definition emptyBackendWorld : BackendWorld (gmap string User * gmap string Role) :=
  {| store := (∅, ∅); calls := [] |}.

Lemma upsert_without_existing_witness :
  User_GetLabel (botUser sampleTypes "build bot" (specTraits sampleSpec) 0 "admin" sampleUser0)
    (BotGenerationLabel sampleTypes) = Some "0".
Proof.
  apply (upsert_without_existing sampleTypes memoryBackend sampleBot sampleMeta sampleSpec
           0 "admin" sampleRole0 sampleUser0 emptyBackendWorld
           (NotFound "bot-build-bot") (∅, ∅));
    try reflexivity; discriminate.
Defined.

End MachineIDExtra.

(** * The bot service (teleport.machineid.v1.BotService) *)

Module BotService.
Import Go Trace StateM MachineID.
Local Open Scope go_scope.
Local Open Scope list_scope.

(** ** Collaborators *)

(** An [*authz.Context], as far as the service reads it:
    [authCtx.User.GetName()]. *)
Record AuthContext : Type := { authUser : string }.

(** Package [authz] for the request at hand: what
    [AuthorizeWithVerbs(ctx, ..., kind, verbs...)] and the two admin
    action checks answer, and [ClientUsername(ctx)]. *)
Record Authz : Type := {
  AuthorizeWithVerbs : string -> list string -> result AuthContext;
  AuthorizeAdminAction : AuthContext -> option error;
  AuthorizeAdminActionAllowReusedMFA : AuthContext -> option error;
  ClientUsername : string
}.

(** Kinds and verbs of package [types] that the claims above did not
    need. *)
Record RBAC : Type := {
  KindUser : string;
  KindRole : string;
  KindToken : string;
  VerbCreate : string;
  VerbRead : string;
  VerbList : string;
  VerbUpdate : string;
  VerbDelete : string
}.

(** [usagereporter.BotCreateEvent] *)
Record BotCreateEvent : Type := {
  evUserName : string;
  evBotUserName : string;
  evRoleName : string;
  evBotName : string;
  evRoleCount : Z
}.

(** The audit events [apievents.BotCreate], [BotUpdate] and
    [BotDelete], with the name in their resource metadata. *)
Inductive AuditEvent : Type :=
| BotCreate (name : string)
| BotUpdate (name : string)
| BotDelete (name : string).

(** The cache and the backend, over the state [S] of the cluster. *)
Record Cache (S : Type) : Type := {
  cache_GetUser : string -> bool -> S -> result User * S;
  cache_ListUsers : Z -> string -> bool -> S -> result (list User * string) * S;
  cache_GetRole : string -> S -> result Role * S
}.
Arguments cache_GetUser {S} _ _ _ _.
Arguments cache_ListUsers {S} _ _ _ _ _.
Arguments cache_GetRole {S} _ _ _.

Record FullBackend (S : Type) : Type := {
  upserts : Backend S;        (* GetUser, UpsertUser, UpsertRole *)
  CreateUser : User -> S -> result User * S;
  CreateRole : Role -> S -> result Role * S;
  UpdateUser : User -> S -> result User * S;
  UpdateRole : Role -> S -> result Role * S;
  DeleteRole : string -> S -> option error * S;
  DeleteUser : string -> S -> option error * S;
  GetRole : string -> S -> result Role * S
}.
Arguments upserts {S} _.
Arguments CreateUser {S} _ _ _.
Arguments CreateRole {S} _ _ _.
Arguments UpdateUser {S} _ _ _.
Arguments UpdateRole {S} _ _ _.
Arguments DeleteRole {S} _ _ _.
Arguments DeleteUser {S} _ _ _.
Arguments GetRole {S} _ _ _.

(** Everything the service does to the outside, in order. *)
Inductive Op : Type :=
| OpCacheGetUser (name : string) (withSecrets : bool)
| OpCacheListUsers (pageSize : Z) (pageToken : string) (withSecrets : bool)
| OpCacheGetRole (name : string)
| OpGetUser (name : string) (withSecrets : bool)
| OpGetRole (name : string)
| OpCreateUser (user : User)
| OpCreateRole (role : Role)
| OpUpdateUser (user : User)
| OpUpdateRole (role : Role)
| OpUpsertUser (user : User)
| OpUpsertRole (role : Role)
| OpDeleteUser (name : string)
| OpDeleteRole (name : string)
| OpReport (ev : BotCreateEvent)
| OpAudit (ev : AuditEvent)
| OpWarn (msg : string) (err : option error).

Record World (S : Type) : Type := {
  cluster : S;
  ops : list Op
}.
Arguments cluster {S} _.
Arguments ops {S} _.

Definition isBackendOp (op : Op) : bool :=
  match op with
  | OpGetUser _ _ | OpGetRole _ | OpCreateUser _ | OpCreateRole _
  | OpUpdateUser _ | OpUpdateRole _ | OpUpsertUser _ | OpUpsertRole _
  | OpDeleteUser _ | OpDeleteRole _ => true
  | _ => false
  end.

Definition isWriteOp (op : Op) : bool :=
  match op with
  | OpCreateUser _ | OpCreateRole _ | OpUpdateUser _ | OpUpdateRole _
  | OpUpsertUser _ | OpUpsertRole _ | OpDeleteUser _ | OpDeleteRole _ => true
  | _ => false
  end.

Definition isCacheOp (op : Op) : bool :=
  match op with
  | OpCacheGetUser _ _ | OpCacheListUsers _ _ _ | OpCacheGetRole _ => true
  | _ => false
  end.

Definition record {S} (op : Op) : M (World S) unit :=
  modify (fun w => {| cluster := cluster w; ops := ops w ++ [op] |}).

(** A call to the cache or the backend: recorded, then run on the
    cluster. *)
Definition perform {S A} (op : Op) (f : S -> A * S) : M (World S) A :=
  fun w =>
    let '(a, s') := f (cluster w) in
    (a, {| cluster := s'; ops := ops w ++ [op] |}).

(** The calls of the function [UpsertBot], as operations. *)
Definition opOfCall (c : Call) : Op :=
  match c with
  | CallGetUser name withSecrets => OpGetUser name withSecrets
  | CallUpsertUser user => OpUpsertUser user
  | CallUpsertRole role => OpUpsertRole role
  end.

(** [bs.logger], [bs.reporter] and [bs.emitter]. *)
Definition Warn {S} (msg : string) (err : option error) : M (World S) unit :=
  record (OpWarn msg err).

Definition AnonymizeAndSubmit {S} (ev : BotCreateEvent) : M (World S) unit :=
  record (OpReport ev).

(** [pb.GetBotRequest], [pb.ListBotsRequest] and so on.  A request's
    [Bot] and [UpdateMask] are pointers. *)
Record GetBotRequest : Type := { getBotName : string }.
Record ListBotsRequest : Type := { PageSize : Z; PageToken : string }.
Record ListBotsResponse : Type := { Bots : list Bot; NextPageToken : string }.
Record CreateBotRequest : Type := { createBot : option Bot }.
Record UpsertBotRequest : Type := { upsertBot : option Bot }.
Record FieldMask : Type := { Paths : list string }.
Record UpdateBotRequest : Type := { updateBot : option Bot; UpdateMask : option FieldMask }.
Record DeleteBotRequest : Type := { deleteBotName : string }.

(** An error value of [DeleteBot]: a trace error, or the aggregate that
    [trace.NewAggregate] makes of the errors that are not nil. *)
Inductive goError : Type :=
| TraceError (e : error)
| AggregateError (errs : list error).

Definition NewAggregate (errs : list (option error)) : option goError :=
  match omap id errs with
  | [] => None
  | es => Some (AggregateError es)
  end.

(** [trace.Wrap(err, msg)] of an error that may be nil. *)
Definition WrapNil (err : option error) (msg : string) : option error :=
  match err with
  | Some e => Some (Wrap e msg)
  | None => None
  end.

(** [role.SetImpersonateConditions(types.Allow, cond)] *)
Definition Role_SetImpersonateConditions_Allow (r : Role) (cond : ImpersonateConditions)
  : Role :=
  {| roleMetadata := roleMetadata r;
     roleSpec := {| Options := Options (roleSpec r);
                    Allow := {| Rules := Rules (Allow (roleSpec r));
                                Impersonate := Some cond |} |} |}.

(** [Labels[key]] of a Go map: the empty string for a missing key. *)
Definition labelOrEmpty (m : Metadata) (key : string) : string :=
  default "" (Labels m !! key).

(** ** The service *)

Record Service (S : Type) : Type := {
  cache : Cache S;
  backend : FullBackend S;
  authorizer : Authz;
  EmitAuditEvent : AuditEvent -> option error;   (* bs.emitter, for the request at hand *)
  clockNow : Z                                   (* bs.clock.Now() *)
}.
Arguments cache {S} _.
Arguments backend {S} _.
Arguments authorizer {S} _.
Arguments EmitAuditEvent {S} _ _.
Arguments clockNow {S} _.

Section Methods.

Variable types : TypesPkg.
Variable rbac : RBAC.
(** [%q] of [fmt]: [strconv.Quote]. *)
Variable Quote : string -> string.
Context {S : Type}.
Variable bs : Service S.

Definition Svc (A : Type) : Type := M (World S) A.

(** [bs.emitter.EmitAuditEvent(ctx, ev)], with the warning that every
    caller logs when it fails. *)
Definition emitOrWarn (ev : AuditEvent) (msg : string) : Svc unit :=
  record (OpAudit ev) ;;;
  match EmitAuditEvent bs ev with
  | Some err => Warn msg (Some err)
  | None => ret tt
  end.

Definition GetBot (req : GetBotRequest) : Svc (result Bot) :=
  match AuthorizeWithVerbs (authorizer bs) (KindBot types) [VerbRead rbac] with
  | Err err => ret (Err (Wrap err ""))
  | Ok _ =>
      if String.eqb (getBotName req) "" then
        ret (Err (BadParameter "bot_name: must be non-empty"))
      else
        let name := BotResourceName (getBotName req) in
        user <- perform (OpCacheGetUser name false) (cache_GetUser (cache bs) name false) ;;
        match user with
        | Err err => ret (Err (Wrap err "fetching bot user"))
        | Ok user =>
            role <- perform (OpCacheGetRole name) (cache_GetRole (cache bs) name) ;;
            match role with
            | Err err => ret (Err (Wrap err "fetching bot role"))
            | Ok role =>
                match botFromUserAndRole types user role with
                | Err err => ret (Err (Wrap err "converting from resources"))
                | Ok bot => ret (Ok bot)
                end
            end
        end
  end.

(** The loop of [ListBots] over the users of the page. *)
Fixpoint listBotsLoop (users : list User) (bots : list Bot) : Svc (list Bot) :=
  match users with
  | [] => ret bots
  | u :: rest =>
      match User_GetLabel u (BotLabel types) with
      | None => listBotsLoop rest bots
      | Some botName =>
          let name := BotResourceName botName in
          role <- perform (OpCacheGetRole name) (cache_GetRole (cache bs) name) ;;
          match role with
          | Err err =>
              Warn "Failed to fetch role for bot during ListBots. Bot will be omitted from results."
                (Some err) ;;;
              listBotsLoop rest bots
          | Ok role =>
              match botFromUserAndRole types u role with
              | Err err =>
                  Warn "Failed to convert bot during ListBots. Bot will be omitted from results."
                    (Some err) ;;;
                  listBotsLoop rest bots
              | Ok bot => listBotsLoop rest (bots ++ [bot])
              end
          end
      end
  end.

Definition ListBots (req : ListBotsRequest) : Svc (result ListBotsResponse) :=
  match AuthorizeWithVerbs (authorizer bs) (KindBot types) [VerbList rbac] with
  | Err err => ret (Err (Wrap err ""))
  | Ok _ =>
      page <- perform (OpCacheListUsers (PageSize req) (PageToken req) false)
                (cache_ListUsers (cache bs) (PageSize req) (PageToken req) false) ;;
      match page with
      | Err err => ret (Err (Wrap err "listing users"))
      | Ok (users, token) =>
          bots <- listBotsLoop users [] ;;
          ret (Ok {| Bots := bots; NextPageToken := token |})
      end
  end.

Definition createBotAuthz : Svc (result AuthContext) :=
  let finish (authCtx : AuthContext) : Svc (result AuthContext) :=
    (* Support reused MFA for bulk tctl create requests. *)
    match AuthorizeAdminActionAllowReusedMFA (authorizer bs) authCtx with
    | Some err => ret (Err (Wrap err ""))
    | None => ret (Ok authCtx)
    end in
  match AuthorizeWithVerbs (authorizer bs) (KindBot types) [VerbCreate rbac] with
  | Ok authCtx => finish authCtx
  | Err originalErr =>
      match AuthorizeWithVerbs (authorizer bs) (KindUser rbac) [VerbCreate rbac] with
      | Err _ => ret (Err originalErr)
      | Ok _ =>
          match AuthorizeWithVerbs (authorizer bs) (KindRole rbac) [VerbCreate rbac] with
          | Err _ => ret (Err originalErr)
          | Ok _ =>
              match AuthorizeWithVerbs (authorizer bs) (KindToken rbac) [VerbCreate rbac] with
              | Err _ => ret (Err originalErr)
              | Ok authCtx =>
                  Warn "CreateBot authz fell back to legacy resource/verbs. Explicitly grant access to the Bot resource. From V16.0.0, this will fail!"
                    None ;;;
                  finish authCtx
              end
          end
      end
  end.

(** The end of [CreateBot] and of the method [UpsertBot]: the usage
    event, the audit event, and the bot. *)
Definition announceCreated (bot : Bot) : Svc (outcome (result Bot)) :=
  match Metadata_ bot, Spec bot with
  | Some md, Some spec =>
      AnonymizeAndSubmit
        {| evUserName := ClientUsername (authorizer bs);
           evBotUserName := BotResourceName (metaName md);
           evRoleName := BotResourceName (metaName md);
           evBotName := metaName md;
           evRoleCount := Z.of_nat (List.length (specRoles spec)) |} ;;;
      emitOrWarn (BotCreate (metaName md)) "Failed to emit BotCreate audit event." ;;;
      ret (Returns (Ok bot))
  | _, _ => ret Panics
  end.

Definition CreateBot (req : CreateBotRequest) : Svc (outcome (result Bot)) :=
  authCtx <- createBotAuthz ;;
  match authCtx with
  | Err err => ret (Returns (Err (Wrap err "")))
  | Ok authCtx =>
      match validateBot (createBot req) with
      | Some err => ret (Returns (Err (Wrap err "validating bot")))
      | None =>
          match createBot req with
          | None => ret Panics
          | Some b =>
              match botToUserAndRole types b (clockNow bs) (authUser authCtx) with
              | Panics => ret Panics
              | Returns (Err err) => ret (Returns (Err (Wrap err "converting to resources")))
              | Returns (Ok (user, role)) =>
                  user <- perform (OpCreateUser user) (CreateUser (backend bs) user) ;;
                  match user with
                  | Err err => ret (Returns (Err (Wrap err "creating bot user")))
                  | Ok user =>
                      role <- perform (OpCreateRole role) (CreateRole (backend bs) role) ;;
                      match role with
                      | Err err => ret (Returns (Err (Wrap err "creating bot role")))
                      | Ok role =>
                          match botFromUserAndRole types user role with
                          | Err err =>
                              ret (Returns (Err (Wrap err "converting from resources")))
                          | Ok bot => announceCreated bot
                          end
                      end
                  end
              end
          end
      end
  end.

(** The function [UpsertBot] run against the backend of the service:
    its calls become operations of the service. *)
Definition runUpsertBot (bot : option Bot) (now : Z) (createdBy : string)
  : Svc (outcome (result Bot)) :=
  fun w =>
    let '(res, bw) :=
      MachineID.UpsertBot types (upserts (backend bs)) bot now createdBy
        {| store := cluster w; calls := [] |} in
    (res, {| cluster := store bw; ops := ops w ++ map opOfCall (calls bw) |}).

Definition UpsertBot (req : UpsertBotRequest) : Svc (outcome (result Bot)) :=
  match AuthorizeWithVerbs (authorizer bs) (KindBot types)
          [VerbCreate rbac; VerbUpdate rbac] with
  | Err err => ret (Returns (Err (Wrap err "")))
  | Ok authCtx =>
      (* Support reused MFA for bulk tctl create requests. *)
      match AuthorizeAdminActionAllowReusedMFA (authorizer bs) authCtx with
      | Some err => ret (Returns (Err (Wrap err "")))
      | None =>
          bot <- runUpsertBot (upsertBot req) (clockNow bs) (authUser authCtx) ;;
          match bot with
          | Panics => ret Panics
          | Returns (Err err) => ret (Returns (Err (Wrap err "")))
          | Returns (Ok bot) => announceCreated bot
          end
      end
  end.

(** The loop of [UpdateBot] over the paths of the update mask. *)
Fixpoint applyPaths (spec : BotSpec) (paths : list string) (user : User) (role : Role)
  : result (User * Role) :=
  match paths with
  | [] => Ok (user, role)
  | path :: rest =>
      if String.eqb path "spec.roles" then
        applyPaths spec rest user
          (Role_SetImpersonateConditions_Allow role {| Roles := specRoles spec |})
      else if String.eqb path "spec.traits" then
        applyPaths spec rest (User_SetTraits user (collectTraits (specTraits spec))) role
      else
        Err (BadParameter ("update_mask: unsupported path " +:+ Quote path))
  end.

(** The [switch] that checks the request of [UpdateBot]. *)
Definition checkUpdate (req : UpdateBotRequest)
  : result (HeaderMetadata * BotSpec * FieldMask) :=
  match updateBot req with
  | None => Err (BadParameter "bot: must be non-nil")
  | Some b =>
      match Metadata_ b with
      | None => Err (BadParameter "bot.metadata: must be non-nil")
      | Some md =>
          if String.eqb (metaName md) "" then
            Err (BadParameter "bot.metadata.name: must be non-empty")
          else
            match Spec b with
            | None => Err (BadParameter "bot.spec: must be non-nil")
            | Some spec =>
                match UpdateMask req with
                | None => Err (BadParameter "update_mask: must be non-nil")
                | Some mask =>
                    if Nat.eqb (List.length (Paths mask)) 0 then
                      Err (BadParameter "update_mask.paths: must be non-empty")
                    else Ok (md, spec, mask)
                end
            end
      end
  end.

Definition UpdateBot (req : UpdateBotRequest) : Svc (result Bot) :=
  match AuthorizeWithVerbs (authorizer bs) (KindBot types) [VerbUpdate rbac] with
  | Err err => ret (Err (Wrap err ""))
  | Ok authCtx =>
      match AuthorizeAdminAction (authorizer bs) authCtx with
      | Some err => ret (Err (Wrap err ""))
      | None =>
          match checkUpdate req with
          | Err err => ret (Err err)
          | Ok (md, spec, mask) =>
              let name := BotResourceName (metaName md) in
              user <- perform (OpGetUser name false)
                        (GetUser (upserts (backend bs)) name false) ;;
              match user with
              | Err err => ret (Err (Wrap err "getting bot user"))
              | Ok user =>
                  role <- perform (OpGetRole name) (GetRole (backend bs) name) ;;
                  match role with
                  | Err err => ret (Err (Wrap err "getting bot role"))
                  | Ok role =>
                      match applyPaths spec (Paths mask) user role with
                      | Err err => ret (Err err)
                      | Ok (user, role) =>
                          user <- perform (OpUpdateUser user) (UpdateUser (backend bs) user) ;;
                          match user with
                          | Err err => ret (Err (Wrap err "updating bot user"))
                          | Ok user =>
                              role <- perform (OpUpdateRole role)
                                        (UpdateRole (backend bs) role) ;;
                              match role with
                              | Err err => ret (Err (Wrap err "updating bot role"))
                              | Ok role =>
                                  emitOrWarn (BotUpdate (metaName md))
                                    "Failed to emit BotUpdate audit event." ;;;
                                  match botFromUserAndRole types user role with
                                  | Err err =>
                                      ret (Err (Wrap err "converting from resources"))
                                  | Ok bot => ret (Ok bot)
                                  end
                              end
                          end
                      end
                  end
              end
          end
      end
  end.

Definition deleteBotUser (botName : string) : Svc (option error) :=
  (* Check the user that's being deleted is linked to the bot. *)
  let name := BotResourceName botName in
  user <- perform (OpGetUser name false) (GetUser (upserts (backend bs)) name false) ;;
  match user with
  | Err err => ret (Some (Wrap err "fetching bot user"))
  | Ok user =>
      if negb (String.eqb (labelOrEmpty (User_GetMetadata user) (BotLabel types)) botName) then
        ret (Some (BadParameter
          "user missing bot label matching bot name; consider manually deleting user"))
      else
        perform (OpDeleteUser (User_GetName user))
          (DeleteUser (backend bs) (User_GetName user))
  end.

Definition deleteBotRole (botName : string) : Svc (option error) :=
  (* Check the role that's being deleted is linked to the bot. *)
  let name := BotResourceName botName in
  role <- perform (OpGetRole name) (GetRole (backend bs) name) ;;
  match role with
  | Err err => ret (Some (Wrap err "fetching bot role"))
  | Ok role =>
      if negb (String.eqb (labelOrEmpty (Role_GetMetadata role) (BotLabel types)) botName) then
        ret (Some (BadParameter
          "role missing bot label matching bot name; consider manually deleting role"))
      else
        perform (OpDeleteRole (Role_GetName role))
          (DeleteRole (backend bs) (Role_GetName role))
  end.

Definition deleteBotAuthz : Svc (option error) :=
  let finish (authCtx : AuthContext) : Svc (option error) :=
    match AuthorizeAdminAction (authorizer bs) authCtx with
    | Some err => ret (Some (Wrap err ""))
    | None => ret None
    end in
  match AuthorizeWithVerbs (authorizer bs) (KindBot types) [VerbDelete rbac] with
  | Ok authCtx => finish authCtx
  | Err originalErr =>
      match AuthorizeWithVerbs (authorizer bs) (KindUser rbac) [VerbDelete rbac] with
      | Err _ => ret (Some originalErr)
      | Ok authCtx =>
          match AuthorizeWithVerbs (authorizer bs) (KindRole rbac) [VerbDelete rbac] with
          | Err _ => ret (Some originalErr)
          | Ok _ =>
              match AuthorizeWithVerbs (authorizer bs) (KindToken rbac) [VerbDelete rbac] with
              | Err _ => ret (Some originalErr)
              | Ok _ =>
                  Warn "DeleteBot authz fell back to legacy resource/verbs. Explicitly grant access to the Bot resource. From V16.0.0, this will fail!"
                    None ;;;
                  finish authCtx
              end
          end
      end
  end.

Definition DeleteBot (req : DeleteBotRequest) : Svc (option goError) :=
  denied <- deleteBotAuthz ;;
  match denied with
  | Some err => ret (Some (TraceError (Wrap err "")))
  | None =>
      if String.eqb (deleteBotName req) "" then
        ret (Some (TraceError (BadParameter "bot_name: must be non-empty")))
      else
        userErr <- deleteBotUser (deleteBotName req) ;;
        roleErr <- deleteBotRole (deleteBotName req) ;;
        match NewAggregate [WrapNil userErr "deleting bot user";
                            WrapNil roleErr "deleting bot role"] with
        | Some err => ret (Some err)
        | None =>
            emitOrWarn (BotDelete (deleteBotName req))
              "Failed to emit BotDelete audit event." ;;;
            ret None
        end
  end.

End Methods.

End BotService.

(** * Properties of the bot service *)

Module BotServiceFacts.
Import Go Trace StateM MachineID GoFacts MachineIDFacts MachineIDExtra BotService.
Local Open Scope list_scope.

Ltac svc :=
  unfold emitOrWarn, announceCreated, AnonymizeAndSubmit, Warn, perform, record,
    modify, bind, gets, ret.

(** An authorizer that refuses every kind and verb. *)
Definition deniesAll (a : Authz) : Prop :=
  forall kind verbs, exists err, AuthorizeWithVerbs a kind verbs = Err err.

(** An authorizer that refuses every admin action, with or without
    reused MFA. *)
Definition deniesAdminActions (a : Authz) : Prop :=
  forall authCtx,
    (exists err, AuthorizeAdminAction a authCtx = Some err)
    /\ (exists err, AuthorizeAdminActionAllowReusedMFA a authCtx = Some err).

Section ServiceFacts.

Variable types : TypesPkg.
Variable rbac : RBAC.
Variable Quote : string -> string.
Context {S : Type}.
Variable bs : Service S.

(** X16: nothing is read or written for a caller who is not
    authorized: when the authorizer refuses, each of the six calls
    returns an error and performs no operation at all. *)
Theorem unauthorized_no_access (w : World S) :
  deniesAll (authorizer bs) ->
  (forall req, exists err, GetBot types rbac bs req w = (Err err, w))
  /\ (forall req, exists err, ListBots types rbac bs req w = (Err err, w))
  /\ (forall req, exists err, CreateBot types rbac bs req w = (Returns (Err err), w))
  /\ (forall req, exists err, UpsertBot types rbac bs req w = (Returns (Err err), w))
  /\ (forall req, exists err, UpdateBot types rbac Quote bs req w = (Err err, w))
  /\ (forall req, exists err, DeleteBot types rbac bs req w = (Some (TraceError err), w)).
Proof.
  intros Hdeny. repeat split; intros req.
  - unfold GetBot. destruct (Hdeny (KindBot types) [VerbRead rbac]) as [e ->].
    eexists; reflexivity.
  - unfold ListBots. destruct (Hdeny (KindBot types) [VerbList rbac]) as [e ->].
    eexists; reflexivity.
  - unfold CreateBot, createBotAuthz, bind.
    destruct (Hdeny (KindBot types) [VerbCreate rbac]) as [e ->].
    destruct (Hdeny (KindUser rbac) [VerbCreate rbac]) as [e' ->].
    eexists; reflexivity.
  - unfold UpsertBot.
    destruct (Hdeny (KindBot types) [VerbCreate rbac; VerbUpdate rbac]) as [e ->].
    eexists; reflexivity.
  - unfold UpdateBot. destruct (Hdeny (KindBot types) [VerbUpdate rbac]) as [e ->].
    eexists; reflexivity.
  - unfold DeleteBot, deleteBotAuthz, bind.
    destruct (Hdeny (KindBot types) [VerbDelete rbac]) as [e ->].
    destruct (Hdeny (KindUser rbac) [VerbDelete rbac]) as [e' ->].
    eexists; reflexivity.
Qed.

Definition isAccess (op : Op) : bool := isBackendOp op || isCacheOp op.

(** X17: the calls that change bots need the admin action check: when
    it refuses, [CreateBot], [UpsertBot], [UpdateBot] and [DeleteBot]
    return an error, leave the cluster as it is, and touch neither the
    cache nor the backend. *)
Theorem admin_action_required (w : World S) :
  deniesAdminActions (authorizer bs) ->
  (forall req, exists err w' extra,
      CreateBot types rbac bs req w = (Returns (Err err), w')
      /\ cluster w' = cluster w /\ ops w' = ops w ++ extra
      /\ forallb (fun op => negb (isAccess op)) extra = true)
  /\ (forall req, exists err,
      UpsertBot types rbac bs req w = (Returns (Err err), w))
  /\ (forall req, exists err,
      UpdateBot types rbac Quote bs req w = (Err err, w))
  /\ (forall req, exists err w' extra,
      DeleteBot types rbac bs req w = (Some (TraceError err), w')
      /\ cluster w' = cluster w /\ ops w' = ops w ++ extra
      /\ forallb (fun op => negb (isAccess op)) extra = true).
Proof.
  intros Hdeny. repeat split; intros req.
  - unfold CreateBot, createBotAuthz, bind.
    destruct (AuthorizeWithVerbs (authorizer bs) (KindBot types) [VerbCreate rbac])
      as [ctx|e0].
    { destruct (Hdeny ctx) as [_ [e ->]]. eexists _, _, []. simpl.
      rewrite app_nil_r. auto. }
    destruct (AuthorizeWithVerbs (authorizer bs) (KindUser rbac) [VerbCreate rbac]);
      [|eexists _, _, []; simpl; rewrite app_nil_r; auto].
    destruct (AuthorizeWithVerbs (authorizer bs) (KindRole rbac) [VerbCreate rbac]);
      [|eexists _, _, []; simpl; rewrite app_nil_r; auto].
    destruct (AuthorizeWithVerbs (authorizer bs) (KindToken rbac) [VerbCreate rbac])
      as [ctx|];
      [|eexists _, _, []; simpl; rewrite app_nil_r; auto].
    destruct (Hdeny ctx) as [_ [e He]]. svc. rewrite He.
    eexists _, _, [_]. simpl. auto.
  - unfold UpsertBot.
    destruct (AuthorizeWithVerbs (authorizer bs) (KindBot types) _) as [ctx|e0];
      [|eexists; reflexivity].
    destruct (Hdeny ctx) as [_ [e ->]]. eexists; reflexivity.
  - unfold UpdateBot.
    destruct (AuthorizeWithVerbs (authorizer bs) (KindBot types) _) as [ctx|e0];
      [|eexists; reflexivity].
    destruct (Hdeny ctx) as [[e ->] _]. eexists; reflexivity.
  - unfold DeleteBot, deleteBotAuthz, bind.
    destruct (AuthorizeWithVerbs (authorizer bs) (KindBot types) [VerbDelete rbac])
      as [ctx|e0].
    { destruct (Hdeny ctx) as [[e ->] _]. eexists _, _, []. simpl.
      rewrite app_nil_r. auto. }
    destruct (AuthorizeWithVerbs (authorizer bs) (KindUser rbac) [VerbDelete rbac])
      as [ctx|];
      [|eexists _, _, []; simpl; rewrite app_nil_r; auto].
    destruct (AuthorizeWithVerbs (authorizer bs) (KindRole rbac) [VerbDelete rbac]);
      [|eexists _, _, []; simpl; rewrite app_nil_r; auto].
    destruct (AuthorizeWithVerbs (authorizer bs) (KindToken rbac) [VerbDelete rbac]);
      [|eexists _, _, []; simpl; rewrite app_nil_r; auto].
    destruct (Hdeny ctx) as [[e He] _]. svc. rewrite He.
    eexists _, _, [_]. simpl. auto.
Qed.

(** The two authorization functions, case by case. *)
Lemma authz_fallback_table (w : World S) :
  let a := authorizer bs in
  (exists res w',
      createBotAuthz types rbac bs w = (res, w')
      /\ cluster w' = cluster w
      /\ match AuthorizeWithVerbs a (KindBot types) [VerbCreate rbac] with
         | Ok ctx =>
             w' = w
             /\ res = match AuthorizeAdminActionAllowReusedMFA a ctx with
                      | Some err => Err (Wrap err "")
                      | None => Ok ctx
                      end
         | Err originalErr =>
             match AuthorizeWithVerbs a (KindUser rbac) [VerbCreate rbac],
                   AuthorizeWithVerbs a (KindRole rbac) [VerbCreate rbac],
                   AuthorizeWithVerbs a (KindToken rbac) [VerbCreate rbac] with
             | Ok _, Ok _, Ok ctx =>
                 (exists msg, ops w' = ops w ++ [OpWarn msg None])
                 /\ res = match AuthorizeAdminActionAllowReusedMFA a ctx with
                          | Some err => Err (Wrap err "")
                          | None => Ok ctx
                          end
             | _, _, _ => w' = w /\ res = Err originalErr
             end
         end)
  /\ (exists res w',
      deleteBotAuthz types rbac bs w = (res, w')
      /\ cluster w' = cluster w
      /\ match AuthorizeWithVerbs a (KindBot types) [VerbDelete rbac] with
         | Ok ctx =>
             w' = w /\ res = WrapNil (AuthorizeAdminAction a ctx) ""
         | Err originalErr =>
             match AuthorizeWithVerbs a (KindUser rbac) [VerbDelete rbac],
                   AuthorizeWithVerbs a (KindRole rbac) [VerbDelete rbac],
                   AuthorizeWithVerbs a (KindToken rbac) [VerbDelete rbac] with
             | Ok ctx, Ok _, Ok _ =>
                 (exists msg, ops w' = ops w ++ [OpWarn msg None])
                 /\ res = WrapNil (AuthorizeAdminAction a ctx) ""
             | _, _, _ => w' = w /\ res = Some originalErr
             end
         end).
Proof.
  cbv zeta. split.
  - unfold createBotAuthz.
    destruct (AuthorizeWithVerbs (authorizer bs) (KindBot types) [VerbCreate rbac])
      as [ctx|e0].
    { destruct (AuthorizeAdminActionAllowReusedMFA (authorizer bs) ctx);
        eexists _, _; (split; [reflexivity|]); auto. }
    destruct (AuthorizeWithVerbs (authorizer bs) (KindUser rbac) [VerbCreate rbac]);
      [|eexists _, _; (split; [reflexivity|]); auto].
    destruct (AuthorizeWithVerbs (authorizer bs) (KindRole rbac) [VerbCreate rbac]);
      [|eexists _, _; (split; [reflexivity|]); auto].
    destruct (AuthorizeWithVerbs (authorizer bs) (KindToken rbac) [VerbCreate rbac])
      as [ctx|];
      [|eexists _, _; (split; [reflexivity|]); auto].
    svc. destruct (AuthorizeAdminActionAllowReusedMFA (authorizer bs) ctx);
      eexists _, _; (split; [reflexivity|]); simpl; eauto.
  - unfold deleteBotAuthz.
    destruct (AuthorizeWithVerbs (authorizer bs) (KindBot types) [VerbDelete rbac])
      as [ctx|e0].
    { destruct (AuthorizeAdminAction (authorizer bs) ctx);
        eexists _, _; (split; [reflexivity|]); auto. }
    destruct (AuthorizeWithVerbs (authorizer bs) (KindUser rbac) [VerbDelete rbac])
      as [ctx|];
      [|eexists _, _; (split; [reflexivity|]); auto].
    destruct (AuthorizeWithVerbs (authorizer bs) (KindRole rbac) [VerbDelete rbac]);
      [|eexists _, _; (split; [reflexivity|]); auto].
    destruct (AuthorizeWithVerbs (authorizer bs) (KindToken rbac) [VerbDelete rbac]);
      [|eexists _, _; (split; [reflexivity|]); auto].
    svc. destruct (AuthorizeAdminAction (authorizer bs) ctx);
      eexists _, _; (split; [reflexivity|]); simpl; eauto.
Qed.

(** X18: the legacy fallback of [createBotAuthz] and [deleteBotAuthz].
    A context that they let through has passed the admin action check,
    and is that of the bot check or, after the fallback, that of the
    token check ([createBotAuthz]) or of the user check
    ([deleteBotAuthz]).  An error is that of the bot check or of the
    admin action check, never that of a legacy check.  Neither touches
    the cluster. *)
Theorem legacy_authz_fallback (w : World S) :
  let a := authorizer bs in
  let created := createBotAuthz types rbac bs w in
  let deleted := deleteBotAuthz types rbac bs w in
  cluster (snd created) = cluster w
  /\ cluster (snd deleted) = cluster w
  /\ (forall ctx, fst created = Ok ctx ->
        AuthorizeAdminActionAllowReusedMFA a ctx = None
        /\ (AuthorizeWithVerbs a (KindBot types) [VerbCreate rbac] = Ok ctx
            \/ AuthorizeWithVerbs a (KindToken rbac) [VerbCreate rbac] = Ok ctx))
  /\ (forall err, fst created = Err err ->
        AuthorizeWithVerbs a (KindBot types) [VerbCreate rbac] = Err err
        \/ exists ctx err',
            AuthorizeAdminActionAllowReusedMFA a ctx = Some err' /\ err = Wrap err' "")
  /\ (fst deleted = None ->
        exists ctx,
          AuthorizeAdminAction a ctx = None
          /\ (AuthorizeWithVerbs a (KindBot types) [VerbDelete rbac] = Ok ctx
              \/ AuthorizeWithVerbs a (KindUser rbac) [VerbDelete rbac] = Ok ctx))
  /\ (forall err, fst deleted = Some err ->
        AuthorizeWithVerbs a (KindBot types) [VerbDelete rbac] = Err err
        \/ exists ctx err',
            AuthorizeAdminAction a ctx = Some err' /\ err = Wrap err' "").
Proof.
  cbv zeta.
  destruct (authz_fallback_table w)
    as [(cres & cw & Hc & Hccl & Hctab) (dres & dw & Hd & Hdcl & Hdtab)].
  rewrite Hc, Hd. cbn [fst snd].
  split; [exact Hccl|]. split; [exact Hdcl|].
  split; [|split; [|split]].
  - intros ctx ->.
    destruct (AuthorizeWithVerbs (authorizer bs) (KindBot types) [VerbCreate rbac])
      as [c|e0].
    + destruct Hctab as [_ Hres].
      destruct (AuthorizeAdminActionAllowReusedMFA (authorizer bs) c) eqn:Hmfa;
        [discriminate|]. injection Hres as <-. auto.
    + destruct (AuthorizeWithVerbs (authorizer bs) (KindUser rbac) [VerbCreate rbac]);
        [|destruct Hctab; discriminate].
      destruct (AuthorizeWithVerbs (authorizer bs) (KindRole rbac) [VerbCreate rbac]);
        [|destruct Hctab; discriminate].
      destruct (AuthorizeWithVerbs (authorizer bs) (KindToken rbac) [VerbCreate rbac])
        as [c|]; [|destruct Hctab; discriminate].
      destruct Hctab as [_ Hres].
      destruct (AuthorizeAdminActionAllowReusedMFA (authorizer bs) c) eqn:Hmfa;
        [discriminate|]. injection Hres as <-. auto.
  - intros err ->.
    destruct (AuthorizeWithVerbs (authorizer bs) (KindBot types) [VerbCreate rbac])
      as [c|e0].
    + destruct Hctab as [_ Hres].
      destruct (AuthorizeAdminActionAllowReusedMFA (authorizer bs) c) eqn:Hmfa;
        [|discriminate]. injection Hres as ->. eauto.
    + destruct (AuthorizeWithVerbs (authorizer bs) (KindUser rbac) [VerbCreate rbac]);
        [|destruct Hctab as [_ H]; injection H as <-; auto].
      destruct (AuthorizeWithVerbs (authorizer bs) (KindRole rbac) [VerbCreate rbac]);
        [|destruct Hctab as [_ H]; injection H as <-; auto].
      destruct (AuthorizeWithVerbs (authorizer bs) (KindToken rbac) [VerbCreate rbac])
        as [c|]; [|destruct Hctab as [_ H]; injection H as <-; auto].
      destruct Hctab as [_ Hres].
      destruct (AuthorizeAdminActionAllowReusedMFA (authorizer bs) c) eqn:Hmfa;
        [|discriminate]. injection Hres as ->. eauto.
  - intros ->.
    destruct (AuthorizeWithVerbs (authorizer bs) (KindBot types) [VerbDelete rbac])
      as [c|e0].
    + destruct Hdtab as [_ Hres]. exists c.
      destruct (AuthorizeAdminAction (authorizer bs) c); [discriminate | auto].
    + destruct (AuthorizeWithVerbs (authorizer bs) (KindUser rbac) [VerbDelete rbac])
        as [c|]; [|destruct Hdtab; discriminate].
      destruct (AuthorizeWithVerbs (authorizer bs) (KindRole rbac) [VerbDelete rbac]);
        [|destruct Hdtab; discriminate].
      destruct (AuthorizeWithVerbs (authorizer bs) (KindToken rbac) [VerbDelete rbac]);
        [|destruct Hdtab; discriminate].
      destruct Hdtab as [_ Hres]. exists c.
      destruct (AuthorizeAdminAction (authorizer bs) c); [discriminate | auto].
  - intros err ->.
    destruct (AuthorizeWithVerbs (authorizer bs) (KindBot types) [VerbDelete rbac])
      as [c|e0].
    + destruct Hdtab as [_ Hres].
      destruct (AuthorizeAdminAction (authorizer bs) c) eqn:Hadm; [|discriminate].
      injection Hres as ->. eauto.
    + destruct (AuthorizeWithVerbs (authorizer bs) (KindUser rbac) [VerbDelete rbac])
        as [c|]; [|destruct Hdtab as [_ H]; injection H as <-; auto].
      destruct (AuthorizeWithVerbs (authorizer bs) (KindRole rbac) [VerbDelete rbac]);
        [|destruct Hdtab as [_ H]; injection H as <-; auto].
      destruct (AuthorizeWithVerbs (authorizer bs) (KindToken rbac) [VerbDelete rbac]);
        [|destruct Hdtab as [_ H]; injection H as <-; auto].
      destruct Hdtab as [_ Hres].
      destruct (AuthorizeAdminAction (authorizer bs) c) eqn:Hadm; [|discriminate].
      injection Hres as ->. eauto.
Qed.

(** X19: [deleteBotUser] and [deleteBotRole] delete nothing but the
    resource that they have just fetched under the resource name of the
    bot, and only when its bot label (the empty string when it has none)
    is the name of the bot; so a bot whose name collides with that of
    another bot cannot delete the resources of the other. *)
Theorem delete_checks_label (botName : string) (w : World S) :
  (exists extra,
      ops (snd (deleteBotUser types bs botName w)) = ops w ++ extra
      /\ forall op, In op extra -> isWriteOp op = true ->
           exists user s1,
             GetUser (upserts (backend bs)) (BotResourceName botName) false (cluster w)
               = (Ok user, s1)
             /\ labelOrEmpty (userMetadata user) (BotLabel types) = botName
             /\ op = OpDeleteUser (User_GetName user))
  /\ (exists extra,
      ops (snd (deleteBotRole types bs botName w)) = ops w ++ extra
      /\ forall op, In op extra -> isWriteOp op = true ->
           exists role s1,
             GetRole (backend bs) (BotResourceName botName) (cluster w) = (Ok role, s1)
             /\ labelOrEmpty (roleMetadata role) (BotLabel types) = botName
             /\ op = OpDeleteRole (Role_GetName role)).
Proof.
  split.
  - unfold deleteBotUser. svc.
    destruct (GetUser (upserts (backend bs)) (BotResourceName botName) false (cluster w))
      as [[user|e] s1] eqn:Hget.
    + unfold User_GetMetadata.
      destruct (String.eqb_spec (labelOrEmpty (userMetadata user) (BotLabel types)) botName)
        as [Hlabel | Hlabel]; simpl.
      * destruct (DeleteUser (backend bs) (User_GetName user) s1) as [res s2]. simpl.
        eexists [_; _]. split; [rewrite <- app_assoc; reflexivity|].
        intros op [<- | [<- | []]] Hw; [discriminate|]. eauto.
      * eexists [_]. split; [reflexivity|].
        intros op [<- | []] Hw. discriminate.
    + eexists [_]. split; [reflexivity|].
      intros op [<- | []] Hw. discriminate.
  - unfold deleteBotRole. svc.
    destruct (GetRole (backend bs) (BotResourceName botName) (cluster w))
      as [[role|e] s1] eqn:Hget.
    + unfold Role_GetMetadata.
      destruct (String.eqb_spec (labelOrEmpty (roleMetadata role) (BotLabel types)) botName)
        as [Hlabel | Hlabel]; simpl.
      * destruct (DeleteRole (backend bs) (Role_GetName role) s1) as [res s2]. simpl.
        eexists [_; _]. split; [rewrite <- app_assoc; reflexivity|].
        intros op [<- | [<- | []]] Hw; [discriminate|]. eauto.
      * eexists [_]. split; [reflexivity|].
        intros op [<- | []] Hw. discriminate.
    + eexists [_]. split; [reflexivity|].
      intros op [<- | []] Hw. discriminate.
Qed.

(** *** The update mask *)

Definition isSupported (path : string) : bool :=
  String.eqb path "spec.roles" || String.eqb path "spec.traits".

Definition firstUnsupported (paths : list string) : option string :=
  List.find (fun path => negb (isSupported path)) paths.

Definition withRoles (spec : BotSpec) (role : Role) : Role :=
  Role_SetImpersonateConditions_Allow role {| Roles := specRoles spec |}.

Definition withTraits (spec : BotSpec) (user : User) : User :=
  User_SetTraits user (collectTraits (specTraits spec)).

Lemma applyPaths_by_mask (spec : BotSpec) (paths : list string)
    (user : User) (role : Role) :
  applyPaths Quote spec paths user role =
    match firstUnsupported paths with
    | Some path => Err (BadParameter ("update_mask: unsupported path " +:+ Quote path))
    | None =>
        Ok (if existsb (fun p => String.eqb p "spec.traits") paths
            then withTraits spec user else user,
            if existsb (fun p => String.eqb p "spec.roles") paths
            then withRoles spec role else role)
    end.
Proof.
  unfold firstUnsupported.
  revert user role. induction paths as [|path paths IH]; intros user role; [reflexivity|].
  cbn [applyPaths List.find existsb].
  change (negb (isSupported path))
    with (negb (String.eqb path "spec.roles" || String.eqb path "spec.traits")).
  destruct (String.eqb path "spec.roles") eqn:Hr.
  - apply String.eqb_eq in Hr. subst path.
    cbn [orb negb]. rewrite IH.
    destruct (List.find _ paths); [reflexivity|].
    change (String.eqb "spec.roles" "spec.traits") with false. cbn [orb].
    destruct (existsb (fun p => String.eqb p "spec.roles") paths); reflexivity.
  - destruct (String.eqb path "spec.traits") eqn:Ht.
    + cbn [orb negb]. rewrite IH.
      destruct (List.find _ paths); [reflexivity|].
      destruct (existsb (fun p => String.eqb p "spec.traits") paths); reflexivity.
    + reflexivity.
Qed.

(** X20: what the update mask of [UpdateBot] means.  With supported
    paths only, the user gets the traits of the request exactly when
    ["spec.traits"] is among them and the role gets its roles exactly
    when ["spec.roles"] is, whatever their order and number; so two
    masks with the same paths give the same update.  Otherwise the
    first unsupported path is reported and nothing is returned. *)
Theorem update_mask_semantics (spec : BotSpec) (paths : list string)
    (user : User) (role : Role) :
  applyPaths Quote spec paths user role =
    match firstUnsupported paths with
    | Some path => Err (BadParameter ("update_mask: unsupported path " +:+ Quote path))
    | None =>
        Ok (if existsb (fun p => String.eqb p "spec.traits") paths
            then withTraits spec user else user,
            if existsb (fun p => String.eqb p "spec.roles") paths
            then withRoles spec role else role)
    end
  /\ (forall paths',
        (forall p, In p paths <-> In p paths') ->
        firstUnsupported paths = None ->
        applyPaths Quote spec paths' user role = applyPaths Quote spec paths user role).
Proof.
  split; [apply applyPaths_by_mask|].
  intros paths' Hsame Hnone. rewrite !applyPaths_by_mask, Hnone.
  assert (Hnone' : firstUnsupported paths' = None).
  { unfold firstUnsupported in *.
    destruct (List.find _ paths') as [p|] eqn:Hfind; [|reflexivity].
    apply List.find_some in Hfind as [Hin Hp].
    apply Hsame in Hin. pose proof (List.find_none _ _ Hnone p Hin) as Hp'.
    cbv beta in Hp'. rewrite Hp' in Hp. discriminate. }
  rewrite Hnone'.
  assert (Hex : forall q,
             existsb (fun p => String.eqb p q) paths'
             = existsb (fun p => String.eqb p q) paths).
  { intros q. apply eq_true_iff_eq. rewrite !List.existsb_exists.
    split; intros (p & Hin & Hp); exists p; (split; [apply Hsame; exact Hin | exact Hp]). }
  rewrite !Hex. reflexivity.
Qed.

Lemma checkUpdate_Ok (req : UpdateBotRequest) (md : HeaderMetadata) (spec : BotSpec)
    (mask : FieldMask) :
  checkUpdate req = Ok (md, spec, mask) ->
  UpdateMask req = Some mask /\ metaName md <> "" /\ Paths mask <> [].
Proof.
  unfold checkUpdate.
  destruct (updateBot req) as [b|]; [|discriminate].
  destruct (Metadata_ b) as [md'|]; [|discriminate].
  destruct (String.eqb_spec (metaName md') ""); [discriminate|].
  destruct (Spec b) as [spec'|]; [|discriminate].
  destruct (UpdateMask req) as [mask'|]; [|discriminate].
  destruct (Paths mask') eqn:Hpaths; [discriminate|].
  simpl. intros H. injection H as <- <- <-. rewrite Hpaths. repeat split; congruence.
Qed.

(** X21: one unsupported path in the update mask, wherever it stands,
    makes [UpdateBot] fail before it writes: no user or role is
    updated, and no audit event is emitted. *)
Theorem UpdateBot_unsupported_path (req : UpdateBotRequest) (mask : FieldMask)
    (path : string) (w : World S) :
  UpdateMask req = Some mask ->
  In path (Paths mask) ->
  isSupported path = false ->
  exists err w' extra,
    UpdateBot types rbac Quote bs req w = (Err err, w')
    /\ ops w' = ops w ++ extra
    /\ forallb (fun op => negb (isWriteOp op)) extra = true
    /\ (forall ev, ~ In (OpAudit ev) extra).
Proof.
  intros Hmask Hin Hunsupported.
  assert (Hfirst : exists p, firstUnsupported (Paths mask) = Some p).
  { unfold firstUnsupported.
    destruct (List.find _ (Paths mask)) as [p|] eqn:Hfind; [eauto|].
    pose proof (List.find_none _ _ Hfind path Hin) as Hnone.
    cbv beta in Hnone. rewrite Hunsupported in Hnone. discriminate. }
  destruct Hfirst as [p Hfirst].
  unfold UpdateBot.
  destruct (AuthorizeWithVerbs (authorizer bs) (KindBot types) [VerbUpdate rbac]) as [ctx|e].
  2:{ eexists _, _, []. rewrite app_nil_r. repeat split. intros ev []. }
  destruct (AuthorizeAdminAction (authorizer bs) ctx).
  { eexists _, _, []. rewrite app_nil_r. repeat split. intros ev []. }
  destruct (checkUpdate req) as [[[md spec] mask']|e] eqn:Hcheck.
  2:{ eexists _, _, []. rewrite app_nil_r. repeat split. intros ev []. }
  apply checkUpdate_Ok in Hcheck as [Hmask' _].
  rewrite Hmask in Hmask'. injection Hmask' as <-.
  svc.
  destruct (GetUser (upserts (backend bs)) _ false (cluster w)) as [[user|e] s1].
  2:{ eexists _, _, [_]. repeat split. intros ev [H|[]]. discriminate. }
  cbn [cluster ops].
  destruct (GetRole (backend bs) _ s1) as [[role|e] s2].
  2:{ eexists _, _, [_; _]. rewrite <- !app_assoc. repeat split.
      intros ev [H|[H|[]]]; discriminate. }
  rewrite applyPaths_by_mask, Hfirst.
  eexists _, _, [_; _]. rewrite <- !app_assoc. repeat split.
  intros ev [H|[H|[]]]; discriminate.
Qed.

Definition isAudit (op : Op) : bool :=
  match op with
  | OpAudit _ => true
  | _ => false
  end.

Definition isDelete (op : Op) : bool :=
  match op with
  | OpDeleteUser _ | OpDeleteRole _ => true
  | _ => false
  end.

Definition isLookup (op : Op) : bool :=
  match op with
  | OpGetUser _ _ | OpGetRole _ => true
  | _ => false
  end.

Definition isWarning (op : Op) : bool :=
  match op with
  | OpWarn _ _ => true
  | _ => false
  end.

(** The authorization functions log at most a warning. *)
Lemma deleteBotAuthz_ops (w : World S) :
  exists res w' warn,
    deleteBotAuthz types rbac bs w = (res, w')
    /\ cluster w' = cluster w
    /\ ops w' = ops w ++ warn
    /\ forallb isWarning warn = true.
Proof.
  destruct (authz_fallback_table w) as [_ (res & w' & Hrun & Hcl & Htab)].
  exists res, w'.
  destruct (AuthorizeWithVerbs (authorizer bs) (KindBot types) [VerbDelete rbac]).
  { destruct Htab as [-> _]. exists []. rewrite app_nil_r. auto. }
  destruct (AuthorizeWithVerbs (authorizer bs) (KindUser rbac) [VerbDelete rbac]).
  2:{ destruct Htab as [-> _]. exists []. rewrite app_nil_r. auto. }
  destruct (AuthorizeWithVerbs (authorizer bs) (KindRole rbac) [VerbDelete rbac]).
  2:{ destruct Htab as [-> _]. exists []. rewrite app_nil_r. auto. }
  destruct (AuthorizeWithVerbs (authorizer bs) (KindToken rbac) [VerbDelete rbac]).
  2:{ destruct Htab as [-> _]. exists []. rewrite app_nil_r. auto. }
  destruct Htab as [[msg Hops] _]. exists [OpWarn msg None]. auto.
Qed.

Lemma createBotAuthz_ops (w : World S) :
  exists res w' warn,
    createBotAuthz types rbac bs w = (res, w')
    /\ cluster w' = cluster w
    /\ ops w' = ops w ++ warn
    /\ forallb isWarning warn = true.
Proof.
  destruct (authz_fallback_table w) as [(res & w' & Hrun & Hcl & Htab) _].
  exists res, w'.
  destruct (AuthorizeWithVerbs (authorizer bs) (KindBot types) [VerbCreate rbac]).
  { destruct Htab as [-> _]. exists []. rewrite app_nil_r. auto. }
  destruct (AuthorizeWithVerbs (authorizer bs) (KindUser rbac) [VerbCreate rbac]).
  2:{ destruct Htab as [-> _]. exists []. rewrite app_nil_r. auto. }
  destruct (AuthorizeWithVerbs (authorizer bs) (KindRole rbac) [VerbCreate rbac]).
  2:{ destruct Htab as [-> _]. exists []. rewrite app_nil_r. auto. }
  destruct (AuthorizeWithVerbs (authorizer bs) (KindToken rbac) [VerbCreate rbac]).
  2:{ destruct Htab as [-> _]. exists []. rewrite app_nil_r. auto. }
  destruct Htab as [[msg Hops] _]. exists [OpWarn msg None]. auto.
Qed.

(** Warnings are none of the other kinds of operation. *)
Lemma warnings_filtered (p : Op -> bool) (warn : list Op) :
  (forall msg err, p (OpWarn msg err) = false) ->
  forallb isWarning warn = true ->
  List.filter p warn = [].
Proof.
  intros Hp. induction warn as [|op warn IH]; [reflexivity|].
  cbn [forallb List.filter]. intros Hall. apply andb_prop in Hall as [Hop Hall].
  destruct op; try discriminate. rewrite Hp. exact (IH Hall).
Qed.

Lemma deleteBotUser_ops (botName : string) (w : World S) :
  exists res w' extra,
    deleteBotUser types bs botName w = (res, w')
    /\ ops w' = ops w ++ extra
    /\ List.filter isLookup extra = [OpGetUser (BotResourceName botName) false]
    /\ List.filter isAudit extra = []
    /\ ((res <> None /\ List.filter isDelete extra = [])
        \/ exists name, List.filter isDelete extra = [OpDeleteUser name]).
Proof.
  unfold deleteBotUser. svc.
  destruct (GetUser (upserts (backend bs)) (BotResourceName botName) false (cluster w))
    as [[user|e] s1].
  - destruct (negb _).
    + eexists _, _, [_]. split; [reflexivity|]. repeat split. left. split; [discriminate | reflexivity].
    + cbn [cluster ops].
      destruct (DeleteUser (backend bs) (User_GetName user) s1) as [res s2].
      eexists _, _, [_; _]. split; [reflexivity|]. cbn [ops]. rewrite <- app_assoc.
      repeat split. right. eexists. reflexivity.
  - eexists _, _, [_]. split; [reflexivity|]. repeat split. left. split; [discriminate | reflexivity].
Qed.

Lemma deleteBotRole_ops (botName : string) (w : World S) :
  exists res w' extra,
    deleteBotRole types bs botName w = (res, w')
    /\ ops w' = ops w ++ extra
    /\ List.filter isLookup extra = [OpGetRole (BotResourceName botName)]
    /\ List.filter isAudit extra = []
    /\ ((res <> None /\ List.filter isDelete extra = [])
        \/ exists name, List.filter isDelete extra = [OpDeleteRole name]).
Proof.
  unfold deleteBotRole. svc.
  destruct (GetRole (backend bs) (BotResourceName botName) (cluster w))
    as [[role|e] s1].
  - destruct (negb _).
    + eexists _, _, [_]. split; [reflexivity|]. repeat split. left. split; [discriminate | reflexivity].
    + cbn [cluster ops].
      destruct (DeleteRole (backend bs) (Role_GetName role) s1) as [res s2].
      eexists _, _, [_; _]. split; [reflexivity|]. cbn [ops]. rewrite <- app_assoc.
      repeat split. right. eexists. reflexivity.
  - eexists _, _, [_]. split; [reflexivity|]. repeat split. left. split; [discriminate | reflexivity].
Qed.

Lemma emitOrWarn_ops (ev : AuditEvent) (msg : string) (w : World S) :
  exists w' warn,
    emitOrWarn bs ev msg w = (tt, w')
    /\ cluster w' = cluster w
    /\ ops w' = ops w ++ OpAudit ev :: warn
    /\ forallb isWarning warn = true.
Proof.
  svc. destruct (EmitAuditEvent bs ev).
  - eexists _, [_]. split; [reflexivity|]. cbn [ops cluster]. rewrite <- app_assoc. auto.
  - eexists _, []. split; [reflexivity|]. auto.
Qed.

(** The user, or the role, of a bot is deleted: it is found under the
    resource name of the bot, it carries the name of the bot as its bot
    label, and the backend deletes it. *)
Definition userDeleted (botName : string) (s s' : S) : Prop :=
  exists user s1,
    GetUser (upserts (backend bs)) (BotResourceName botName) false s = (Ok user, s1)
    /\ labelOrEmpty (userMetadata user) (BotLabel types) = botName
    /\ DeleteUser (backend bs) (User_GetName user) s1 = (None, s').

Definition roleDeleted (botName : string) (s s' : S) : Prop :=
  exists role s1,
    GetRole (backend bs) (BotResourceName botName) s = (Ok role, s1)
    /\ labelOrEmpty (roleMetadata role) (BotLabel types) = botName
    /\ DeleteRole (backend bs) (Role_GetName role) s1 = (None, s').

Lemma deleteBotUser_None (botName : string) (w w' : World S) (res : option error) :
  deleteBotUser types bs botName w = (res, w') ->
  (res = None <-> userDeleted botName (cluster w) (cluster w')).
Proof.
  unfold deleteBotUser, userDeleted. svc. unfold User_GetMetadata.
  destruct (GetUser (upserts (backend bs)) (BotResourceName botName) false (cluster w))
    as [[user|e] s1].
  - destruct (String.eqb_spec (labelOrEmpty (userMetadata user) (BotLabel types)) botName)
      as [Hlabel | Hlabel]; cbn [negb cluster ops].
    + destruct (DeleteUser (backend bs) (User_GetName user) s1) as [dres s2] eqn:Hdel.
      intros H. injection H as <- <-. cbn [cluster]. split.
      * intros ->. exists user, s1. auto.
      * intros (user' & s1' & Hget & _ & Hdel'). injection Hget as <- <-.
        rewrite Hdel in Hdel'. congruence.
    + intros H. injection H as <- <-. split; [discriminate|].
      intros (user' & s1' & Hget & Hlabel' & _). injection Hget as <- <-. contradiction.
  - intros H. injection H as <- <-. split; [discriminate|].
    intros (user' & s1' & Hget & _). discriminate.
Qed.

Lemma deleteBotRole_None (botName : string) (w w' : World S) (res : option error) :
  deleteBotRole types bs botName w = (res, w') ->
  (res = None <-> roleDeleted botName (cluster w) (cluster w')).
Proof.
  unfold deleteBotRole, roleDeleted. svc. unfold Role_GetMetadata.
  destruct (GetRole (backend bs) (BotResourceName botName) (cluster w))
    as [[role|e] s1].
  - destruct (String.eqb_spec (labelOrEmpty (roleMetadata role) (BotLabel types)) botName)
      as [Hlabel | Hlabel]; cbn [negb cluster ops].
    + destruct (DeleteRole (backend bs) (Role_GetName role) s1) as [dres s2] eqn:Hdel.
      intros H. injection H as <- <-. cbn [cluster]. split.
      * intros ->. exists role, s1. auto.
      * intros (role' & s1' & Hget & _ & Hdel'). injection Hget as <- <-.
        rewrite Hdel in Hdel'. congruence.
    + intros H. injection H as <- <-. split; [discriminate|].
      intros (role' & s1' & Hget & Hlabel' & _). injection Hget as <- <-. contradiction.
  - intros H. injection H as <- <-. split; [discriminate|].
    intros (role' & s1' & Hget & _). discriminate.
Qed.

(** The state in which a backend call leaves the cluster does not
    depend on what was logged before. *)
Lemma deleteBotUser_cluster (botName : string) (w v : World S) :
  cluster w = cluster v ->
  fst (deleteBotUser types bs botName w) = fst (deleteBotUser types bs botName v)
  /\ cluster (snd (deleteBotUser types bs botName w))
     = cluster (snd (deleteBotUser types bs botName v)).
Proof.
  intros Hcl. unfold deleteBotUser. svc. rewrite Hcl.
  destruct (GetUser (upserts (backend bs)) (BotResourceName botName) false (cluster v))
    as [[user|e] s1]; [|auto].
  destruct (negb _); [auto|]. cbn [cluster].
  destruct (DeleteUser (backend bs) (User_GetName user) s1). auto.
Qed.

(** X22: [DeleteBot], for a caller who may delete and a name that is
    not empty, always tries both deletions: the user is looked up and
    then the role, whatever became of the user, and a role that can be
    deleted is deleted also when the user was not.  It succeeds exactly
    when both were deleted, and it is then, and only then, that the audit
    event is emitted.  An empty name is refused before any lookup. *)
Theorem DeleteBot_attempts_both (req : DeleteBotRequest) (w : World S) :
  fst (deleteBotAuthz types rbac bs w) = None ->
  let name := deleteBotName req in
  let afterUser := cluster (snd (deleteBotUser types bs name w)) in
  exists res w' extra,
    DeleteBot types rbac bs req w = (res, w')
    /\ ops w' = ops w ++ extra
    /\ (name = "" -> res <> None /\ List.filter isAccess extra = [] /\ cluster w' = cluster w)
    /\ (name <> "" ->
        List.filter isLookup extra
          = [OpGetUser (BotResourceName name) false; OpGetRole (BotResourceName name)]
        /\ (res = None <->
            userDeleted name (cluster w) afterUser /\ roleDeleted name afterUser (cluster w'))
        /\ (forall s', roleDeleted name afterUser s' ->
              cluster w' = s' /\ exists roleName, In (OpDeleteRole roleName) extra)
        /\ (res = None <->
            List.filter isAudit extra = [OpAudit (BotDelete name)])
        /\ (res <> None -> List.filter isAudit extra = [])).
Proof.
  intros Hallowed name afterUser. unfold DeleteBot. unfold bind at 1.
  destruct (deleteBotAuthz_ops w) as (ares & w0 & warn & Hauthz & Hcl0 & Hops0 & Hwarn).
  rewrite Hauthz in Hallowed |- *. cbn [fst] in Hallowed. subst ares.
  assert (Hw : forall p, (forall msg err, p (OpWarn msg err) = false) -> List.filter p warn = [])
    by (intros p Hp; exact (warnings_filtered p warn Hp Hwarn)).
  fold name.
  destruct (String.eqb_spec name "") as [Hname | Hname].
  { eexists _, w0, warn. split; [reflexivity|].
    split; [exact Hops0|]. rewrite !Hw by reflexivity.
    split; [intros _; split; [discriminate | auto]|]. intros Hne. contradiction. }
  unfold bind at 1.
  destruct (deleteBotUser_ops name w0)
    as (ures & w1 & uextra & Huser & Hops1 & Hulook & Huaudit & Hudel).
  rewrite Huser. unfold bind at 1.
  destruct (deleteBotRole_ops name w1)
    as (rres & w2 & rextra & Hrole & Hops2 & Hrlook & Hraudit & Hrdel).
  rewrite Hrole.
  assert (Hops : ops w2 = ops w ++ warn ++ uextra ++ rextra).
  { rewrite Hops2, Hops1, Hops0, <- !app_assoc. reflexivity. }
  assert (Hafter : afterUser = cluster w1).
  { unfold afterUser.
    destruct (deleteBotUser_cluster name w w0 (eq_sym Hcl0)) as [_ ->].
    rewrite Huser. reflexivity. }
  pose proof (deleteBotUser_None name w0 w1 ures Huser) as Hu. rewrite Hcl0 in Hu.
  pose proof (deleteBotRole_None name w1 w2 rres Hrole) as Hr.
  rewrite <- Hafter in Hu, Hr.
  assert (Hattempt : forall s', roleDeleted name afterUser s' ->
            cluster w2 = s' /\ exists roleName, In (OpDeleteRole roleName) rextra).
  { intros s' Hdel. pose proof Hdel as (role & s1 & Hget & Hlabel & Hdrop).
    rewrite Hafter in Hget.
    revert Hrole. unfold deleteBotRole. svc. rewrite Hget. unfold Role_GetMetadata.
    rewrite Hlabel, String.eqb_refl. cbn [negb cluster ops]. rewrite Hdrop.
    intros H. injection H as <- <-. cbn [cluster]. split; [reflexivity|].
    exists (Role_GetName role).
    rewrite Hops1 in Hops2. cbn [ops] in Hops2.
    rewrite <- !app_assoc in Hops2. apply app_inv_head in Hops2. apply app_inv_head in Hops2.
    rewrite <- Hops2. right. left. reflexivity. }
  destruct ures as [ue|]; [|destruct rres as [re|]].
  - exists (NewAggregate [WrapNil (Some ue) "deleting bot user"; WrapNil rres "deleting bot role"]),
      w2, (warn ++ uextra ++ rextra).
    split; [destruct rres; reflexivity|]. split; [exact Hops|].
    split; [intros Hempty; contradiction|]. intros _.
    rewrite !List.filter_app, !Hw, Hulook, Hrlook, Huaudit, Hraudit by reflexivity.
    assert (Hres : NewAggregate [WrapNil (Some ue) "deleting bot user";
                                 WrapNil rres "deleting bot role"] <> None)
      by (destruct rres; discriminate).
    split; [reflexivity|].
    split; [split; [contradiction | intros [Hdel _]; apply Hu in Hdel; discriminate]|].
    split.
    { intros s' Hdel. destruct (Hattempt s' Hdel) as [Hcl [rn Hin]].
      split; [exact Hcl|]. exists rn. rewrite !in_app_iff. auto. }
    split; [split; [contradiction | discriminate]|]. reflexivity.
  - exists (Some (AggregateError [Wrap re "deleting bot role"])), w2, (warn ++ uextra ++ rextra).
    split; [reflexivity|]. split; [exact Hops|].
    split; [intros Hempty; contradiction|]. intros _.
    rewrite !List.filter_app, !Hw, Hulook, Hrlook, Huaudit, Hraudit by reflexivity.
    split; [reflexivity|].
    split; [split; [discriminate | intros [_ Hdel]; apply Hr in Hdel; discriminate]|].
    split.
    { intros s' Hdel. destruct (Hattempt s' Hdel) as [Hcl [rn Hin]].
      split; [exact Hcl|]. exists rn. rewrite !in_app_iff. auto. }
    split; [split; discriminate|]. reflexivity.
  - change (NewAggregate [WrapNil None "deleting bot user"; WrapNil None "deleting bot role"])
      with (@None goError).
    cbv beta iota. unfold bind at 1.
    destruct (emitOrWarn_ops (BotDelete name)
                "Failed to emit BotDelete audit event." w2)
      as (w3 & awarn & Hemit & Hcl3 & Hops3 & Hawarn).
    rewrite Hemit.
    exists None, w3, (warn ++ uextra ++ rextra ++ OpAudit (BotDelete name) :: awarn).
    split; [reflexivity|].
    split; [rewrite Hops3, Hops, <- !app_assoc; reflexivity|].
    split; [intros Hempty; contradiction|]. intros _.
    rewrite !List.filter_app, !Hw, Hulook, Hrlook, Huaudit, Hraudit by reflexivity.
    cbn [List.filter isLookup isAudit isDelete app].
    rewrite !(warnings_filtered _ awarn) by (auto; reflexivity).
    rewrite Hcl3.
    split; [reflexivity|].
    split; [split; [intros _; split; [apply Hu | apply Hr]; reflexivity | reflexivity]|].
    split.
    { intros s' Hdel. destruct (Hattempt s' Hdel) as [Hcl [rn Hin]].
      split; [exact Hcl|]. exists rn. rewrite !in_app_iff. auto. }
    split; [split; reflexivity|]. intros Hcontra. contradiction.
Qed.

Definition isCreate (op : Op) : bool :=
  match op with
  | OpCreateUser _ | OpCreateRole _ => true
  | _ => false
  end.

Definition isEvent (op : Op) : bool :=
  match op with
  | OpReport _ | OpAudit _ => true
  | _ => false
  end.

Lemma botToUserAndRole_returns (b : Bot) (now : Z) (createdBy : string) :
  validateBot (Some b) = None ->
  exists res, botToUserAndRole types b now createdBy = Returns res.
Proof.
  intros Hval. apply validateBot_None in Hval as (b' & md & spec & Hb & Hmd & _ & Hspec).
  injection Hb as <-. unfold botToUserAndRole. rewrite Hmd, Hspec.
  destruct (NewRole types _ _); [|eauto].
  destruct (NewUser types _); eauto.
Qed.

(** A bot that [botFromUserAndRole] returns has metadata, a spec and a
    status; its name is the bot label of the user. *)
Lemma botFromUserAndRole_Ok (user : User) (role : Role) (b : Bot) :
  botFromUserAndRole types user role = Ok b ->
  exists name spec,
    User_GetLabel user (BotLabel types) = Some name
    /\ Metadata_ b = Some {| metaName := name |}
    /\ Spec b = Some spec
    /\ specRoles spec = Roles (Role_GetImpersonateConditions_Allow role)
    /\ Status b = Some {| UserName := User_GetName user; RoleName := Role_GetName role |}.
Proof.
  unfold botFromUserAndRole.
  destruct (User_GetLabel user (BotLabel types)) as [name|]; [|discriminate].
  intros H. injection H as <-. eexists _, _. repeat split.
Qed.

(** X23: the only calls that [CreateBot] makes to the backend are
    [CreateUser] and then [CreateRole], the role only once the user was
    created.  When both succeed the bot that [botFromUserAndRole] makes
    of the created user and role is returned; when the role cannot be
    created the user stays in the backend, as there is no call that would
    remove it.  The usage event and the audit event are emitted exactly
    when a bot is returned, once each, and carry its name. *)
Theorem CreateBot_creates_in_order (req : CreateBotRequest) (w : World S) :
  exists out w' extra,
    CreateBot types rbac bs req w = (out, w')
    /\ ops w' = ops w ++ extra
    /\ List.filter isAccess extra = List.filter isCreate extra
    /\ (List.filter isCreate extra = []
        \/ exists user,
            List.filter isCreate extra = [OpCreateUser user]
            \/ exists role, List.filter isCreate extra = [OpCreateUser user; OpCreateRole role])
    /\ ((forall b, out <> Returns (Ok b)) -> List.filter isEvent extra = [])
    /\ (forall b, out = Returns (Ok b) ->
          exists user role ev name,
            List.filter isCreate extra = [OpCreateUser user; OpCreateRole role]
            /\ List.filter isEvent extra = [OpReport ev; OpAudit (BotCreate name)]
            /\ Metadata_ b = Some {| metaName := name |}
            /\ evBotName ev = name
            /\ evBotUserName ev = BotResourceName name
            /\ evRoleName ev = BotResourceName name)
    /\ (forall authCtx b user role user' s1,
          fst (createBotAuthz types rbac bs w) = Ok authCtx ->
          createBot req = Some b ->
          validateBot (Some b) = None ->
          botToUserAndRole types b (clockNow bs) (authUser authCtx)
            = Returns (Ok (user, role)) ->
          CreateUser (backend bs) user (cluster w) = (Ok user', s1) ->
          List.filter isCreate extra = [OpCreateUser user; OpCreateRole role]
          /\ cluster w' = snd (CreateRole (backend bs) role s1)
          /\ match fst (CreateRole (backend bs) role s1) with
             | Err err => out = Returns (Err (Wrap err "creating bot role"))
             | Ok role' =>
                 forall bot, botFromUserAndRole types user' role' = Ok bot ->
                             out = Returns (Ok bot)
             end).
Proof.
  unfold CreateBot. unfold bind at 1.
  destruct (createBotAuthz_ops w) as (ares & w0 & warn & Hauthz & Hcl0 & Hops0 & Hwarn).
  rewrite Hauthz.
  assert (Hw : forall p, (forall msg err, p (OpWarn msg err) = false) -> List.filter p warn = [])
    by (intros p Hp; exact (warnings_filtered p warn Hp Hwarn)).
  destruct ares as [authCtx|err].
  2:{ eexists _, w0, warn. split; [reflexivity|]. split; [exact Hops0|].
      rewrite !Hw by reflexivity. repeat split; auto; try discriminate.
      all: intros; cbn [fst] in *; discriminate. }
  destruct (validateBot (createBot req)) as [err|] eqn:Hval.
  { eexists _, w0, warn. split; [reflexivity|]. split; [exact Hops0|].
    rewrite !Hw by reflexivity. repeat split; auto; try discriminate.
    all: intros; congruence. }
  destruct (createBot req) as [b|]; [|discriminate].
  destruct (botToUserAndRole_returns b (clockNow bs) (authUser authCtx) Hval) as [conv Hconv].
  rewrite Hconv.
  destruct conv as [[user role]|err].
  2:{ eexists _, w0, warn. split; [reflexivity|]. split; [exact Hops0|].
      rewrite !Hw by reflexivity. repeat split; auto; try discriminate.
      all: intros; cbn [fst] in *; congruence. }
  svc. rewrite Hcl0.
  destruct (CreateUser (backend bs) user (cluster w)) as [[user'|err] s1] eqn:Hcu.
  2:{ eexists _, _, (warn ++ [_]). split; [reflexivity|].
      split; [cbn [ops]; rewrite Hops0, <- app_assoc; reflexivity|].
      rewrite !List.filter_app, !Hw by reflexivity.
      repeat split; eauto; try discriminate.
      all: intros; cbn [fst] in *; congruence. }
  cbn [cluster ops].
  destruct (CreateRole (backend bs) role s1) as [[role'|err] s2] eqn:Hcr.
  2:{ eexists _, _, (warn ++ [_; _]). split; [reflexivity|].
      split; [cbn [ops]; rewrite Hops0, <- !app_assoc; reflexivity|].
      rewrite !List.filter_app, !Hw by reflexivity.
      split; [reflexivity|]. split; [eauto|]. split; [reflexivity|].
      split; [discriminate|].
      intros a b0 u r u' s1' Ha Hb _ Hto Hcu'. cbn [fst] in Ha.
      injection Ha as <-. injection Hb as <-. rewrite Hconv in Hto.
      injection Hto as <- <-. rewrite Hcu in Hcu'. injection Hcu' as <- <-.
      rewrite Hcr. repeat split. }
  assert (Hconverse :
    forall out' s',
      forall a b0 u r u' s1',
        Ok authCtx = Ok a -> Some b = Some b0 -> validateBot (Some b0) = None ->
        botToUserAndRole types b0 (clockNow bs) (authUser a) = Returns (Ok (u, r)) ->
        CreateUser (backend bs) u (cluster w) = (Ok u', s1') ->
        (forall bot, botFromUserAndRole types user' role' = Ok bot -> out' = Returns (Ok bot)) ->
        s' = s2 ->
        [OpCreateUser user; OpCreateRole role] = [OpCreateUser u; OpCreateRole r]
        /\ s' = snd (CreateRole (backend bs) r s1')
        /\ match fst (CreateRole (backend bs) r s1') with
           | Err err => out' = Returns (Err (Wrap err "creating bot role"))
           | Ok role'' =>
               forall bot, botFromUserAndRole types u' role'' = Ok bot ->
                           out' = Returns (Ok bot)
           end).
  { intros out' s' a b0 u r u' s1' Ha Hb _ Hto Hcu' Hout ->.
    injection Ha as <-. injection Hb as <-. rewrite Hconv in Hto.
    injection Hto as <- <-. rewrite Hcu in Hcu'. injection Hcu' as <- <-.
    rewrite Hcr. repeat split. exact Hout. }
  destruct (botFromUserAndRole types user' role') as [bot|err] eqn:Hfrom.
  2:{ eexists _, _, (warn ++ [_; _]). split; [reflexivity|].
      split; [cbn [ops]; rewrite Hops0, <- !app_assoc; reflexivity|].
      rewrite !List.filter_app, !Hw by reflexivity.
      split; [reflexivity|]. split; [eauto|]. split; [reflexivity|].
      split; [discriminate|].
      intros a b0 u r u' s1' Ha Hb Hv Hto Hcu'. cbn [fst] in Ha. cbn [cluster].
      apply (Hconverse _ _ a b0 u r u' s1'); auto; try congruence;
        try (intros bot0 Hb0; discriminate). }
  apply botFromUserAndRole_Ok in Hfrom as (name & spec & _ & Hmd & Hspec & _).
  rewrite Hmd, Hspec. svc. cbn [cluster ops metaName].
  destruct (EmitAuditEvent bs (BotCreate name)).
  - eexists _, _, (warn ++ [_; _; _; _; _]). split; [reflexivity|].
    split; [cbn [ops]; rewrite Hops0, <- !app_assoc; reflexivity|].
    rewrite !List.filter_app, !Hw by reflexivity.
    split; [reflexivity|]. split; [eauto|].
    split; [intros Hnot; exfalso; exact (Hnot _ eq_refl)|].
    split.
    { intros b' Hb. injection Hb as <-. eexists _, _, _, _. repeat split. exact Hmd. }
    intros a b0 u r u' s1' Ha Hb Hv Hto Hcu'. cbn [fst] in Ha. cbn [cluster].
    apply (Hconverse _ _ a b0 u r u' s1'); auto; try congruence;
      try (intros bot0 Hb0; injection Hb0 as <-; reflexivity).
  - eexists _, _, (warn ++ [_; _; _; _]). split; [reflexivity|].
    split; [cbn [ops]; rewrite Hops0, <- !app_assoc; reflexivity|].
    rewrite !List.filter_app, !Hw by reflexivity.
    split; [reflexivity|]. split; [eauto|].
    split; [intros Hnot; exfalso; exact (Hnot _ eq_refl)|].
    split.
    { intros b' Hb. injection Hb as <-. eexists _, _, _, _. repeat split. exact Hmd. }
    intros a b0 u r u' s1' Ha Hb Hv Hto Hcu'. cbn [fst] in Ha. cbn [cluster].
    apply (Hconverse _ _ a b0 u r u' s1'); auto; try congruence;
      try (intros bot0 Hb0; injection Hb0 as <-; reflexivity).
Qed.

(** *** Reading bots *)

Definition botLabels (users : list User) : list string :=
  omap (fun u => User_GetLabel u (BotLabel types)) users.

Definition botNames (bots : list Bot) : list string :=
  omap (fun b => metaName <$> Metadata_ b) bots.

Definition isRoleWarning (op : Op) : Prop :=
  exists err,
    op = OpWarn
           "Failed to fetch role for bot during ListBots. Bot will be omitted from results."
           (Some err).

Lemma listBotsLoop_ops (users : list User) (acc : list Bot) (w : World S) :
  exists new w' extra,
    listBotsLoop types bs users acc w = (acc ++ new, w')
    /\ ops w' = ops w ++ extra
    /\ List.filter isCacheOp extra
         = map (fun name => OpCacheGetRole (BotResourceName name)) (botLabels users)
    /\ Forall (fun op => isCacheOp op = true \/ isRoleWarning op) extra
    /\ botNames new `sublist_of` botLabels users.
Proof.
  revert acc w. induction users as [|u users IH]; intros acc w.
  - exists [], w, []. rewrite !app_nil_r. repeat split; constructor.
  - cbn [listBotsLoop]. unfold botLabels. cbn [omap list_omap]. fold (botLabels users).
    destruct (User_GetLabel u (BotLabel types)) as [name|] eqn:Hlabel.
    2:{ exact (IH acc w). }
    svc.
    destruct (cache_GetRole (cache bs) (BotResourceName name) (cluster w)) as [[role|err] s1].
    + unfold botFromUserAndRole. rewrite Hlabel.
      match goal with
      | |- context [listBotsLoop types bs users (acc ++ [?b]) ?w1] =>
          destruct (IH (acc ++ [b]) w1) as (new & w' & extra & Hrun & Hops & Hcache & Hall & Hsub);
          exists (b :: new), w', (OpCacheGetRole (BotResourceName name) :: extra)
      end.
      split; [rewrite Hrun, <- app_assoc; reflexivity|].
      split; [rewrite Hops; cbn [ops]; rewrite <- app_assoc; reflexivity|].
      split; [cbn [List.filter isCacheOp map]; rewrite Hcache; reflexivity|].
      split; [constructor; [left; reflexivity | exact Hall]|].
      cbn. apply sublist_skip. exact Hsub.
    + match goal with
      | |- context [listBotsLoop types bs users acc ?w1] =>
          destruct (IH acc w1) as (new & w' & extra & Hrun & Hops & Hcache & Hall & Hsub);
          exists new, w',
            (OpCacheGetRole (BotResourceName name)
               :: OpWarn
                    "Failed to fetch role for bot during ListBots. Bot will be omitted from results."
                    (Some err) :: extra)
      end.
      split; [exact Hrun|].
      split; [rewrite Hops; cbn [ops]; rewrite <- !app_assoc; reflexivity|].
      split; [cbn [List.filter isCacheOp map]; rewrite Hcache; reflexivity|].
      split; [constructor; [left; reflexivity|]; constructor; [right; eexists; reflexivity | exact Hall]|].
      apply sublist_cons. exact Hsub.
Qed.

(** A cache whose role lookups leave the cluster as it is. *)
Definition readOnlyRoles (c : Cache S) : Prop :=
  forall name s, snd (cache_GetRole c name s) = s.

(** The bot that a user of the page stands for, with the cluster in
    state [s]: none without a bot label, none when the role cannot be
    fetched. *)
Definition listed (s : S) (u : User) : option Bot :=
  match User_GetLabel u (BotLabel types) with
  | None => None
  | Some botName =>
      match fst (cache_GetRole (cache bs) (BotResourceName botName) s) with
      | Err _ => None
      | Ok role =>
          match botFromUserAndRole types u role with
          | Ok bot => Some bot
          | Err _ => None
          end
      end
  end.

(** What is done for a user of the page: nothing without a bot label,
    else the lookup of the role, and a warning when that fails. *)
Definition listedOps (s : S) (u : User) : list Op :=
  match User_GetLabel u (BotLabel types) with
  | None => []
  | Some botName =>
      OpCacheGetRole (BotResourceName botName)
        :: match fst (cache_GetRole (cache bs) (BotResourceName botName) s) with
           | Err err =>
               [OpWarn
                  "Failed to fetch role for bot during ListBots. Bot will be omitted from results."
                  (Some err)]
           | Ok _ => []
           end
  end.

Lemma listBotsLoop_listed (users : list User) (acc : list Bot) (w : World S) :
  readOnlyRoles (cache bs) ->
  listBotsLoop types bs users acc w =
    (acc ++ omap (listed (cluster w)) users,
     {| cluster := cluster w;
        ops := ops w ++ concat (map (listedOps (cluster w)) users) |}).
Proof.
  intros Hread. revert acc w. induction users as [|u users IH]; intros acc w.
  - cbn. rewrite !app_nil_r. destruct w; reflexivity.
  - cbn [listBotsLoop omap list_omap map concat]. unfold listed at 1, listedOps at 1.
    destruct (User_GetLabel u (BotLabel types)) as [name|] eqn:Hlabel.
    2:{ rewrite IH. reflexivity. }
    svc. pose proof (Hread (BotResourceName name) (cluster w)) as Hsame.
    destruct (cache_GetRole (cache bs) (BotResourceName name) (cluster w)) as [[role|err] s1];
      cbn [fst snd] in *; subst s1.
    + unfold botFromUserAndRole at 1 2. rewrite Hlabel.
      rewrite IH. cbn [cluster ops]. rewrite <- !app_assoc. reflexivity.
    + rewrite IH. cbn [cluster ops]. rewrite <- !app_assoc. reflexivity.
Qed.

(** X24: [ListBots], for a caller who may list and over a cache whose
    role lookups change nothing, does not fail once the page of users is
    listed.  It returns, in the order of the page, the bot of every user
    that has a bot label and whose role can be fetched, made of that
    user and that role, and no other; it looks up one role per user with
    a bot label and logs one warning per role that cannot be fetched,
    and nothing else; the page token is handed on. *)
Theorem ListBots_skips (req : ListBotsRequest) (w : World S)
    (authCtx : AuthContext) (users : list User) (token : string) (s1 : S) :
  AuthorizeWithVerbs (authorizer bs) (KindBot types) [VerbList rbac] = Ok authCtx ->
  cache_ListUsers (cache bs) (PageSize req) (PageToken req) false (cluster w)
    = (Ok (users, token), s1) ->
  readOnlyRoles (cache bs) ->
  ListBots types rbac bs req w =
    (Ok {| Bots := omap (listed s1) users; NextPageToken := token |},
     {| cluster := s1;
        ops := ops w ++ OpCacheListUsers (PageSize req) (PageToken req) false
                 :: concat (map (listedOps s1) users) |})
  /\ (forall u,
        listed s1 u = None <->
        User_GetLabel u (BotLabel types) = None
        \/ exists botName err,
             User_GetLabel u (BotLabel types) = Some botName
             /\ fst (cache_GetRole (cache bs) (BotResourceName botName) s1) = Err err)
  /\ (forall u bot,
        listed s1 u = Some bot ->
        exists botName role,
          User_GetLabel u (BotLabel types) = Some botName
          /\ fst (cache_GetRole (cache bs) (BotResourceName botName) s1) = Ok role
          /\ botFromUserAndRole types u role = Ok bot
          /\ Metadata_ bot = Some {| metaName := botName |}
          /\ Status bot = Some {| UserName := User_GetName u; RoleName := Role_GetName role |}).
Proof.
  intros Hauthz Hlist Hread. split; [|split].
  - unfold ListBots. rewrite Hauthz. svc. rewrite Hlist.
    rewrite listBotsLoop_listed by exact Hread.
    cbn [cluster ops app]. rewrite <- app_assoc. reflexivity.
  - intros u. unfold listed.
    destruct (User_GetLabel u (BotLabel types)) as [name|] eqn:Hlabel.
    2:{ split; auto. }
    destruct (fst (cache_GetRole (cache bs) (BotResourceName name) s1)) as [role|err] eqn:Hget.
    + unfold botFromUserAndRole. rewrite Hlabel. split; [discriminate|].
      intros [Hnone | (name' & err & Hname & Herr)]; [discriminate|].
      injection Hname as <-. rewrite Hget in Herr. discriminate.
    + split; [|reflexivity]. intros _. right. exists name, err. rewrite Hget. auto.
  - intros u bot. unfold listed.
    destruct (User_GetLabel u (BotLabel types)) as [name|] eqn:Hlabel; [|discriminate].
    destruct (fst (cache_GetRole (cache bs) (BotResourceName name) s1)) as [role|err] eqn:Hget;
      [|discriminate].
    destruct (botFromUserAndRole types u role) as [b|] eqn:Hfrom; [|discriminate].
    intros H. injection H as <-.
    pose proof (botFromUserAndRole_Ok u role b Hfrom) as (name' & spec & Hl & Hmd & _ & _ & Hst).
    rewrite Hlabel in Hl. injection Hl as <-.
    exists name, role. rewrite Hget. auto.
Qed.

(** X25: the two reading calls work on the cache alone: [GetBot] and
    [ListBots] never call the backend and emit no event.  [GetBot]
    refuses an empty name before any lookup, and fetches the role only
    when the user was found; it returns a bot exactly when, for a caller
    who may read and a name that is not empty, the user and the role are
    found and convert, and the bot is the one made of them. *)
Theorem reads_use_cache_only (w : World S) :
  (forall req,
      let name := BotResourceName (getBotName req) in
      exists res w' extra,
        GetBot types rbac bs req w = (res, w')
        /\ ops w' = ops w ++ extra
        /\ (getBotName req = "" -> extra = [])
        /\ (extra = []
            \/ extra = [OpCacheGetUser name false]
            \/ extra = [OpCacheGetUser name false; OpCacheGetRole name])
        /\ (In (OpCacheGetRole name) extra ->
            exists user s1, cache_GetUser (cache bs) name false (cluster w) = (Ok user, s1))
        /\ (forall b,
              res = Ok b <->
              exists authCtx user s1 role,
                AuthorizeWithVerbs (authorizer bs) (KindBot types) [VerbRead rbac] = Ok authCtx
                /\ getBotName req <> ""
                /\ cache_GetUser (cache bs) name false (cluster w) = (Ok user, s1)
                /\ cache_GetRole (cache bs) name s1 = (Ok role, cluster w')
                /\ botFromUserAndRole types user role = Ok b))
  /\ (forall req, exists res w' extra,
      ListBots types rbac bs req w = (res, w')
      /\ ops w' = ops w ++ extra
      /\ Forall (fun op => isCacheOp op = true \/ isRoleWarning op) extra).
Proof.
  split; intros req.
  - intros name. unfold GetBot. fold name.
    destruct (AuthorizeWithVerbs (authorizer bs) (KindBot types) [VerbRead rbac])
      as [authCtx|denied].
    2:{ eexists _, _, []. rewrite app_nil_r. split; [reflexivity|]. split; [reflexivity|].
        split; [auto|]. split; [auto|]. split; [intros []|].
        intros b. split; [discriminate|]. intros (a & _ & _ & _ & Ha & _). discriminate. }
    destruct (String.eqb_spec (getBotName req) "") as [Hname | Hname].
    { eexists _, _, []. rewrite app_nil_r. split; [reflexivity|]. split; [reflexivity|].
      split; [auto|]. split; [auto|]. split; [intros []|].
      intros b. split; [discriminate|]. intros (a & _ & _ & _ & _ & Hne & _). contradiction. }
    svc.
    destruct (cache_GetUser (cache bs) name false (cluster w)) as [[user|err] s1] eqn:Huser.
    2:{ eexists _, _, [_]. split; [reflexivity|]. split; [reflexivity|].
        split; [intros; contradiction|]. split; [auto|].
        split; [intros [H|[]]; discriminate|].
        intros b. split; [discriminate|]. intros (a & u & s & r & _ & _ & Hu & _). discriminate. }
    cbn [cluster ops].
    destruct (cache_GetRole (cache bs) name s1) as [[role|err] s2] eqn:Hrole.
    2:{ eexists _, _, [_; _]. rewrite <- !app_assoc.
        split; [reflexivity|]. split; [reflexivity|].
        split; [intros; contradiction|]. split; [auto|].
        split; [intros _; eauto|].
        intros b. split; [discriminate|].
        intros (a & u & s & r & _ & _ & Hu & Hr & _). injection Hu as <- <-.
        rewrite Hrole in Hr. discriminate. }
    destruct (botFromUserAndRole types user role) as [bot|err] eqn:Hfrom;
      (eexists _, _, [_; _]; rewrite <- !app_assoc;
       split; [reflexivity|]; split; [reflexivity|];
       split; [intros; contradiction|]; split; [auto|];
       split; [intros _; eauto|]); cbn [cluster].
    + intros b. split.
      * intros H. injection H as <-. exists authCtx, user, s1, role. auto.
      * intros (a & u & s & r & _ & _ & Hu & Hr & Hb). injection Hu as <- <-.
        rewrite Hrole in Hr. injection Hr as <-. congruence.
    + intros b. split; [discriminate|].
      intros (a & u & s & r & _ & _ & Hu & Hr & Hb). injection Hu as <- <-.
      rewrite Hrole in Hr. injection Hr as <-. congruence.
  - unfold ListBots.
    destruct (AuthorizeWithVerbs (authorizer bs) (KindBot types) [VerbList rbac]).
    2:{ eexists _, _, []. rewrite app_nil_r. repeat split. constructor. }
    svc.
    destruct (cache_ListUsers (cache bs) (PageSize req) (PageToken req) false (cluster w))
      as [[[users token]|err] s1].
    2:{ eexists _, _, [_]. repeat split. constructor; [left; reflexivity | constructor]. }
    match goal with
    | |- context [listBotsLoop types bs users [] ?w1] =>
        destruct (listBotsLoop_ops users [] w1) as (new & w' & extra & Hrun & Hops & _ & Hall & _)
    end.
    rewrite Hrun. eexists _, w', (_ :: extra).
    split; [reflexivity|].
    split; [rewrite Hops; cbn [ops]; rewrite <- app_assoc; reflexivity|].
    constructor; [left; reflexivity | exact Hall].
Qed.

(** X26: [UpdateBot], for a caller who may update, a request that
    passes the checks, a bot whose user and role are found and a mask of
    supported paths, writes back the user and the role that it has
    fetched, changed by the mask alone.  The user handed to [UpdateUser]
    has the traits of the request when ["spec.traits"] is in the mask,
    and else its own, and keeps its metadata (name, labels and with them
    the generation), roles and creator; the role handed to [UpdateRole]
    may impersonate the roles of the request when ["spec.roles"] is in
    the mask, and else what it could, and keeps its metadata, options and
    rules.  The user is written first and the role only when that
    succeeded; the audit event is emitted exactly when both are
    written. *)
Theorem UpdateBot_keeps_metadata (req : UpdateBotRequest) (authCtx : AuthContext)
    (md : HeaderMetadata) (spec : BotSpec) (mask : FieldMask) (w : World S)
    (user : User) (s1 : S) (role : Role) (s2 : S) :
  AuthorizeWithVerbs (authorizer bs) (KindBot types) [VerbUpdate rbac] = Ok authCtx ->
  AuthorizeAdminAction (authorizer bs) authCtx = None ->
  checkUpdate req = Ok (md, spec, mask) ->
  GetUser (upserts (backend bs)) (BotResourceName (metaName md)) false (cluster w)
    = (Ok user, s1) ->
  GetRole (backend bs) (BotResourceName (metaName md)) s1 = (Ok role, s2) ->
  firstUnsupported (Paths mask) = None ->
  let traitsAsked := existsb (fun p => String.eqb p "spec.traits") (Paths mask) in
  let rolesAsked := existsb (fun p => String.eqb p "spec.roles") (Paths mask) in
  exists user' role' res w' extra,
    UpdateBot types rbac Quote bs req w = (res, w')
    /\ ops w' = ops w ++ extra
    /\ (userMetadata user' = userMetadata user
        /\ userRoles user' = userRoles user
        /\ userCreatedBy user' = userCreatedBy user
        /\ userTraits user' =
             if traitsAsked then collectTraits (specTraits spec) else userTraits user)
    /\ (roleMetadata role' = roleMetadata role
        /\ Options (roleSpec role') = Options (roleSpec role)
        /\ Rules (Allow (roleSpec role')) = Rules (Allow (roleSpec role))
        /\ Impersonate (Allow (roleSpec role')) =
             if rolesAsked then Some {| Roles := specRoles spec |}
             else Impersonate (Allow (roleSpec role)))
    /\ match UpdateUser (backend bs) user' s2 with
       | (Err err, s3) =>
           res = Err (Wrap err "updating bot user")
           /\ cluster w' = s3
           /\ List.filter isWriteOp extra = [OpUpdateUser user']
           /\ List.filter isAudit extra = []
       | (Ok written, s3) =>
           List.filter isWriteOp extra = [OpUpdateUser user'; OpUpdateRole role']
           /\ cluster w' = snd (UpdateRole (backend bs) role' s3)
           /\ match fst (UpdateRole (backend bs) role' s3) with
              | Err err =>
                  res = Err (Wrap err "updating bot role")
                  /\ List.filter isAudit extra = []
              | Ok writtenRole =>
                  List.filter isAudit extra = [OpAudit (BotUpdate (metaName md))]
                  /\ res = match botFromUserAndRole types written writtenRole with
                           | Ok bot => Ok bot
                           | Err err => Err (Wrap err "converting from resources")
                           end
              end
       end.
Proof.
  intros Hauthz Hadmin Hcheck Huser Hrole Hmask traitsAsked rolesAsked.
  exists (if traitsAsked then withTraits spec user else user),
         (if rolesAsked then withRoles spec role else role).
  set (user' := if traitsAsked then withTraits spec user else user).
  set (role' := if rolesAsked then withRoles spec role else role).
  assert (Hu : userMetadata user' = userMetadata user
               /\ userRoles user' = userRoles user
               /\ userCreatedBy user' = userCreatedBy user
               /\ userTraits user' =
                    if traitsAsked then collectTraits (specTraits spec) else userTraits user)
    by (unfold user'; destruct traitsAsked; repeat split; reflexivity).
  assert (Hr : roleMetadata role' = roleMetadata role
               /\ Options (roleSpec role') = Options (roleSpec role)
               /\ Rules (Allow (roleSpec role')) = Rules (Allow (roleSpec role))
               /\ Impersonate (Allow (roleSpec role')) =
                    if rolesAsked then Some {| Roles := specRoles spec |}
                    else Impersonate (Allow (roleSpec role)))
    by (unfold role'; destruct rolesAsked; repeat split; reflexivity).
  unfold UpdateBot. rewrite Hauthz, Hadmin, Hcheck. svc.
  rewrite Huser. cbn [cluster ops]. rewrite Hrole.
  rewrite applyPaths_by_mask, Hmask.
  fold traitsAsked rolesAsked user' role'.
  cbn [cluster ops].
  destruct (UpdateUser (backend bs) user' s2) as [[written|e] s3].
  2:{ eexists _, _, [_; _; _]. rewrite <- !app_assoc.
      split; [reflexivity|]. split; [reflexivity|]. split; [exact Hu|]. split; [exact Hr|].
      repeat split. }
  cbn [cluster ops].
  destruct (UpdateRole (backend bs) role' s3) as [[writtenRole|e] s4].
  2:{ eexists _, _, [_; _; _; _]. rewrite <- !app_assoc.
      split; [reflexivity|]. split; [reflexivity|]. split; [exact Hu|]. split; [exact Hr|].
      repeat split. }
  cbn [cluster ops fst snd].
  destruct (EmitAuditEvent bs (BotUpdate (metaName md)));
    cbn [cluster ops];
    destruct (botFromUserAndRole types written writtenRole);
    (eexists _, _, _; split; [reflexivity|];
     split; [cbn [ops]; rewrite <- !app_assoc; reflexivity|];
     split; [exact Hu|]; split; [exact Hr|]; repeat split).
Qed.

End ServiceFacts.

(** *** A sample service *)

Definition Cluster : Type := (gmap string User * gmap string Role)%type.

Definition sampleRBAC : RBAC :=
  {| KindUser := "user"; KindRole := "role"; KindToken := "token";
     VerbCreate := "create"; VerbRead := "read"; VerbList := "list";
     VerbUpdate := "update"; VerbDelete := "delete" |}.

Definition allowAll : Authz :=
  {| AuthorizeWithVerbs := fun _ _ => Ok {| authUser := "admin" |};
     AuthorizeAdminAction := fun _ => None;
     AuthorizeAdminActionAllowReusedMFA := fun _ => None;
     ClientUsername := "admin" |}.

Definition denyAll : Authz :=
  {| AuthorizeWithVerbs := fun _ _ => Err (Foreign "access denied");
     AuthorizeAdminAction := fun _ => None;
     AuthorizeAdminActionAllowReusedMFA := fun _ => None;
     ClientUsername := "guest" |}.

Definition denyAdmin : Authz :=
  {| AuthorizeWithVerbs := fun _ _ => Ok {| authUser := "admin" |};
     AuthorizeAdminAction := fun _ => Some (Foreign "MFA required");
     AuthorizeAdminActionAllowReusedMFA := fun _ => Some (Foreign "MFA required");
     ClientUsername := "admin" |}.

Definition lookupUser (name : string) (s : Cluster) : result User * Cluster :=
  (match fst s !! name with
   | Some u => Ok u
   | None => Err (NotFound name)
   end, s).

Definition lookupRole (name : string) (s : Cluster) : result Role * Cluster :=
  (match snd s !! name with
   | Some r => Ok r
   | None => Err (NotFound name)
   end, s).

Definition memoryCache : Cache Cluster :=
  {| cache_GetUser := fun name _ => lookupUser name;
     cache_ListUsers := fun _ _ _ s => (Ok (snd <$> map_to_list (fst s), ""), s);
     cache_GetRole := lookupRole |}.

Definition memoryFullBackend : FullBackend Cluster :=
  {| upserts := memoryBackend;
     CreateUser := fun u s => (Ok u, (<[ User_GetName u := u ]> (fst s), snd s));
     CreateRole := fun r s => (Ok r, (fst s, <[ Role_GetName r := r ]> (snd s)));
     UpdateUser := fun u s => (Ok u, (<[ User_GetName u := u ]> (fst s), snd s));
     UpdateRole := fun r s => (Ok r, (fst s, <[ Role_GetName r := r ]> (snd s)));
     DeleteRole := fun name s => (None, (fst s, delete name (snd s)));
     DeleteUser := fun name s => (None, (delete name (fst s), snd s));
     GetRole := lookupRole |}.

Definition serviceWith (a : Authz) : Service Cluster :=
  {| cache := memoryCache; backend := memoryFullBackend; authorizer := a;
     EmitAuditEvent := fun _ => None; clockNow := 0 |}.

Definition plainQuote (s : string) : string := s.

(** A cluster with the user and the role of the bot ["build bot"]. *)
Definition botUserInCluster : User :=
  {| userMetadata :=
       {| Name := "bot-build-bot"; Description := "";
          Labels := <[ "teleport.internal/bot" := "build bot" ]>
                      (<[ "teleport.internal/bot-generation" := "7" ]> ∅) |};
     userRoles := ["bot-build-bot"];
     userTraits := ∅;
     userCreatedBy := {| createdByUser := "admin"; createdByTime := 1 |} |}.

Definition botRoleInCluster : Role :=
  {| roleMetadata :=
       {| Name := "bot-build-bot"; Description := "";
          Labels := {[ "teleport.internal/bot" := "build bot" ]} |};
     roleSpec := botRoleSpec sampleTypes ["access"] |}.

Definition botCluster : Cluster :=
  ({[ "bot-build-bot" := botUserInCluster ]}, {[ "bot-build-bot" := botRoleInCluster ]}).

Definition botWorld : World Cluster := {| cluster := botCluster; ops := [] |}.

Lemma unauthorized_no_access_witness :
  exists err,
    GetBot sampleTypes sampleRBAC (serviceWith denyAll) {| getBotName := "build bot" |} botWorld
      = (Err err, botWorld).
Proof.
  apply (unauthorized_no_access sampleTypes sampleRBAC plainQuote (serviceWith denyAll) botWorld).
  intros kind verbs. eexists. reflexivity.
Defined.

Lemma admin_action_required_witness :
  exists err,
    UpdateBot sampleTypes sampleRBAC plainQuote (serviceWith denyAdmin)
      {| updateBot := Some sampleBot; UpdateMask := Some {| Paths := ["spec.roles"] |} |}
      botWorld = (Err err, botWorld).
Proof.
  apply (admin_action_required sampleTypes sampleRBAC plainQuote (serviceWith denyAdmin) botWorld).
  intros authCtx. split; eexists; reflexivity.
Defined.

Lemma legacy_authz_fallback_witness :
  AuthorizeAdminActionAllowReusedMFA allowAll {| authUser := "admin" |} = None.
Proof.
  pose proof (legacy_authz_fallback sampleTypes sampleRBAC (serviceWith allowAll) botWorld)
    as Hfallback.
  cbv zeta in Hfallback. destruct Hfallback as (_ & _ & Hcreated & _).
  apply (Hcreated {| authUser := "admin" |}). reflexivity.
Defined.

Lemma delete_checks_label_witness :
  exists extra,
    ops (snd (deleteBotUser sampleTypes (serviceWith allowAll) "build-bot" botWorld))
      = ops botWorld ++ extra
    /\ List.filter isWriteOp extra = [].
Proof.
  destruct (delete_checks_label sampleTypes (serviceWith allowAll) "build-bot" botWorld)
    as [(extra & Hops & Honly) _].
  exists extra. split; [exact Hops|].
  destruct (List.filter isWriteOp extra) as [|op rest] eqn:Hfilter; [reflexivity|].
  assert (Hin : In op (List.filter isWriteOp extra)) by (rewrite Hfilter; left; reflexivity).
  apply List.filter_In in Hin as [Hin Hw].
  destruct (Honly op Hin Hw) as (user & s1 & Hget & Hlabel & _).
  vm_compute in Hget. injection Hget as <- _. vm_compute in Hlabel. discriminate.
Defined.

Lemma update_mask_semantics_witness :
  applyPaths plainQuote sampleSpec ["spec.traits"; "spec.roles"; "spec.traits"]
    botUserInCluster botRoleInCluster
  = applyPaths plainQuote sampleSpec ["spec.roles"; "spec.traits"]
      botUserInCluster botRoleInCluster.
Proof.
  apply (update_mask_semantics plainQuote sampleSpec ["spec.roles"; "spec.traits"]
           botUserInCluster botRoleInCluster).
  - intros p. simpl. tauto.
  - reflexivity.
Defined.

Lemma UpdateBot_unsupported_path_witness :
  exists err w' extra,
    UpdateBot sampleTypes sampleRBAC plainQuote (serviceWith allowAll)
      {| updateBot := Some sampleBot;
         UpdateMask := Some {| Paths := ["spec.roles"; "metadata.name"] |} |}
      botWorld = (Err err, w')
    /\ ops w' = ops botWorld ++ extra
    /\ forallb (fun op => negb (isWriteOp op)) extra = true.
Proof.
  destruct (UpdateBot_unsupported_path sampleTypes sampleRBAC plainQuote (serviceWith allowAll)
              {| updateBot := Some sampleBot;
                 UpdateMask := Some {| Paths := ["spec.roles"; "metadata.name"] |} |}
              {| Paths := ["spec.roles"; "metadata.name"] |} "metadata.name" botWorld)
    as (err & w' & extra & Hrun & Hops & Hwrites & _).
  - reflexivity.
  - right. left. reflexivity.
  - reflexivity.
  - exists err, w', extra. auto.
Defined.

Lemma DeleteBot_attempts_both_witness :
  exists w',
    DeleteBot sampleTypes sampleRBAC (serviceWith allowAll)
      {| deleteBotName := "build bot" |} botWorld = (None, w')
    /\ cluster w' = (delete "bot-build-bot" (fst botCluster),
                     delete "bot-build-bot" (snd botCluster))
    /\ List.filter isAudit (ops w') = [OpAudit (BotDelete "build bot")].
Proof.
  destruct (DeleteBot_attempts_both sampleTypes sampleRBAC (serviceWith allowAll)
              {| deleteBotName := "build bot" |} botWorld eq_refl)
    as (res & w' & extra & Hrun & Hops & _ & Hfull).
  destruct Hfull as (_ & Hboth & Hrole & Haudit & _); [discriminate|].
  assert (Hdeleted :
    roleDeleted sampleTypes (serviceWith allowAll) "build bot"
      (cluster (snd (deleteBotUser sampleTypes (serviceWith allowAll) "build bot" botWorld)))
      (delete "bot-build-bot" (fst botCluster), delete "bot-build-bot" (snd botCluster))).
  { exists botRoleInCluster, (delete "bot-build-bot" (fst botCluster), snd botCluster).
    repeat split. }
  destruct (Hrole _ Hdeleted) as [Hcluster _].
  assert (Hres : res = None).
  { apply Hboth. rewrite Hcluster. split; [|exact Hdeleted].
    exists botUserInCluster, botCluster. repeat split. }
  subst res. exists w'. split; [exact Hrun|]. split; [exact Hcluster|].
  rewrite Hops. cbn [ops botWorld app]. apply Haudit. reflexivity.
Defined.

Definition emptyWorld : World Cluster := {| cluster := (∅, ∅); ops := [] |}.

Lemma CreateBot_creates_in_order_witness :
  exists bot w' ev,
    CreateBot sampleTypes sampleRBAC (serviceWith allowAll)
      {| createBot := Some sampleBot |} emptyWorld = (Returns (Ok bot), w')
    /\ Metadata_ bot = Some sampleMeta
    /\ List.filter isEvent (ops w') = [OpReport ev; OpAudit (BotCreate "build bot")]
    /\ fst (cluster w') !! "bot-build-bot"
       = Some (botUser sampleTypes "build bot" (specTraits sampleSpec) 0 "admin" sampleUser0).
Proof.
  destruct (CreateBot_creates_in_order sampleTypes sampleRBAC (serviceWith allowAll)
              {| createBot := Some sampleBot |} emptyWorld)
    as (out & w' & extra & Hrun & Hops & _ & _ & _ & Hreturned & Hcreated).
  destruct (Hcreated {| authUser := "admin" |} sampleBot
              (botUser sampleTypes "build bot" (specTraits sampleSpec) 0 "admin" sampleUser0)
              (botRole sampleTypes "build bot" sampleRole0)
              (botUser sampleTypes "build bot" (specTraits sampleSpec) 0 "admin" sampleUser0)
              (<[ "bot-build-bot" :=
                    botUser sampleTypes "build bot" (specTraits sampleSpec) 0 "admin" sampleUser0 ]> ∅,
               ∅)
              eq_refl eq_refl eq_refl eq_refl eq_refl)
    as (_ & Hcluster & Hout).
  cbn [fst memoryFullBackend CreateRole serviceWith backend] in Hout.
  specialize (Hout _ eq_refl).
  destruct (Hreturned _ Hout) as (user & role & ev & name & _ & Hevents & Hmeta & _).
  eexists _, w', ev. split; [rewrite <- Hout; exact Hrun|].
  split; [reflexivity|].
  split.
  - rewrite Hops. cbn [ops emptyWorld app]. rewrite Hevents.
    cbn [Metadata_] in Hmeta. injection Hmeta as <-. reflexivity.
  - rewrite Hcluster. reflexivity.
Defined.

Lemma ListBots_skips_witness :
  exists bot,
    fst (ListBots sampleTypes sampleRBAC (serviceWith allowAll)
           {| PageSize := 10; PageToken := "" |} botWorld)
      = Ok {| Bots := [bot]; NextPageToken := "" |}
    /\ Metadata_ bot = Some sampleMeta.
Proof.
  destruct (ListBots_skips sampleTypes sampleRBAC (serviceWith allowAll)
              {| PageSize := 10; PageToken := "" |} botWorld
              {| authUser := "admin" |}
              (snd <$> map_to_list (fst botCluster)) "" botCluster)
    as (Hrun & _); try reflexivity.
  - intros name s. reflexivity.
  - rewrite Hrun. cbn [fst]. eexists. split; [vm_compute; reflexivity | reflexivity].
Defined.

Lemma reads_use_cache_only_witness :
  exists bot w',
    GetBot sampleTypes sampleRBAC (serviceWith allowAll) {| getBotName := "build bot" |} botWorld
      = (Ok bot, w')
    /\ Metadata_ bot = Some sampleMeta
    /\ ops w' = [OpCacheGetUser "bot-build-bot" false; OpCacheGetRole "bot-build-bot"].
Proof.
  destruct (reads_use_cache_only sampleTypes sampleRBAC (serviceWith allowAll) botWorld)
    as [Hget _].
  destruct (Hget {| getBotName := "build bot" |})
    as (res & w' & extra & Hrun & Hops & _ & Hshape & _ & Hfound).
  assert (Hworld : w' = snd (GetBot sampleTypes sampleRBAC (serviceWith allowAll)
                               {| getBotName := "build bot" |} botWorld))
    by (rewrite Hrun; reflexivity).
  assert (Hcluster : cluster w' = botCluster) by (rewrite Hworld; reflexivity).
  assert (Hres : exists bot, res = Ok bot /\ Metadata_ bot = Some sampleMeta).
  { assert (Hbot : exists bot,
              botFromUserAndRole sampleTypes botUserInCluster botRoleInCluster = Ok bot
              /\ Metadata_ bot = Some sampleMeta)
      by (eexists; split; reflexivity).
    destruct Hbot as (bot & Hbot & Hmeta). exists bot. split; [|exact Hmeta].
    apply Hfound.
    exists {| authUser := "admin" |}, botUserInCluster, botCluster, botRoleInCluster.
    rewrite Hcluster. split; [reflexivity|]. split; [discriminate|].
    split; [reflexivity|]. split; [reflexivity|]. exact Hbot. }
  destruct Hres as (bot & -> & Hmeta).
  exists bot, w'. split; [exact Hrun|]. split; [exact Hmeta|].
  rewrite Hops. cbn [ops botWorld app].
  destruct Hshape as [-> | [-> | ->]]; [| |reflexivity];
    rewrite Hworld in Hops; vm_compute in Hops; discriminate.
Defined.

Lemma UpdateBot_keeps_metadata_witness :
  exists user' role' bot w',
    UpdateBot sampleTypes sampleRBAC plainQuote (serviceWith allowAll)
      {| updateBot := Some sampleBot; UpdateMask := Some {| Paths := ["spec.traits"] |} |}
      botWorld = (Ok bot, w')
    /\ List.filter isWriteOp (ops w') = [OpUpdateUser user'; OpUpdateRole role']
    /\ User_GetLabel user' "teleport.internal/bot-generation" = Some "7"
    /\ userTraits user' = collectTraits (specTraits sampleSpec)
    /\ role' = botRoleInCluster.
Proof.
  destruct (UpdateBot_keeps_metadata sampleTypes sampleRBAC plainQuote (serviceWith allowAll)
              {| updateBot := Some sampleBot; UpdateMask := Some {| Paths := ["spec.traits"] |} |}
              {| authUser := "admin" |}
              sampleMeta sampleSpec {| Paths := ["spec.traits"] |} botWorld
              botUserInCluster botCluster botRoleInCluster botCluster
              eq_refl eq_refl eq_refl eq_refl eq_refl eq_refl)
    as (user' & role' & res & w' & extra & Hrun & Hops & Hu & Hr & Hwrites).
  destruct Hu as (Humeta & _ & _ & Htraits).
  destruct Hr as (Hrmeta & Hropts & Hrrules & Hrimp).
  cbn [existsb String.eqb orb] in Htraits, Hrimp.
  change (String.eqb "spec.traits" "spec.traits") with true in Htraits.
  change (String.eqb "spec.traits" "spec.roles") with false in Hrimp.
  cbn [orb] in Htraits, Hrimp.
  cbn [serviceWith backend memoryFullBackend UpdateUser UpdateRole fst snd] in Hwrites.
  destruct Hwrites as (Hwritten & _ & _ & Hres).
  assert (Hrole' : role' = botRoleInCluster).
  { destruct role' as [m [o [r i]]]. cbn in Hrmeta, Hropts, Hrrules, Hrimp. subst.
    reflexivity. }
  assert (Hgen : User_GetLabel user' "teleport.internal/bot-generation" = Some "7").
  { unfold User_GetLabel, User_GetMetadata. rewrite Humeta. reflexivity. }
  assert (Hbot : exists bot, res = Ok bot).
  { rewrite Hres. unfold botFromUserAndRole, User_GetLabel, User_GetMetadata.
    rewrite Humeta. eexists. reflexivity. }
  destruct Hbot as [bot ->].
  exists user', role', bot, w'. split; [exact Hrun|].
  split; [rewrite Hops; exact Hwritten|]. auto.
Defined.

Example update_keeps_generation :
  List.filter isWriteOp
    (ops (snd (UpdateBot sampleTypes sampleRBAC plainQuote (serviceWith allowAll)
                 {| updateBot := Some sampleBot;
                    UpdateMask := Some {| Paths := ["spec.traits"] |} |}
                 botWorld)))
  = [OpUpdateUser (User_SetTraits botUserInCluster (collectTraits (specTraits sampleSpec)));
     OpUpdateRole botRoleInCluster].
Proof. vm_compute. reflexivity. Qed.

End BotServiceFacts.
